(** * Blog data model: Post, Category and Comment schemas and the post controller

    A shallow embedding of the Mongoose models (Post, Category, Comment) and of
    the post controller of the blog application, followed by the verification
    of the properties stated for them.

    Conventions of the embedding:
    - a JavaScript string is a list of code units; the embedding covers the
      code units 0..255 (Latin-1), one [ascii] each;
    - an ObjectId is identified with its string form, so [toString()] is the
      identity and [===] on two such strings is [str_eqb];
    - a date is its epoch-millisecond value in [Z]; [Date.now()] and
      [new Date()] are read from an explicit argument [now];
    - a collection is the list of its documents in natural (insertion) order;
    - an asynchronous operation is the state transformer it awaits. *)

From Stdlib Require Import Ascii String.
From Stdlib Require Import List ZArith NArith Lia Bool.
From Stdlib Require Import Permutation Sorted.
From Stdlib Require Import DecimalString DecimalZ DecimalPos DecimalFacts.
From Stdlib Require Import QArith Qround.
Import ListNotations.

Close Scope Q_scope.
Open Scope Z_scope.

(* ------------------------------------------------------------------------- *)
(** ** JavaScript strings and the String.prototype methods the models call   *)
(* ------------------------------------------------------------------------- *)

Module JS.

Abbreviation jsstring := (list ascii).

(** A literal. *)
Definition str (s : string) : jsstring := list_ascii_of_string s.

Definition code (c : ascii) : N := N_of_ascii c.

Definition in_range (lo hi : N) (c : ascii) : bool :=
  (N.leb lo (code c) && N.leb (code c) hi)%bool.

Definition is_lower (c : ascii) : bool := in_range 97 122 c.
Definition is_upper (c : ascii) : bool := in_range 65 90 c.
Definition is_digit (c : ascii) : bool := in_range 48 57 c.
Definition is_hyphen (c : ascii) : bool := N.eqb (code c) 45.

(** The regular-expression class [\s] on the code units 0..255:
    TAB, LF, VT, FF, CR, SPACE and NO-BREAK SPACE. *)
Definition is_space (c : ascii) : bool :=
  (in_range 9 13 c || N.eqb (code c) 32 || N.eqb (code c) 160)%bool.

(** [===] on strings. *)
Fixpoint str_eqb (a b : jsstring) : bool :=
  match a, b with
  | [], [] => true
  | x :: a', y :: b' => (Ascii.eqb x y && str_eqb a' b')%bool
  | _, _ => false
  end.

(** [String.prototype.toLowerCase] on one code unit: [A-Z] and the Latin-1
    capitals U+00C0..U+00DE (the multiplication sign U+00D7 apart). *)
Definition lower_char (c : ascii) : ascii :=
  if (is_upper c || (in_range 192 222 c && negb (N.eqb (code c) 215)))%bool
  then ascii_of_N (code c + 32)
  else c.

Definition toLowerCase (s : jsstring) : jsstring := map lower_char s.

(** [s.replace(/[^a-zA-Z0-9\s]/g, '')]. *)
Definition keep_char (c : ascii) : bool :=
  (is_lower c || is_upper c || is_digit c || is_space c)%bool.

Definition strip_non_alnum (s : jsstring) : jsstring := filter keep_char s.

(** [s.replace(/\s+/g, '-')]: every maximal run of [\s] becomes one hyphen.
    [in_run] tells that the previous code unit belonged to the current run. *)
Fixpoint hyphenate_from (in_run : bool) (s : jsstring) : jsstring :=
  match s with
  | [] => []
  | c :: s' =>
      if is_space c
      then (if in_run then hyphenate_from true s'
            else "-"%char :: hyphenate_from true s')
      else c :: hyphenate_from false s'
  end.

Definition hyphenate (s : jsstring) : jsstring := hyphenate_from false s.

(** [String.prototype.trim]: white space is removed at both ends. *)
Fixpoint drop_while (f : ascii -> bool) (s : jsstring) : jsstring :=
  match s with
  | [] => []
  | c :: s' => if f c then drop_while f s' else s
  end.

Definition trim_with (f : ascii -> bool) (s : jsstring) : jsstring :=
  rev (drop_while f (rev (drop_while f s))).

Definition trim (s : jsstring) : jsstring := trim_with is_space s.

(** [s.split(/\s+/)]: the pieces between the maximal runs of [\s]; a run at
    either end leaves an empty piece there, and the empty string splits into
    one empty piece.  [cur] is the current piece, reversed. *)
Fixpoint split_from (in_run : bool) (cur : jsstring) (s : jsstring)
  : list jsstring :=
  match s with
  | [] => [rev cur]
  | c :: s' =>
      if is_space c
      then (if in_run then split_from true [] s'
            else rev cur :: split_from true [] s')
      else split_from false (c :: cur) s'
  end.

Definition split_ws (s : jsstring) : list jsstring := split_from false [] s.

(** [s.substring(0, n)]. *)
Definition substring0 (n : nat) (s : jsstring) : jsstring := firstn n s.

(** Number-to-string conversion of an integer (['-' + Date.now()]
    concatenates its decimal digits). *)
Definition number_toString (n : Z) : jsstring :=
  str (NilZero.string_of_int (Z.to_int n)).

(** [Math.ceil(a / b)] on two integers with [b] not 0, through the exact
    quotient. *)
Definition Math_ceil_div (a b : Z) : Z :=
  Qceiling (Qdiv (inject_Z a) (inject_Z b)).

(** Truthiness of a string value that may be [undefined]. *)
Definition truthy (o : option jsstring) : bool :=
  match o with
  | Some (_ :: _) => true
  | _ => false
  end.

End JS.
Import JS.

Abbreviation ObjectId := (list ascii).

(* ------------------------------------------------------------------------- *)
(** ** Query stages shared by the models: sort, skip, limit                  *)
(* ------------------------------------------------------------------------- *)

Module Query.

Section Stages.
Context {A : Type}.

(** [sort]: a stable insertion sort along [leb].  MongoDB fixes no order
    among documents whose sort keys are equal; the embedding takes the order
    of insertion there.  A statement that needs more than sortedness and
    membership says what it asks of the keys. *)
Fixpoint insert_by (leb : A -> A -> bool) (x : A) (l : list A) : list A :=
  match l with
  | [] => [x]
  | y :: l' => if leb x y then x :: l else y :: insert_by leb x l'
  end.

Definition sort_by (leb : A -> A -> bool) (l : list A) : list A :=
  fold_right (insert_by leb) [] l.

(** [{ field: 1 }] sorts ascending, [{ field: -1 }] descending. *)
Definition directed (leb : A -> A -> bool) (order : Z) : A -> A -> bool :=
  if order <? 0 then (fun x y => leb y x) else leb.

(** [skip(n)].  Whatever the order of the calls that build a query, its
    documents are sorted, then skipped, then limited.  For a negative [n],
    which the server refuses, nothing is skipped. *)
Definition skip (n : Z) (l : list A) : list A := skipn (Z.to_nat n) l.

(** [limit(n)]; a limit of 0 is no limit. *)
Definition limit (n : Z) (l : list A) : list A :=
  if n =? 0 then l else firstn (Z.to_nat (Z.abs n)) l.

(** [findOne]: the first document that matches. *)
Definition findOne (f : A -> bool) (l : list A) : option A := find f l.

(** [countDocuments]. *)
Definition countDocuments (f : A -> bool) (l : list A) : Z :=
  Z.of_nat (length (filter f l)).

(** [deleteMany]. *)
Definition deleteMany (f : A -> bool) (l : list A) : list A :=
  filter (fun d => negb (f d)) l.

(** [updateOne]: the first document that matches is rewritten. *)
Fixpoint updateOne (f : A -> bool) (g : A -> A) (l : list A) : list A :=
  match l with
  | [] => []
  | x :: l' => if f x then g x :: l' else x :: updateOne f g l'
  end.

End Stages.

(** Binary comparison of two strings (the simple collation). *)
Fixpoint str_leb (a b : jsstring) : bool :=
  match a, b with
  | [], _ => true
  | _ :: _, [] => false
  | x :: a', y :: b' =>
      if N.ltb (code x) (code y) then true
      else if N.ltb (code y) (code x) then false
      else str_leb a' b'
  end.

(** The values a document is sorted by, and their order: values of different
    types compare by type (null, number, string, ObjectId, boolean, date). *)
Inductive value : Type :=
| VNull
| VNumber (n : Z)
| VString (s : jsstring)
| VObjectId (i : ObjectId)
| VBoolean (b : bool)
| VDate (t : Z).

Definition rank (v : value) : Z :=
  match v with
  | VNull => 0
  | VNumber _ => 1
  | VString _ => 2
  | VObjectId _ => 3
  | VBoolean _ => 4
  | VDate _ => 5
  end.

Definition value_leb (a b : value) : bool :=
  match a, b with
  | VNumber x, VNumber y => x <=? y
  | VString x, VString y => str_leb x y
  | VObjectId x, VObjectId y => str_leb x y
  | VBoolean x, VBoolean y => implb x y
  | VDate x, VDate y => x <=? y
  | _, _ => rank a <=? rank b
  end.

Definition of_option {A} (f : A -> value) (o : option A) : value :=
  match o with Some x => f x | None => VNull end.

End Query.

(* ------------------------------------------------------------------------- *)
(** ** Mongoose documents                                                    *)
(* ------------------------------------------------------------------------- *)

(** A document in memory: its field values, whether it was never saved, and
    the paths set since it was loaded. *)
Record document (T : Type) : Type := Document {
  fields : T;
  isNew : bool;
  modifiedPaths : list string
}.
Arguments Document {T} _ _ _.
Arguments fields {T} _.
Arguments isNew {T} _.
Arguments modifiedPaths {T} _.

Definition isModified {T} (path : string) (d : document T) : bool :=
  existsb (String.eqb path) (modifiedPaths d).

(** A document as [findById] returns it. *)
Definition loaded {T} (x : T) : document T := Document x false [].

Definition with_fields {T} (d : document T) (x : T) : document T :=
  Document x (isNew d) (modifiedPaths d).

Definition markModified {T} (path : string) (d : document T) : document T :=
  Document (fields d) (isNew d) (path :: modifiedPaths d).

(** What [save()] and [remove()] settle to, with the collections as the call
    leaves them: the value the promise resolves with, or the error it rejects
    with. *)
Inductive outcome (D C : Type) : Type :=
| Resolved (d : D) (c : C)
| Rejected (c : C) (statusCode : option Z) (message : string).
Arguments Resolved {D C} _ _.
Arguments Rejected {D C} _ _ _.

(** Validators run on the paths that were set, and on every path of a new
    document. *)
Definition validated {T} (path : string) (d : document T) (ok : bool) : bool :=
  (negb (isNew d || isModified path d) || ok)%bool.

Definition length_between (lo hi : nat) (s : jsstring) : bool :=
  (Nat.leb lo (length s) && Nat.leb (length s) hi)%bool.

(** The [likes] arrays of posts and comments. *)
Module Likes.

Record entry : Type := mk {
  user : ObjectId;
  createdAt : Z
}.

(** The body shared, word for word, by [postSchema.methods.toggleLike] and
    [commentSchema.methods.toggleLike], up to [this.save()], for a [userId]
    that is an ObjectId or the string form of one, as [req.user.id] is: the
    entry pushed holds that very ObjectId. *)
Definition toggle (userId : ObjectId) (now : Z) (likes : list entry)
  : list entry :=
  let existingLike := find (fun like => str_eqb (user like) userId) likes in
  match existingLike with
  | Some _ => filter (fun like => negb (str_eqb (user like) userId)) likes
  | None => likes ++ [mk userId now]
  end.

(** The same body for a [userId] that is any string.  The users stored are
    compared, in their string form, with the string as it is given; the
    entry pushed holds the ObjectId the string is cast to, [None] when the
    cast fails: the entry is then invalid. *)
Definition toggle_string (cast : jsstring -> option ObjectId)
  (userId : jsstring) (now : Z) (likes : list entry)
  : option (list entry) :=
  let existingLike := find (fun like => str_eqb (user like) userId) likes in
  match existingLike with
  | Some _ =>
      Some (filter (fun like => negb (str_eqb (user like) userId)) likes)
  | None =>
      match cast userId with
      | Some i => Some (likes ++ [mk i now])
      | None => None
      end
  end.

(** [this.likes.some(like => like.user.toString() === userId.toString())]. *)
Definition some (userId : ObjectId) (likes : list entry) : bool :=
  existsb (fun like => str_eqb (user like) userId) likes.

End Likes.

(* ------------------------------------------------------------------------- *)
(** ** models/Comment.js                                                     *)
(* ------------------------------------------------------------------------- *)

Module Comment.

Record t : Type := mk {
  _id : ObjectId;
  content : jsstring;
  author : ObjectId;
  post : ObjectId;
  parentComment : option ObjectId;
  isApproved : bool;
  isEdited : bool;
  editedAt : option Z;
  likes : list Likes.entry;
  isReported : bool;
  reportCount : Z;
  createdAt : Z
}.

Definition set_edited (now : Z) (c : t) : t :=
  mk (_id c) (content c) (author c) (post c) (parentComment c) (isApproved c)
     true (Some now) (likes c) (isReported c) (reportCount c) (createdAt c).

Definition set_likes (l : list Likes.entry) (c : t) : t :=
  mk (_id c) (content c) (author c) (post c) (parentComment c) (isApproved c)
     (isEdited c) (editedAt c) l (isReported c) (reportCount c) (createdAt c).

Definition set_createdAt (now : Z) (c : t) : t :=
  mk (_id c) (content c) (author c) (post c) (parentComment c) (isApproved c)
     (isEdited c) (editedAt c) (likes c) (isReported c) (reportCount c) now.

(** Virtual [likeCount]. *)
Definition likeCount (c : t) : Z := Z.of_nat (length (likes c)).

(** Pre-save middleware: [isEdited] and [editedAt]. *)
Definition pre_save (now : Z) (d : document t) : document t :=
  if (isModified "content" d && negb (isNew d))%bool
  then with_fields d (set_edited now (fields d))
  else d.

Definition validate (d : document t) : bool :=
  validated "content" d (length_between 1 1000 (content (fields d))).

(** The write of a saved document: an insert when new, else an update of the
    document with its [_id]. *)
Definition persist (isNew : bool) (c : t) (coll : list t) : list t :=
  if isNew then coll ++ [c]
  else Query.updateOne (fun x => str_eqb (_id x) (_id c)) (fun _ => c) coll.

Definition save (now : Z) (d : document t) (coll : list t)
  : outcome (document t) (list t) :=
  if validate d then
    let d1 := pre_save now d in
    let c := if isNew d1 then set_createdAt now (fields d1) else fields d1 in
    Resolved (loaded c) (persist (isNew d1) c coll)
  else Rejected coll None "ValidationError".

(** A filter object over [post], [isApproved] and [parentComment]; a key that
    is absent is [None], and [parentComment: null] is [Some None]. *)
Record filter_obj : Type := Filter {
  f_post : option ObjectId;
  f_isApproved : option bool;
  f_parentComment : option (option ObjectId)
}.

Definition opt_id_eqb (a b : option ObjectId) : bool :=
  match a, b with
  | None, None => true
  | Some x, Some y => str_eqb x y
  | _, _ => false
  end.

Definition matches (q : filter_obj) (c : t) : bool :=
  (match f_post q with Some p => str_eqb (post c) p | None => true end
   && match f_isApproved q with Some b => Bool.eqb (isApproved c) b | None => true end
   && match f_parentComment q with
      | Some pc => opt_id_eqb (parentComment c) pc
      | None => true
      end)%bool.

(** The value a comment is sorted by, for a field name. *)
Definition sort_key (field : string) (c : t) : Query.value :=
  if String.eqb field "_id" then Query.VObjectId (_id c)
  else if String.eqb field "content" then Query.VString (content c)
  else if String.eqb field "author" then Query.VObjectId (author c)
  else if String.eqb field "post" then Query.VObjectId (post c)
  else if String.eqb field "parentComment"
       then Query.of_option Query.VObjectId (parentComment c)
  else if String.eqb field "isApproved" then Query.VBoolean (isApproved c)
  else if String.eqb field "isEdited" then Query.VBoolean (isEdited c)
  else if String.eqb field "editedAt"
       then Query.of_option Query.VDate (editedAt c)
  else if String.eqb field "isReported" then Query.VBoolean (isReported c)
  else if String.eqb field "reportCount" then Query.VNumber (reportCount c)
  else if String.eqb field "createdAt" then Query.VDate (createdAt c)
  else Query.VNull.

Definition by_field (field : string) (x y : t) : bool :=
  Query.value_leb (sort_key field x) (sort_key field y).

(** The options of [findByPost]; a key left out is [None]. *)
Record options : Type := Options {
  page : option Z;
  limit : option Z;
  sortBy : option string;
  sortOrder : option Z;
  includeReplies : option bool
}.

Definition or_default {A} (o : option A) (d : A) : A :=
  match o with Some x => x | None => d end.

(** [commentSchema.statics.findByPost]; the [populate] calls resolve the
    references of the comments found and select none. *)
Definition findByPost (postId : ObjectId) (o : options) (coll : list t)
  : list t :=
  let page := or_default (page o) 1 in
  let limit := or_default (limit o) 10 in
  let sortBy := or_default (sortBy o) "createdAt"%string in
  let sortOrder := or_default (sortOrder o) (-1) in
  let includeReplies := or_default (includeReplies o) false in
  let query :=
    Filter (Some postId) (Some true)
           (if includeReplies then None else Some None) in
  Query.limit (limit * 1)
    (Query.skip ((page - 1) * limit)
       (Query.sort_by (Query.directed (by_field sortBy) sortOrder)
          (filter (matches query) coll))).

(** [commentSchema.statics.findReplies]. *)
Definition findReplies (commentId : ObjectId) (coll : list t) : list t :=
  Query.sort_by (Query.directed (by_field "createdAt") 1)
    (filter (matches (Filter None (Some true) (Some (Some commentId)))) coll).

(** [Comment.findById]. *)
Definition findById (id : ObjectId) (coll : list t) : option t :=
  Query.findOne (fun x => str_eqb (_id x) id) coll.

(** [commentSchema.methods.toggleLike]. *)
Definition toggleLike (userId : ObjectId) (now : Z) (d : document t)
  (coll : list t) : outcome (document t) (list t) :=
  let likes' := Likes.toggle userId now (likes (fields d)) in
  save now (markModified "likes" (with_fields d (set_likes likes' (fields d))))
       coll.

(** [commentSchema.methods.toggleLike] for a [userId] that is any string;
    [save()] rejects the document when the entry pushed is invalid. *)
Definition toggleLike_string (cast : jsstring -> option ObjectId)
  (userId : jsstring) (now : Z) (d : document t) (coll : list t)
  : outcome (document t) (list t) :=
  match Likes.toggle_string cast userId now (likes (fields d)) with
  | Some likes' =>
      save now
        (markModified "likes" (with_fields d (set_likes likes' (fields d))))
        coll
  | None => Rejected coll None "ValidationError"
  end.

(** [commentSchema.methods.isLikedBy]. *)
Definition isLikedBy (userId : ObjectId) (c : t) : bool :=
  Likes.some userId (likes c).

(** Pre-remove middleware followed by the removal of the document itself. *)
Definition remove (c : t) (coll : list t) : outcome unit (list t) :=
  let coll1 :=
    Query.deleteMany (matches (Filter None None (Some (Some (_id c))))) coll in
  Resolved tt (Query.deleteMany (fun x => str_eqb (_id x) (_id c)) coll1).

Definition set_isApproved (b : bool) (c : t) : t :=
  mk (_id c) (content c) (author c) (post c) (parentComment c) b
     (isEdited c) (editedAt c) (likes c) (isReported c) (reportCount c)
     (createdAt c).

Definition set_reported (c : t) : t :=
  mk (_id c) (content c) (author c) (post c) (parentComment c) (isApproved c)
     (isEdited c) (editedAt c) (likes c) true (reportCount c + 1)
     (createdAt c).

(** An assignment marks its path modified when it changes the value. *)
Definition assigned (path : string) (changed : bool) (d : document t)
  : document t :=
  if changed then markModified path d else d.

(** [commentSchema.methods.report]. *)
Definition report (now : Z) (d : document t) (coll : list t)
  : outcome (document t) (list t) :=
  save now
    (assigned "isReported" (negb (isReported (fields d)))
       (markModified "reportCount" (with_fields d (set_reported (fields d)))))
    coll.

(** [commentSchema.methods.approve]. *)
Definition approve (now : Z) (d : document t) (coll : list t)
  : outcome (document t) (list t) :=
  save now
    (assigned "isApproved" (negb (isApproved (fields d)))
       (with_fields d (set_isApproved true (fields d))))
    coll.

(** [commentSchema.methods.reject]. *)
Definition reject (now : Z) (d : document t) (coll : list t)
  : outcome (document t) (list t) :=
  save now
    (assigned "isApproved" (isApproved (fields d))
       (with_fields d (set_isApproved false (fields d))))
    coll.

(** The document of the [$group] stage of [getPostStats]. *)
Record stats : Type := Stats {
  totalComments : Z;
  totalLikes : Z;
  lastCommentDate : Z
}.

(** The accumulators [{ $sum: 1 }], [{ $sum: { $size: '$likes' } }] and
    [{ $max: '$createdAt' }], from the first document of the group on. *)
Fixpoint group_from (acc : stats) (l : list t) : stats :=
  match l with
  | [] => acc
  | c :: l' =>
      group_from
        (Stats (totalComments acc + 1)
               (totalLikes acc + Z.of_nat (length (likes c)))
               (Z.max (lastCommentDate acc) (createdAt c)))
        l'
  end.

(** [commentSchema.statics.getPostStats]: [$match], then [$group] with
    [_id: null], which yields one document, or none when nothing matched. *)
Definition getPostStats (postId : ObjectId) (coll : list t) : list stats :=
  match filter (matches (Filter (Some postId) (Some true) None)) coll with
  | [] => []
  | c :: l =>
      [group_from (Stats 1 (Z.of_nat (length (likes c))) (createdAt c)) l]
  end.

End Comment.

(* ------------------------------------------------------------------------- *)
(** ** models/Post.js                                                        *)
(* ------------------------------------------------------------------------- *)

Module Post.

Inductive Status : Type := draft | published | archived.

Definition status_eqb (a b : Status) : bool :=
  match a, b with
  | draft, draft | published, published | archived, archived => true
  | _, _ => false
  end.

(** The [enum] validator of [status]. *)
Definition status_of_string (s : jsstring) : option Status :=
  if str_eqb s (str "draft") then Some draft
  else if str_eqb s (str "published") then Some published
  else if str_eqb s (str "archived") then Some archived
  else None.

(** The fields the hooks, methods and controller operations below read or
    write; [tags], [featuredImage], [seoMetadata], [isEditorsPick] and
    [updatedAt] are carried along by them untouched and are left out.
    [slug] is empty until the first save. *)
Record t : Type := mk {
  _id : ObjectId;
  title : jsstring;
  slug : jsstring;
  content : jsstring;
  excerpt : option jsstring;
  author : ObjectId;
  category : ObjectId;
  status : Status;
  publishedAt : option Z;
  readTime : Z;
  views : Z;
  likes : list Likes.entry;
  isFeatured : bool;
  allowComments : bool;
  createdAt : Z
}.

(** [this.slug = v]; the schema lowercases the value it is given. *)
Definition set_slug (v : jsstring) (p : t) : t :=
  mk (_id p) (title p) (toLowerCase v) (content p) (excerpt p) (author p)
     (category p) (status p) (publishedAt p) (readTime p) (views p) (likes p)
     (isFeatured p) (allowComments p) (createdAt p).

Definition set_excerpt (v : option jsstring) (p : t) : t :=
  mk (_id p) (title p) (slug p) (content p) v (author p)
     (category p) (status p) (publishedAt p) (readTime p) (views p) (likes p)
     (isFeatured p) (allowComments p) (createdAt p).

Definition set_publishedAt (v : option Z) (p : t) : t :=
  mk (_id p) (title p) (slug p) (content p) (excerpt p) (author p)
     (category p) (status p) v (readTime p) (views p) (likes p)
     (isFeatured p) (allowComments p) (createdAt p).

Definition set_readTime (v : Z) (p : t) : t :=
  mk (_id p) (title p) (slug p) (content p) (excerpt p) (author p)
     (category p) (status p) (publishedAt p) v (views p) (likes p)
     (isFeatured p) (allowComments p) (createdAt p).

Definition set_views (v : Z) (p : t) : t :=
  mk (_id p) (title p) (slug p) (content p) (excerpt p) (author p)
     (category p) (status p) (publishedAt p) (readTime p) v (likes p)
     (isFeatured p) (allowComments p) (createdAt p).

Definition set_likes (v : list Likes.entry) (p : t) : t :=
  mk (_id p) (title p) (slug p) (content p) (excerpt p) (author p)
     (category p) (status p) (publishedAt p) (readTime p) (views p) v
     (isFeatured p) (allowComments p) (createdAt p).

Definition set_createdAt (v : Z) (p : t) : t :=
  mk (_id p) (title p) (slug p) (content p) (excerpt p) (author p)
     (category p) (status p) (publishedAt p) (readTime p) (views p) (likes p)
     (isFeatured p) (allowComments p) v.

(** Virtual [likeCount]. *)
Definition likeCount (p : t) : Z := Z.of_nat (length (likes p)).

(** The word count of the [readTime] hook and of [estimatedReadTime]. *)
Definition wordCount (content : jsstring) : Z :=
  Z.of_nat (length (split_ws content)).

Definition wordsPerMinute : Z := 200.

(** Virtual [estimatedReadTime]; the empty string is falsy. *)
Definition estimatedReadTime (p : t) : Z :=
  match content p with
  | _ :: _ => Math_ceil_div (wordCount (content p)) wordsPerMinute
  | [] => 0
  end.

(** The right-hand side of the slug assignment. *)
Definition slug_of_title (title : jsstring) (now : Z) : jsstring :=
  trim (hyphenate (strip_non_alnum (toLowerCase title)))
  ++ str "-" ++ number_toString now.

(** Pre-save hook 1: the slug. *)
Definition pre_save_slug (now : Z) (d : document t) : document t :=
  if (isModified "title" d || isNew d)%bool
  then with_fields d (set_slug (slug_of_title (title (fields d)) now) (fields d))
  else d.

(** [s.replace(/<[^>]*>/g, '')]: a tag runs from a [<] to the first [>] after
    it; a [<] that no [>] follows starts no tag, and neither does anything
    after it. *)
Definition is_gt (c : ascii) : bool := Ascii.eqb c ">"%char.
Definition is_lt (c : ascii) : bool := Ascii.eqb c "<"%char.

Fixpoint strip_tags_from (in_tag : bool) (s : jsstring) : jsstring :=
  match s with
  | [] => []
  | c :: s' =>
      if in_tag
      then (if is_gt c then strip_tags_from false s' else strip_tags_from true s')
      else if is_lt c
           then (if existsb is_gt s' then strip_tags_from true s' else s)
           else c :: strip_tags_from false s'
  end.

Definition strip_tags (s : jsstring) : jsstring := strip_tags_from false s.

(** Pre-save hook 2: the excerpt. *)
Definition pre_save_excerpt (d : document t) : document t :=
  if (isModified "content" d && negb (truthy (excerpt (fields d))))%bool
  then
    let plainText := strip_tags (content (fields d)) in
    with_fields d
      (set_excerpt (Some (substring0 150 plainText ++ str "...")) (fields d))
  else d.

(** Pre-save hook 3: the publication date.  A date is truthy. *)
Definition pre_save_publishedAt (now : Z) (d : document t) : document t :=
  if (isModified "status" d
      && status_eqb (status (fields d)) published
      && negb (match publishedAt (fields d) with Some _ => true | None => false end))%bool
  then with_fields d (set_publishedAt (Some now) (fields d))
  else d.

(** Pre-save hook 4: the read time. *)
Definition pre_save_readTime (d : document t) : document t :=
  if isModified "content" d
  then
    let wordCount := wordCount (content (fields d)) in
    with_fields d (set_readTime (Math_ceil_div wordCount wordsPerMinute) (fields d))
  else d.

(** The four hooks, in the order of their registration. *)
Definition pre_save (now : Z) (d : document t) : document t :=
  pre_save_readTime
    (pre_save_publishedAt now (pre_save_excerpt (pre_save_slug now d))).

(** The schema validators of [title], [content] and [excerpt]; those of
    [seoMetadata] are left out with the path. *)
Definition excerpt_ok (e : option jsstring) : bool :=
  match e with Some s => Nat.leb (length s) 300 | None => true end.

Definition validate (d : document t) : bool :=
  (validated "title" d (length_between 5 200 (title (fields d)))
   && validated "content" d (Nat.leb 50 (length (content (fields d))))
   && validated "excerpt" d (excerpt_ok (excerpt (fields d))))%bool.

(** The write of a saved document: an insert when new, else an update of the
    document with its [_id]. *)
Definition persist (isNew : bool) (p : t) (coll : list t) : list t :=
  if isNew then coll ++ [p]
  else Query.updateOne (fun x => str_eqb (_id x) (_id p)) (fun _ => p) coll.

(** The unique index on [slug] ([unique: true]): the server refuses, with
    the error E11000, the insert of a document whose slug a stored document
    has, and the update that sets the slug of a document to the slug of
    another one.  The update of [save()] sets the slug when the slug hook
    has run or the path was set. *)
Definition duplicate_slug (d : document t) (p : t) (coll : list t) : bool :=
  if isNew d
  then existsb (fun x => str_eqb (slug x) (slug p)) coll
  else ((isModified "title" d || isModified "slug" d)
        && existsb (fun x => negb (str_eqb (_id x) (_id p))
                             && str_eqb (slug x) (slug p)) coll)%bool.

(** [save()]: validation, the pre-save hooks, the write. *)
Definition save (now : Z) (d : document t) (coll : list t)
  : outcome (document t) (list t) :=
  if validate d then
    let d1 := pre_save now d in
    let p := if isNew d1 then set_createdAt now (fields d1) else fields d1 in
    if duplicate_slug d1 p coll
    then Rejected coll None "E11000 duplicate key error"
    else Resolved (loaded p) (persist (isNew d1) p coll)
  else Rejected coll None "ValidationError".

(** What the controller hands to [Post.create]. *)
Record new_post : Type := NewPost {
  n_title : jsstring;
  n_content : jsstring;
  n_excerpt : option jsstring;
  n_category : ObjectId;
  n_status : jsstring;
  n_author : ObjectId;
  n_allowComments : bool
}.

Definition given {A} (path : string) (o : option A) : list string :=
  match o with Some _ => [path] | None => [] end.

(** [Post.create]: a new document with the schema defaults, then [save()].
    The schema trims the title; [newId] is the fresh [_id]. *)
Definition create (newId : ObjectId) (now : Z) (n : new_post) (coll : list t)
  : outcome (document t) (list t) :=
  match status_of_string (n_status n) with
  | None => Rejected coll None "ValidationError"
  | Some st =>
      save now
        (Document
           (mk newId (trim (n_title n)) [] (n_content n) (n_excerpt n)
               (n_author n) (n_category n) st None 0 0 [] false
               (n_allowComments n) now)
           true
           (["title"; "content"; "category"; "status"; "author";
             "allowComments"]%string ++ given "excerpt" (n_excerpt n)))
        coll
  end.

(** [postSchema.methods.toggleLike]. *)
Definition toggleLike (userId : ObjectId) (now : Z) (d : document t)
  (coll : list t) : outcome (document t) (list t) :=
  let likes' := Likes.toggle userId now (likes (fields d)) in
  save now (markModified "likes" (with_fields d (set_likes likes' (fields d))))
       coll.

(** [postSchema.methods.toggleLike] for a [userId] that is any string;
    [save()] rejects the document when the entry pushed is invalid. *)
Definition toggleLike_string (cast : jsstring -> option ObjectId)
  (userId : jsstring) (now : Z) (d : document t) (coll : list t)
  : outcome (document t) (list t) :=
  match Likes.toggle_string cast userId now (likes (fields d)) with
  | Some likes' =>
      save now
        (markModified "likes" (with_fields d (set_likes likes' (fields d))))
        coll
  | None => Rejected coll None "ValidationError"
  end.

(** [postSchema.methods.isLikedBy]. *)
Definition isLikedBy (userId : ObjectId) (p : t) : bool :=
  Likes.some userId (likes p).

(** Pre-remove middleware, then the removal of the document itself. *)
Definition remove (p : t) (posts : list t) (comments : list Comment.t)
  : outcome unit (list t * list Comment.t) :=
  let comments1 :=
    Query.deleteMany
      (Comment.matches (Comment.Filter (Some (_id p)) None None)) comments in
  Resolved tt
    (Query.deleteMany (fun x => str_eqb (_id x) (_id p)) posts, comments1).

(** [Post.findById], for an [id] that is an ObjectId; a string that stands
    for none, on which the cast of the query fails, is not of the
    embedding. *)
Definition findById (id : ObjectId) (coll : list t) : option t :=
  Query.findOne (fun x => str_eqb (_id x) id) coll.

(** The update document of [updatePost]: a key is [Some] when the spread
    puts it in. *)
Record update : Type := Update {
  u_title : option jsstring;
  u_content : option jsstring;
  u_excerpt : option jsstring;
  u_category : option ObjectId;
  u_status : option jsstring;
  u_allowComments : option bool
}.

(** [runValidators: true]: the schema validators of the keys given. *)
Definition update_valid (u : update) : bool :=
  (match u_title u with Some s => length_between 5 200 (trim s) | None => true end
   && match u_content u with Some s => Nat.leb 50 (length s) | None => true end
   && excerpt_ok (u_excerpt u)
   && match u_status u with
      | Some s => match status_of_string s with Some _ => true | None => false end
      | None => true
      end)%bool.

Definition or_else {A} (o : option A) (d : A) : A :=
  match o with Some x => x | None => d end.

(** The write of [findByIdAndUpdate]: the keys given are set, nothing else. *)
Definition apply_update (u : update) (p : t) : t :=
  mk (_id p)
     (match u_title u with Some s => trim s | None => title p end)
     (slug p)
     (or_else (u_content u) (content p))
     (match u_excerpt u with Some s => Some s | None => excerpt p end)
     (author p)
     (or_else (u_category u) (category p))
     (match u_status u with
      | Some s => or_else (status_of_string s) (status p)
      | None => status p
      end)
     (publishedAt p) (readTime p) (views p) (likes p) (isFeatured p)
     (or_else (u_allowComments u) (allowComments p))
     (createdAt p).

(** [Post.findByIdAndUpdate(id, update, { new: true, runValidators: true })]:
    a query, so no save middleware runs. *)
Definition findByIdAndUpdate (id : ObjectId) (u : update) (coll : list t)
  : outcome (option t) (list t) :=
  if update_valid u
  then let coll' :=
         Query.updateOne (fun x => str_eqb (_id x) id) (apply_update u) coll in
       Resolved (findById id coll') coll'
  else Rejected coll None "ValidationError".

(** [Post.findByIdAndUpdate(id, { $inc: { views: 1 } })]. *)
Definition inc_views (id : ObjectId) (coll : list t) : list t :=
  Query.updateOne (fun x => str_eqb (_id x) id)
                  (fun p => set_views (views p + 1) p) coll.

(** The value a post is sorted by, for a field name. *)
Definition status_string (s : Status) : jsstring :=
  match s with
  | draft => str "draft"
  | published => str "published"
  | archived => str "archived"
  end.

Definition sort_key (field : string) (p : t) : Query.value :=
  if String.eqb field "_id" then Query.VObjectId (_id p)
  else if String.eqb field "title" then Query.VString (title p)
  else if String.eqb field "slug" then Query.VString (slug p)
  else if String.eqb field "content" then Query.VString (content p)
  else if String.eqb field "excerpt"
       then Query.of_option Query.VString (excerpt p)
  else if String.eqb field "author" then Query.VObjectId (author p)
  else if String.eqb field "category" then Query.VObjectId (category p)
  else if String.eqb field "status" then Query.VString (status_string (status p))
  else if String.eqb field "publishedAt"
       then Query.of_option Query.VDate (publishedAt p)
  else if String.eqb field "readTime" then Query.VNumber (readTime p)
  else if String.eqb field "views" then Query.VNumber (views p)
  else if String.eqb field "isFeatured" then Query.VBoolean (isFeatured p)
  else if String.eqb field "allowComments"
       then Query.VBoolean (allowComments p)
  else if String.eqb field "createdAt" then Query.VDate (createdAt p)
  else Query.VNull.

Definition by_field (field : string) (x y : t) : bool :=
  Query.value_leb (sort_key field x) (sort_key field y).

(** [postSchema.statics.findPublished]; the [populate] calls select none. *)
Definition findPublished (coll : list t) : list t :=
  Query.sort_by (Query.directed (by_field "publishedAt") (-1))
    (filter (fun p => status_eqb (status p) published) coll).

(** [postSchema.statics.findFeatured]. *)
Definition findFeatured (coll : list t) : list t :=
  Query.sort_by (Query.directed (by_field "publishedAt") (-1))
    (filter (fun p => (status_eqb (status p) published && isFeatured p)%bool)
            coll).

(** [postSchema.statics.findByCategory]. *)
Definition findByCategory (categoryId : ObjectId) (coll : list t) : list t :=
  Query.sort_by (Query.directed (by_field "publishedAt") (-1))
    (filter (fun p => (status_eqb (status p) published
                       && str_eqb (category p) categoryId)%bool)
            coll).


End Post.

(* ------------------------------------------------------------------------- *)
(** ** server/models/Category.js                                             *)
(* ------------------------------------------------------------------------- *)

Module Category.

Record t : Type := mk {
  _id : ObjectId;
  name : jsstring;
  slug : jsstring;
  description : option jsstring;
  color : jsstring;
  icon : jsstring;
  isActive : bool;
  sortOrder : Z
}.

(** [this.slug = v]; the schema lowercases the value it is given. *)
Definition set_slug (v : jsstring) (c : t) : t :=
  mk (_id c) (name c) (toLowerCase v) (description c) (color c) (icon c)
     (isActive c) (sortOrder c).

(** The right-hand side of the slug assignment. *)
Definition slug_of_name (name : jsstring) : jsstring :=
  trim (hyphenate (strip_non_alnum (toLowerCase name))).

(** Pre-save hook: the slug. *)
Definition pre_save (d : document t) : document t :=
  if (isModified "name" d || isNew d)%bool
  then with_fields d (set_slug (slug_of_name (name (fields d))) (fields d))
  else d.

(** The [match] validator of [color]: [#] and three or six hex digits. *)
Definition is_hex (c : ascii) : bool :=
  (is_digit c || in_range 65 70 c || in_range 97 102 c)%bool.

Definition color_ok (s : jsstring) : bool :=
  match s with
  | c :: r =>
      (Ascii.eqb c "#"%char && forallb is_hex r
       && (Nat.eqb (length r) 6 || Nat.eqb (length r) 3))%bool
  | [] => false
  end.

Definition validate (d : document t) : bool :=
  (validated "name" d (length_between 2 50 (name (fields d)))
   && validated "description" d
        (match description (fields d) with
         | Some s => Nat.leb (length s) 200
         | None => true
         end)
   && validated "color" d (color_ok (color (fields d))))%bool.

Definition persist (isNew : bool) (c : t) (coll : list t) : list t :=
  if isNew then coll ++ [c]
  else Query.updateOne (fun x => str_eqb (_id x) (_id c)) (fun _ => c) coll.

(** The unique indexes on [name] and on [slug]: the write is refused when
    it gives the document the name or the slug of another stored one. *)
Definition duplicate_key (d : document t) (c : t) (coll : list t) : bool :=
  if isNew d
  then existsb (fun x => str_eqb (name x) (name c) || str_eqb (slug x) (slug c))
               coll
  else ((isModified "name" d || isModified "slug" d)
        && existsb (fun x => negb (str_eqb (_id x) (_id c))
                             && (str_eqb (name x) (name c)
                                 || str_eqb (slug x) (slug c))) coll)%bool.

Definition save (d : document t) (coll : list t)
  : outcome (document t) (list t) :=
  if validate d then
    let d1 := pre_save d in
    if duplicate_key d1 (fields d1) coll
    then Rejected coll None "E11000 duplicate key error"
    else Resolved (loaded (fields d1)) (persist (isNew d1) (fields d1) coll)
  else Rejected coll None "ValidationError".

(** [Category.findById], for an [id] that is an ObjectId. *)
Definition findById (id : ObjectId) (coll : list t) : option t :=
  Query.findOne (fun x => str_eqb (_id x) id) coll.

(** [{ sortOrder: 1, name: 1 }]. *)
Definition by_sortOrder_name (x y : t) : bool :=
  if sortOrder x <? sortOrder y then true
  else if sortOrder y <? sortOrder x then false
  else Query.str_leb (name x) (name y).

(** [categorySchema.statics.findActive]. *)
Definition findActive (coll : list t) : list t :=
  Query.sort_by by_sortOrder_name (filter isActive coll).

(** A document of the [withPostCounts] aggregation, between its stages: the
    category, the joined [posts] array while it is there, and [postCount]
    once it is added. *)
Record counted : Type := Counted {
  category : t;
  posts : list Z;
  postCount : Z
}.

(** The [$count] stage: one document holding the count, or none at all when
    nothing reaches the stage. *)
Definition count_stage {A} (l : list A) : list Z :=
  match l with
  | [] => []
  | _ :: _ => [Z.of_nat (length l)]
  end.

(** The [$lookup] stage: the posts whose [category] is the [_id], through the
    pipeline [$match status 'published'], [$count 'count']; [posts] holds
    the [count] of each resulting document. *)
Definition lookup_stage (all_posts : list Post.t) (c : t) : counted :=
  let joined := filter (fun p => str_eqb (Post.category p) (_id c)) all_posts in
  let matched :=
    filter (fun p => Post.status_eqb (Post.status p) Post.published) joined in
  Counted c (count_stage matched) 0.

(** The [$addFields] stage:
    [$ifNull: [{ $arrayElemAt: ['$posts.count', 0] }, 0]]. *)
Definition addFields_stage (d : counted) : counted :=
  Counted (category d) (posts d)
          (match nth_error (posts d) 0 with Some n => n | None => 0 end).

(** The [$project] stage: [posts] is dropped. *)
Definition project_stage (d : counted) : counted :=
  Counted (category d) [] (postCount d).

(** [categorySchema.statics.withPostCounts]. *)
Definition withPostCounts (coll : list t) (all_posts : list Post.t)
  : list counted :=
  Query.sort_by (fun x y => by_sortOrder_name (category x) (category y))
    (map project_stage
       (map addFields_stage
          (map (lookup_stage all_posts) (filter isActive coll)))).

Definition remove_message : string :=
  "Cannot delete category that has active posts. Please move or delete the posts first.".

(** Pre-remove middleware, then the removal of the document itself. *)
Definition remove (c : t) (coll : list t) (all_posts : list Post.t)
  : outcome unit (list t * list Post.t) :=
  let postCount :=
    Query.countDocuments
      (fun p => (str_eqb (Post.category p) (_id c)
                 && negb (Post.status_eqb (Post.status p) Post.archived))%bool)
      all_posts in
  if postCount >? 0
  then Rejected (coll, all_posts) (Some 400) remove_message
  else Resolved tt
         (Query.deleteMany (fun x => str_eqb (_id x) (_id c)) coll, all_posts).

End Category.

(* ------------------------------------------------------------------------- *)
(** ** The post controller                                                   *)
(* ------------------------------------------------------------------------- *)

Module PostController.

(** The collections the controller reads and writes. *)
Record Db : Type := mkDb {
  posts : list Post.t;
  categories : list Category.t;
  comments : list Comment.t
}.

(** [req.user]. *)
Record User : Type := mkUser {
  id : ObjectId;
  role : jsstring
}.

Record Pagination : Type := mkPagination {
  currentPage : Z;
  totalPages : Z;
  totalPosts : Z;
  hasNextPage : bool;
  hasPrevPage : bool
}.

(** [res.status(code).json({ success, message, data, pagination })]. *)
Record Response (A : Type) : Type := Json {
  statusCode : Z;
  success : bool;
  message : option string;
  data : option A;
  pagination : option Pagination
}.
Arguments Json {A} _ _ _ _ _.
Arguments statusCode {A} _.
Arguments success {A} _.
Arguments message {A} _.
Arguments data {A} _.
Arguments pagination {A} _.

Definition failure {A} (code : Z) (msg : string) : Response A :=
  Json code false (Some msg) None None.

(** [req.query] of the list operation, its numbers already read as numbers;
    a parameter that is not given is [None]. *)
Record ListQuery : Type := mkListQuery {
  q_page : option Z;
  q_limit : option Z;
  q_category : option jsstring;
  q_author : option jsstring;
  q_status : option jsstring;
  q_search : option jsstring;
  q_sortBy : option string;
  q_sortOrder : option jsstring;
  q_featured : option jsstring
}.

(** The [pagination] object of the list response, for a [limit] other than
    0, where the quotient is a number; [Infinity] and [NaN], which a limit
    of 0 gives, are not of the embedding. *)
Definition paginate (page limit total : Z) : Pagination :=
  mkPagination page
               (Math_ceil_div total limit)
               total
               (page <? Math_ceil_div total limit)
               (page >? 1).

(** [req.body] of [createPost] and [updatePost]; [tags], [featuredImage] and
    [seoMetadata] are left out, as they are of the record of a post. *)
Record Body : Type := mkBody {
  b_title : option jsstring;
  b_content : option jsstring;
  b_excerpt : option jsstring;
  b_category : option jsstring;
  b_status : option jsstring;
  b_allowComments : option bool
}.

(** The payload of the like response. *)
Record LikeData : Type := mkLikeData {
  isLiked : bool;
  likeCount : Z
}.

Definition when_truthy (o : option jsstring) : option jsstring :=
  if truthy o then o else None.

Section Operations.

(** From the libraries the controller calls: [ObjectId.isValid], the cast of
    a string to the ObjectId it denotes, and the match of a value against
    [{ $regex: pattern, $options: 'i' }]. *)
Variable ObjectId_isValid : jsstring -> bool.
Variable castObjectId : jsstring -> ObjectId.
Variable regex_test : jsstring -> jsstring -> bool.

(** The query object of [getAllPosts]. *)
Definition list_filter (q : ListQuery) (p : Post.t) : bool :=
  let status := Post.or_else (q_status q) (str "published") in
  (str_eqb (Post.status_string (Post.status p)) status
   && match when_truthy (q_category q) with
      | Some c => str_eqb (Post.category p) c
      | None => true
      end
   && match when_truthy (q_author q) with
      | Some a => str_eqb (Post.author p) a
      | None => true
      end
   && match q_featured q with
      | Some f => if str_eqb f (str "true") then Post.isFeatured p else true
      | None => true
      end
   && match when_truthy (q_search q) with
      | Some s =>
          regex_test s (Post.title p) || regex_test s (Post.content p)
          || match Post.excerpt p with
             | Some e => regex_test s e
             | None => false
             end
      | None => true
      end)%bool.

(** [getAllPosts]. *)
Definition getAllPosts (q : ListQuery) (db : Db) : Response (list Post.t) :=
  let page := Post.or_else (q_page q) 1 in
  let limit := Post.or_else (q_limit q) 10 in
  let sortBy := Post.or_else (q_sortBy q) "publishedAt"%string in
  let sortOrder := Post.or_else (q_sortOrder q) (str "desc") in
  let query := list_filter q in
  let found :=
    Query.limit (limit * 1)
      (Query.skip ((page - 1) * limit)
         (Query.sort_by
            (Query.directed (Post.by_field sortBy)
               (if str_eqb sortOrder (str "desc") then -1 else 1))
            (filter query (posts db)))) in
  let total := Query.countDocuments query (posts db) in
  Json 200 true None (Some found) (Some (paginate page limit total)).

(** The lookup strategy of [getPost]. *)
Inductive Lookup : Type :=
| by_id (identifier : jsstring)
| by_slug (identifier : jsstring).

Definition lookup_of (identifier : jsstring) : Lookup :=
  let isObjectId := ObjectId_isValid identifier in
  if isObjectId then by_id identifier else by_slug identifier.

(** The filter of [Post.findOne(query)]: the schema casts the value of
    [_id] to an ObjectId, and gives the value of [slug] to the setters of
    the path, [lowercase] here, as it does to a slug that is assigned. *)
Definition lookup_matches (l : Lookup) (p : Post.t) : bool :=
  match l with
  | by_id i => str_eqb (Post._id p) (castObjectId i)
  | by_slug s => str_eqb (Post.slug p) (toLowerCase s)
  end.

(** [getPost]; the increment of [views] is written after the post is read. *)
Definition getPost (identifier : jsstring) (db : Db)
  : Response Post.t * Db :=
  let query := lookup_of identifier in
  match Query.findOne (lookup_matches query) (posts db) with
  | None => (failure 404 "Post not found", db)
  | Some post =>
      (Json 200 true None (Some post) None,
       mkDb (Post.inc_views (Post._id post) (posts db))
            (categories db) (comments db))
  end.

(** [createPost]; [valid] is the verdict of the request validators and
    [newId] the [_id] the new document gets. *)
Definition createPost (valid : bool) (user : User) (body : Body)
  (newId : ObjectId) (now : Z) (db : Db) : Response Post.t * Db :=
  if negb valid then (failure 400 "Validation failed", db)
  else
    let category := Post.or_else (b_category body) [] in
    match Category.findById category (categories db) with
    | None => (failure 400 "Invalid category selected", db)
    | Some _ =>
        let n :=
          Post.NewPost
            (Post.or_else (b_title body) [])
            (Post.or_else (b_content body) [])
            (b_excerpt body)
            category
            (Post.or_else (when_truthy (b_status body)) (str "draft"))
            (id user)
            (Post.or_else (b_allowComments body) true) in
        match Post.create newId now n (posts db) with
        | Resolved d posts' =>
            (Json 201 true (Some "Post created successfully"%string)
                  (Some (fields d)) None,
             mkDb posts' (categories db) (comments db))
        | Rejected posts' _ _ =>
            (failure 500 "Server error while creating post",
             mkDb posts' (categories db) (comments db))
        end
    end.

(** The update document [updatePost] builds from the body. *)
Definition update_of (body : Body) : Post.update :=
  Post.Update (when_truthy (b_title body))
              (when_truthy (b_content body))
              (b_excerpt body)
              (when_truthy (b_category body))
              (when_truthy (b_status body))
              (b_allowComments body).

Definition may_write (user : User) (post : Post.t) : bool :=
  (str_eqb (Post.author post) (id user) || str_eqb (role user) (str "admin"))%bool.

(** [updatePost]. *)
Definition updatePost (valid : bool) (user : User) (postId : ObjectId)
  (body : Body) (db : Db) : Response (option Post.t) * Db :=
  if negb valid then (failure 400 "Validation failed", db)
  else
    match Post.findById postId (posts db) with
    | None => (failure 404 "Post not found", db)
    | Some post =>
        if negb (may_write user post)
        then (failure 403 "Not authorized to update this post", db)
        else
          let category_missing :=
            match when_truthy (b_category body) with
            | Some category =>
                (negb (str_eqb category (Post.category post))
                 && match Category.findById category (categories db) with
                    | Some _ => false
                    | None => true
                    end)%bool
            | None => false
            end in
          if category_missing
          then (failure 400 "Invalid category selected", db)
          else
            match Post.findByIdAndUpdate postId (update_of body) (posts db) with
            | Resolved updatedPost posts' =>
                (Json 200 true (Some "Post updated successfully"%string)
                      (Some updatedPost) None,
                 mkDb posts' (categories db) (comments db))
            | Rejected posts' _ _ =>
                (failure 500 "Server error while updating post",
                 mkDb posts' (categories db) (comments db))
            end
    end.

(** [deletePost]. *)
Definition deletePost (user : User) (postId : ObjectId) (db : Db)
  : Response unit * Db :=
  match Post.findById postId (posts db) with
  | None => (failure 404 "Post not found", db)
  | Some post =>
      if negb (may_write user post)
      then (failure 403 "Not authorized to delete this post", db)
      else
        match Post.remove post (posts db) (comments db) with
        | Resolved _ (posts', comments') =>
            (Json 200 true (Some "Post deleted successfully"%string) None None,
             mkDb posts' (categories db) comments')
        | Rejected (posts', comments') _ _ =>
            (failure 500 "Server error while deleting post",
             mkDb posts' (categories db) comments')
        end
  end.

(** [toggleLike]. *)
Definition toggleLike (user : User) (postId : ObjectId) (now : Z) (db : Db)
  : Response LikeData * Db :=
  match Post.findById postId (posts db) with
  | None => (failure 404 "Post not found", db)
  | Some post =>
      let isLiked := Post.isLikedBy (id user) post in
      match Post.toggleLike (id user) now (loaded post) (posts db) with
      | Resolved d posts' =>
          (Json 200 true
                (Some (if isLiked then "Post unliked" else "Post liked")%string)
                (Some (mkLikeData (negb isLiked) (Post.likeCount (fields d))))
                None,
           mkDb posts' (categories db) (comments db))
      | Rejected posts' _ _ =>
          (failure 500 "Server error while toggling like",
           mkDb posts' (categories db) (comments db))
      end
  end.

End Operations.

(** [getFeaturedPosts]; [limit] is what [parseInt(req.query.limit)] reads,
    [None] when it is [NaN]; [NaN] and 0 are falsy. *)
Definition getFeaturedPosts (limit : option Z) (db : Db)
  : Response (list Post.t) :=
  let limit :=
    match limit with
    | Some n => if n =? 0 then 5 else n
    | None => 5
    end in
  let found :=
    Query.limit limit
      (Query.sort_by (Query.directed (Post.by_field "publishedAt") (-1))
         (filter (fun p => (Post.status_eqb (Post.status p) Post.published
                            && Post.isFeatured p)%bool)
                 (posts db))) in
  Json 200 true None (Some found) None.

End PostController.

(* ------------------------------------------------------------------------- *)
(** ** The specification's wording of the derived fields                     *)
(* ------------------------------------------------------------------------- *)

Module Spec.

(** The slug as the specification words it: lowercase the text, strip the
    characters outside [a-zA-Z0-9\s], collapse each whitespace run to one
    hyphen, trim the leading and trailing hyphens. *)
Definition slug (text : jsstring) : jsstring :=
  trim_with is_hyphen (hyphenate (strip_non_alnum (toLowerCase text))).

(** The slug of a post: the timestamp is appended. *)
Definition post_slug (title : jsstring) (timestamp : Z) : jsstring :=
  slug title ++ str "-" ++ number_toString timestamp.

(** The characters of [a-z0-9-]. *)
Definition slug_char (c : ascii) : bool :=
  (is_lower c || is_digit c || is_hyphen c)%bool.

(** The number of whitespace-separated words of a text: its maximal runs of
    characters that are not whitespace.  [in_word] tells that the previous
    character belonged to a word. *)
Fixpoint words_from (in_word : bool) (s : jsstring) : nat :=
  match s with
  | [] => O
  | c :: s' =>
      if is_space c then words_from false s'
      else if in_word then words_from true s'
      else S (words_from true s')
  end.

Definition words (s : jsstring) : Z := Z.of_nat (words_from false s).

End Spec.

(** Whether a text starts with whitespace, and whether it neither starts nor
    ends with it. *)
Definition starts_with (f : ascii -> bool) (s : jsstring) : bool :=
  match s with
  | c :: _ => f c
  | [] => false
  end.

Definition edge_free (s : jsstring) : bool :=
  (negb (starts_with is_space s) && negb (starts_with is_space (rev s)))%bool.

(** [n] words, each followed by [sep] but the last. *)
Fixpoint n_words (n : nat) (word sep : jsstring) : jsstring :=
  match n with
  | O => []
  | S O => word
  | S m => word ++ sep ++ n_words m word sep
  end.

(** Whether the last character is whitespace; [dflt] answers for the empty
    text. *)
Fixpoint trailing (dflt : bool) (s : jsstring) : bool :=
  match s with
  | [] => dflt
  | c :: s' => trailing (is_space c) s'
  end.

Definition bit (b : bool) : nat := if b then 1%nat else 0%nat.

(** A category and a post as they are handed to their first [save()]. *)
Definition unsaved_category (name : jsstring) : document Category.t :=
  Document (Category.mk (str "c1") name [] None (str "#007bff") (str "folder")
                        true 0)
           true ["name"%string].

Definition unsaved_post (id title : jsstring) : document Post.t :=
  Document (Post.mk id title [] (n_words 60 (str "word") (str " ")) None
                    (str "u1") (str "c1") Post.draft None 0 0 [] false true 0)
           true ["title"; "content"; "status"]%string.

(** Two hundred words and a line feed after the last: what a text area
    submits for a text typed with a final newline. *)
Definition newline : ascii := "010"%char.

Definition two_hundred_words_and_newline : jsstring :=
  n_words 200 (str "word") (str " ") ++ [newline].

Definition post_of_content (content : jsstring) : Post.new_post :=
  Post.NewPost (str "A title") content None (str "c1") (str "draft")
               (str "u1") true.

(** The read time [Post.create] stores for a content. *)
Definition created_readTime (content : jsstring) : option Z :=
  match Post.create (str "p1") 1700000000000 (post_of_content content) [] with
  | Resolved d _ => Some (Post.readTime (fields d))
  | Rejected _ _ _ => None
  end.

(** The request [page=2&limit=10], over 25 published posts. *)
Definition page_two : PostController.ListQuery :=
  PostController.mkListQuery (Some 2) (Some 10) None None None None None None
                             None.

Definition a_post (status : Post.Status) (n : nat) : Post.t :=
  Post.mk (number_toString (Z.of_nat n)) (str "A title")
          (str "a-title-" ++ number_toString (Z.of_nat n))
          (n_words 60 (str "word") (str " ")) None (str "u1") (str "c1")
          status (Some (Z.of_nat n)) 1 0 [] false true (Z.of_nat n).

Definition published_25 : PostController.Db :=
  PostController.mkDb (map (a_post Post.published) (seq 1 25)) [] [].

(** The replies of a comment, as the specification words them: the approved
    comments whose [parentComment] is the comment. *)
Definition is_reply_to (commentId : ObjectId) (c : Comment.t) : bool :=
  match Comment.parentComment c with
  | Some p => (str_eqb p commentId && Comment.isApproved c)%bool
  | None => false
  end.

(** A thread: a top-level comment, two replies to it (the later one listed
    first), a reply to a reply, and a reply that is not approved. *)
Definition a_comment (id : string) (parent : option string) (approved : bool)
  (at_ : Z) : Comment.t :=
  Comment.mk (str id) (str "Nice post") (str "u1") (str "p1")
             (option_map str parent) approved false None [] false 0 at_.

Definition thread : list Comment.t :=
  [a_comment "top" None true 10;
   a_comment "r2" (Some "top"%string) true 30;
   a_comment "r1" (Some "top"%string) true 20;
   a_comment "g1" (Some "r1"%string) true 40;
   a_comment "r3" (Some "top"%string) false 25].

Definition top_level_only : Comment.options :=
  Comment.Options None None None None (Some false).

(** The order of [{ sortOrder: 1, name: 1 }], as the specification words it:
    by [sortOrder], then by [name]. *)
Definition sortOrder_then_name (x y : Category.t) : Prop :=
  Category.sortOrder x < Category.sortOrder y
  \/ (Category.sortOrder x = Category.sortOrder y
      /\ Query.str_leb (Category.name x) (Category.name y) = true).

(** The published posts of a category. *)
Definition published_in (c : Category.t) (p : Post.t) : bool :=
  (str_eqb (Post.category p) (Category._id c)
   && Post.status_eqb (Post.status p) Post.published)%bool.

(** Two active categories and an inactive one; two published posts and a
    draft in the first, an archived post in the second. *)
Definition a_category (id name : string) (active : bool) (order : Z)
  : Category.t :=
  Category.mk (str id) (str name) (toLowerCase (str name)) None (str "#007bff")
              (str "folder") active order.

Definition post_in (category : string) (status : Post.Status) (n : nat)
  : Post.t :=
  Post.mk (number_toString (Z.of_nat n)) (str "A title")
          (str "a-title-" ++ number_toString (Z.of_nat n))
          (n_words 60 (str "word") (str " ")) None (str "u1") (str category)
          status None 1 0 [] false true (Z.of_nat n).

Definition some_categories : list Category.t :=
  [a_category "c1" "Tech" true 1;
   a_category "c2" "Art" true 0;
   a_category "c3" "Old" false 0].

Definition some_posts : list Post.t :=
  [post_in "c1" Post.published 1;
   post_in "c1" Post.draft 2;
   post_in "c2" Post.archived 3;
   post_in "c1" Post.published 4].

(** A comment on another post. *)
Definition elsewhere : Comment.t :=
  Comment.mk (str "x1") (str "Nice post") (str "u1") (str "p2") None true
             false None [] false 0 5.

(** A post and a comment that two users like. *)
Definition two_likes : list Likes.entry :=
  [Likes.mk (str "u1") 100; Likes.mk (str "u2") 200].


Definition liked_comment : Comment.t :=
  Comment.set_likes two_likes (a_comment "top" None true 10).

(** A draft of user [u1] in category [c1], the request of its author to
    publish it, and the same post submitted as published from the start. *)
Definition the_draft : Post.t :=
  Post.mk (str "p1") (str "Hello World") (str "hello-world-1700000000000")
          (n_words 60 (str "word") (str " ")) (Some (str "An excerpt"))
          (str "u1") (str "c1") Post.draft None 1 0 [] false true
          1700000000000.

Definition draft_db : PostController.Db :=
  PostController.mkDb [the_draft] [a_category "c1" "Tech" true 1] [].

Definition the_author : PostController.User :=
  PostController.mkUser (str "u1") (str "user").

Definition publish : PostController.Body :=
  PostController.mkBody None None None None (Some (str "published")) None.

Definition published_from_the_start : PostController.Body :=
  PostController.mkBody (Some (str "Hello World"))
                        (Some (n_words 60 (str "word") (str " ")))
                        (Some (str "An excerpt")) (Some (str "c1"))
                        (Some (str "published")) None.

Definition empty_db : PostController.Db :=
  PostController.mkDb [] [a_category "c1" "Tech" true 1] [].

(** The [ObjectId.isValid] and the cast of the MongoDB driver, on the strings
    where its versions agree: a string of 12 characters of ASCII stands for
    the ObjectId of these 12 bytes, a string of 24 hex digits for the
    ObjectId it spells; nothing else is valid. *)
Definition is_ascii (c : ascii) : bool := N.ltb (code c) 128.

Definition bson_isValid (s : jsstring) : bool :=
  ((Nat.eqb (length s) 12 && forallb is_ascii s)
   || (Nat.eqb (length s) 24 && forallb Category.is_hex s))%bool.

Definition hex_digit (n : N) : ascii :=
  if N.ltb n 10 then ascii_of_N (48 + n) else ascii_of_N (87 + n).

Definition bson_cast (s : jsstring) : ObjectId :=
  if Nat.eqb (length s) 12
  then flat_map (fun c => [hex_digit (code c / 16);
                           hex_digit (N.modulo (code c) 16)]) s
  else toLowerCase s.




(** A post whose slug has 12 characters. *)
Definition twelve : Post.t :=
  Post.mk (str "65a1b2c3d4e5f60718293a4b") (str "Hello World")
          (str "hello-world1")
          (n_words 60 (str "word") (str " ")) None
          (str "u1") (str "c1") Post.published (Some 1700000000000) 1 0 []
          false true 1700000000000.

Definition twelve_db : PostController.Db :=
  PostController.mkDb [twelve] [a_category "c1" "Tech" true 1] [].

(** A text without tag: no [<] that a [>] follows. *)
Fixpoint tagless (s : jsstring) : bool :=
  match s with
  | [] => true
  | c :: s' =>
      if Post.is_lt c then negb (existsb Post.is_gt s') else tagless s'
  end.

(** A persisted draft whose content was just set to a text with markup, and
    that has no excerpt. *)
Definition markup : jsstring :=
  str "<p>Hello <b>world</b></p>" ++ n_words 60 (str "word") (str " ").

Definition edited_draft (excerpt : option jsstring) : document Post.t :=
  Document
    (Post.mk (str "p1") (str "Hello World") (str "hello-world-1700000000000")
             markup excerpt (str "u1") (str "c1") Post.draft None 1 0 []
             false true 1700000000000)
    false ["content"%string].

(** The draft of before, its status just set to [published]. *)
Definition publishing (publishedAt : option Z) : document Post.t :=
  Document (Post.set_publishedAt publishedAt
              (Post.mk (str "p1") (str "Hello World")
                       (str "hello-world-1700000000000")
                       (n_words 60 (str "word") (str " "))
                       (Some (str "An excerpt")) (str "u1") (str "c1")
                       Post.published None 1 0 [] false true 1700000000000))
           false ["status"%string].

(** The document and the collection a successful [save()] resolves with. *)
Definition saved_post (now : Z) (d : document Post.t) : Post.t :=
  if isNew d then Post.set_createdAt now (fields (Post.pre_save now d))
  else fields (Post.pre_save now d).

(** The fields of a post that no update through [updatePost] may touch. *)
Definition frozen (p : Post.t) :=
  (Post._id p, Post.slug p, Post.author p, Post.publishedAt p,
   Post.readTime p, Post.views p, Post.likes p, Post.isFeatured p,
   Post.createdAt p).

(** A post within the bounds of the schema: a title of 5 to 200 characters,
    a content of 50 at least, an excerpt of 300 at most. *)
Definition within_schema (p : Post.t) : bool :=
  (length_between 5 200 (Post.title p)
   && Nat.leb 50 (length (Post.content p))
   && Post.excerpt_ok (Post.excerpt p))%bool.

(** Another user, and an admin. *)
Definition a_stranger : PostController.User :=
  PostController.mkUser (str "u2") (str "user").

Definition an_admin : PostController.User :=
  PostController.mkUser (str "u9") (str "admin").


(** A body with a new title and a new content of 401 words. *)
Definition retitle : PostController.Body :=
  PostController.mkBody (Some (str "A brand new title"))
                        (Some (n_words 401 (str "word") (str " ")))
                        None None None None.

(** Whether the body of a [createPost] request passes the validators of the
    schema: the title once trimmed, the content, the excerpt if any, and
    the status, [draft] when none is given. *)
Definition acceptable (body : PostController.Body) : bool :=
  (length_between 5 200 (trim (Post.or_else (PostController.b_title body) []))
   && Nat.leb 50 (length (Post.or_else (PostController.b_content body) []))
   && Post.excerpt_ok (PostController.b_excerpt body)
   && match Post.status_of_string
              (Post.or_else
                 (PostController.when_truthy (PostController.b_status body))
                 (str "draft")) with
      | Some _ => true
      | None => false
      end)%bool.

(** A body whose title has four characters. *)
Definition short_title : PostController.Body :=
  PostController.mkBody (Some (str "Four"))
                        (Some (n_words 60 (str "word") (str " ")))
                        None (Some (str "c1")) None None.

(** What every stored post is expected to be: within the bounds of the
    schema, and liked at most once by a user. *)
Definition sound (p : Post.t) : Prop :=
  within_schema p = true /\ NoDup (map Likes.user (Post.likes p)).

(** The list request [q] for its page [k]. *)
Definition with_page (k : Z) (q : PostController.ListQuery)
  : PostController.ListQuery :=
  PostController.mkListQuery
    (Some k) (PostController.q_limit q) (PostController.q_category q)
    (PostController.q_author q) (PostController.q_status q)
    (PostController.q_search q) (PostController.q_sortBy q)
    (PostController.q_sortOrder q) (PostController.q_featured q).

(** The posts of the answer of a list request, none when there is no data. *)
Definition page_of (regex_test : jsstring -> jsstring -> bool)
  (q : PostController.ListQuery) (db : PostController.Db) : list Post.t :=
  Post.or_else (PostController.data (PostController.getAllPosts regex_test q db))
               [].

(** The order a list request asks for. *)
Definition requested_order (q : PostController.ListQuery)
  : Post.t -> Post.t -> bool :=
  Query.directed
    (Post.by_field (Post.or_else (PostController.q_sortBy q) "publishedAt"%string))
    (if str_eqb (Post.or_else (PostController.q_sortOrder q) (str "desc"))
                (str "desc")
     then -1 else 1).

(** Seven published posts and three drafts, and the request for pages of
    three. *)
Definition ten_posts : PostController.Db :=
  PostController.mkDb
    (map (a_post Post.published) (seq 1 7) ++ map (a_post Post.draft) (seq 8 3))
    [] [].

Definition pages_of_three : PostController.ListQuery :=
  PostController.mkListQuery None (Some 3) None None None None None None None.

(** A text none of whose characters is a letter of [a-zA-Z], a digit or
    whitespace. *)
Definition no_alnum (t : jsstring) : bool :=
  forallb (fun c => negb (keep_char c)) t.

(** The order of [{ publishedAt: -1 }]: the later date first, a post without
    date after every post that has one. *)
Definition published_later (x y : Post.t) : Prop :=
  match Post.publishedAt x, Post.publishedAt y with
  | Some a, Some b => b <= a
  | Some _, None => True
  | None, Some _ => False
  | None, None => True
  end.

(** Posts to feature: a draft, and published posts with and without date. *)
Definition featured (id : string) (status : Post.Status)
  (publishedAt : option Z) (isFeatured : bool) : Post.t :=
  Post.mk (str id) (str "A title") (str id)
          (n_words 60 (str "word") (str " ")) None (str "u1") (str "c1")
          status publishedAt 1 0 [] isFeatured true 0.

Definition featured_db : PostController.Db :=
  PostController.mkDb
    [featured "a" Post.published (Some 10) true;
     featured "b" Post.published None true;
     featured "c" Post.published (Some 30) true;
     featured "d" Post.draft None true;
     featured "e" Post.published (Some 20) false;
     featured "f" Post.published (Some 40) true;
     featured "g" Post.published (Some 50) true;
     featured "h" Post.published (Some 60) true;
     featured "i" Post.published (Some 70) true]
    [] [].

(** A persisted comment whose content was just set, and the same comment
    before its first save. *)
Definition edited_comment : document Comment.t :=
  Document (a_comment "r1" (Some "top"%string) true 20) false
           ["content"%string].

Definition unsaved_comment : document Comment.t :=
  Document (a_comment "r9" (Some "top"%string) true 0) true
           ["content"; "author"; "post"; "parentComment"]%string.

(** The sum of the sizes of the [likes] arrays, and the approved comments
    of a post. *)
Definition likes_total (l : list Comment.t) : Z :=
  fold_right (fun c n => Z.of_nat (length (Comment.likes c)) + n) 0 l.

Definition approved_on (postId : ObjectId) (c : Comment.t) : bool :=
  (str_eqb (Comment.post c) postId && Comment.isApproved c)%bool.

(** A comment [c'] that is no more edited than [c], with the same content. *)
Definition unedited (c c' : Comment.t) : Prop :=
  Comment.isEdited c' = Comment.isEdited c
  /\ Comment.editedAt c' = Comment.editedAt c
  /\ Comment.content c' = Comment.content c.

(* ========================================================================= *)
(** * Verification                                                           *)
(* ========================================================================= *)

(** ** Strings *)

Lemma str_eqb_refl (a : jsstring) : str_eqb a a = true.
Proof.
  induction a as [|x a IH]; simpl; [reflexivity|].
  now rewrite Ascii.eqb_refl, IH.
Qed.

Lemma str_eqb_eq (a b : jsstring) : str_eqb a b = true <-> a = b.
Proof.
  split; [|intros ->; apply str_eqb_refl].
  revert b; induction a as [|x a IH]; intros [|y b]; simpl; try discriminate.
  - reflexivity.
  - intros H. apply andb_true_iff in H as [Hx Hab].
    apply Ascii.eqb_eq in Hx. apply IH in Hab. congruence.
Qed.

Lemma str_eqb_neq (a b : jsstring) : str_eqb a b = false <-> a <> b.
Proof.
  rewrite <- str_eqb_eq. destruct (str_eqb a b); split; congruence.
Qed.


(** A case analysis on the 256 code units. *)
Ltac each_char c :=
  destruct c as [[] [] [] [] [] [] [] []]; vm_compute; try reflexivity;
  try discriminate; auto.

Lemma lower_char_not_upper (c : ascii) : is_upper (lower_char c) = false.
Proof. each_char c. Qed.

Lemma lower_char_slug_char (c : ascii) :
  Spec.slug_char c = true -> lower_char c = c.
Proof. each_char c. Qed.

Lemma kept_lower_char (c : ascii) :
  keep_char (lower_char c) = true -> is_space (lower_char c) = false ->
  Spec.slug_char (lower_char c) = true.
Proof. each_char c. Qed.

Lemma kept_not_hyphen (c : ascii) : keep_char c = true -> is_hyphen c = false.
Proof. each_char c. Qed.

Lemma hyphen_not_space (c : ascii) : is_hyphen c = true -> is_space c = false.
Proof. each_char c. Qed.

Lemma slug_char_not_space (c : ascii) :
  Spec.slug_char c = true -> is_space c = false.
Proof. each_char c. Qed.

Lemma drop_while_keeps (f : ascii -> bool) (s : jsstring) :
  starts_with f s = false -> drop_while f s = s.
Proof. destruct s as [|c s]; simpl; [reflexivity|]. now intros ->. Qed.

Lemma trim_with_keeps (f : ascii -> bool) (s : jsstring) :
  starts_with f s = false -> starts_with f (rev s) = false ->
  trim_with f s = s.
Proof.
  intros Hh Hl. unfold trim_with.
  rewrite (drop_while_keeps f s Hh), (drop_while_keeps f (rev s) Hl).
  apply rev_involutive.
Qed.

Lemma drop_while_Forall (P : ascii -> Prop) (f : ascii -> bool) (s : jsstring) :
  Forall P s -> Forall P (drop_while f s).
Proof.
  induction 1 as [|c s Hc Hs IH]; simpl; [constructor|].
  destruct (f c); [assumption | now constructor].
Qed.

Lemma trim_with_Forall (P : ascii -> Prop) (f : ascii -> bool) (s : jsstring) :
  Forall P s -> Forall P (trim_with f s).
Proof.
  intros H. unfold trim_with.
  apply Forall_rev, drop_while_Forall, Forall_rev, drop_while_Forall, H.
Qed.

Lemma starts_with_Forall (f : ascii -> bool) (s : jsstring) :
  Forall (fun c => f c = false) s -> starts_with f s = false.
Proof. destruct 1; simpl; auto. Qed.

(** What is left of a lowercased text once the characters outside
    [a-zA-Z0-9\s] are stripped: whitespace and characters of [a-z0-9]. *)
Lemma stripped_chars (t : jsstring) :
  Forall (fun c => keep_char c = true /\
                   (is_space c = false -> Spec.slug_char c = true))
         (strip_non_alnum (toLowerCase t)).
Proof.
  unfold strip_non_alnum, toLowerCase.
  induction t as [|x t IH]; simpl; [constructor|].
  destruct (keep_char (lower_char x)) eqn:K; [|assumption].
  constructor; [|assumption].
  split; [assumption | now apply kept_lower_char].
Qed.

Lemma hyphenate_from_chars (b : bool) (s : jsstring) :
  Forall (fun c => keep_char c = true /\
                   (is_space c = false -> Spec.slug_char c = true)) s ->
  Forall (fun c => Spec.slug_char c = true) (hyphenate_from b s).
Proof.
  intros H. revert b.
  induction H as [|c s [_ Hc] _ IH]; intros b; simpl; [constructor|].
  destruct (is_space c) eqn:E.
  - destruct b; [apply IH | constructor; [reflexivity | apply IH]].
  - constructor; [now apply Hc | apply IH].
Qed.

Lemma hyphenate_from_snoc (b : bool) (s : jsstring) (c : ascii) :
  is_space c = false ->
  hyphenate_from b (s ++ [c]) = hyphenate_from b s ++ [c].
Proof.
  intros Hc. revert b.
  induction s as [|x s IH]; intros b; simpl.
  - now rewrite Hc.
  - destruct (is_space x); [destruct b|]; simpl; now rewrite IH.
Qed.

Lemma hyphenate_head (s : jsstring) :
  Forall (fun c => keep_char c = true) s ->
  starts_with is_space s = false ->
  starts_with is_hyphen (hyphenate s) = false.
Proof.
  unfold hyphenate.
  destruct 1 as [|c s Hc _]; simpl; [reflexivity|].
  intros ->. simpl. now apply kept_not_hyphen.
Qed.

Lemma hyphenate_last (s : jsstring) :
  Forall (fun c => keep_char c = true) s ->
  starts_with is_space (rev s) = false ->
  starts_with is_hyphen (rev (hyphenate s)) = false.
Proof.
  intros Hs Hl.
  destruct (rev s) as [|c r] eqn:E.
  - apply (f_equal (@rev ascii)) in E. rewrite rev_involutive in E.
    subst s. reflexivity.
  - apply (f_equal (@rev ascii)) in E. rewrite rev_involutive in E.
    simpl in E, Hl. subst s. unfold hyphenate.
    rewrite (hyphenate_from_snoc false (rev r) c Hl), rev_app_distr. simpl.
    apply kept_not_hyphen.
    apply Forall_app in Hs as [_ Hs]. now inversion Hs.
Qed.

Lemma toLowerCase_slug_chars (s : jsstring) :
  Forall (fun c => Spec.slug_char c = true) s -> toLowerCase s = s.
Proof.
  unfold toLowerCase.
  induction 1 as [|c s Hc _ IH]; simpl; [reflexivity|].
  now rewrite IH, (lower_char_slug_char c Hc).
Qed.

(** The digits of a number, and its sign, are characters of a slug. *)
Lemma uint_chars (d : Decimal.uint) :
  Forall (fun c => Spec.slug_char c = true)
         (str (NilEmpty.string_of_uint d)).
Proof.
  unfold str.
  induction d; simpl; constructor; try reflexivity; assumption.
Qed.

Lemma nilzero_uint_chars (d : Decimal.uint) :
  Forall (fun c => Spec.slug_char c = true)
         (str (NilZero.string_of_uint d)).
Proof.
  destruct d; unfold NilZero.string_of_uint; cbv beta iota;
    try apply uint_chars.
  repeat constructor.
Qed.

Lemma number_toString_chars (n : Z) :
  Forall (fun c => Spec.slug_char c = true) (number_toString n).
Proof.
  unfold number_toString, NilZero.string_of_int.
  destruct (Z.to_int n) as [d|d]; [apply nilzero_uint_chars|].
  change (str (String "-" (NilZero.string_of_uint d)))
    with ("-"%char :: str (NilZero.string_of_uint d)).
  constructor; [reflexivity | apply nilzero_uint_chars].
Qed.

Lemma number_toString_inj (a b : Z) :
  number_toString a = number_toString b -> a = b.
Proof.
  unfold number_toString, str. intros H.
  apply (f_equal string_of_list_ascii) in H.
  rewrite !string_of_list_ascii_of_string in H.
  apply DecimalZ.to_int_inj.
  assert (N : forall z, Z.to_int z <> Decimal.Pos Decimal.Nil /\
                        Z.to_int z <> Decimal.Neg Decimal.Nil).
  { intros [|p|p]; simpl; split; try discriminate;
      intros [= E]; now apply (DecimalPos.Unsigned.to_uint_nonnil p). }
  destruct (N a) as [Ha1 Ha2], (N b) as [Hb1 Hb2].
  pose proof (NilZero.isi _ Ha1 Ha2) as Ea.
  pose proof (NilZero.isi _ Hb1 Hb2) as Eb.
  rewrite H in Ea. congruence.
Qed.

(** ** Updates of one document *)

(** [updateOne] rewrites the first document that matches, and only it. *)
Lemma updateOne_map {A B} (h : A -> B) (f : A -> bool) (g : A -> A)
  (l : list A) :
  (forall x, h (g x) = h x) ->
  map h (Query.updateOne f g l) = map h l.
Proof.
  intros Hg. induction l as [|x l IH]; simpl; [reflexivity|].
  destruct (f x); simpl; [now rewrite Hg | now rewrite IH].
Qed.

Lemma updateOne_Forall {A} (P : A -> Prop) (f : A -> bool) (g : A -> A)
  (l : list A) :
  (forall x, P x -> P (g x)) -> Forall P l -> Forall P (Query.updateOne f g l).
Proof.
  intros Hg. induction 1 as [|x l Hx Hl IH]; simpl; [constructor|].
  destruct (f x); constructor; auto.
Qed.

Lemma updateOne_none {A} (f : A -> bool) (g : A -> A) (l : list A) :
  find f l = None -> Query.updateOne f g l = l.
Proof.
  induction l as [|x l IH]; simpl; [reflexivity|].
  destruct (f x); [discriminate|]. intros H. now rewrite IH.
Qed.


Lemma find_updateOne {A} (f : A -> bool) (g : A -> A) (l : list A) (x : A) :
  find f l = Some x -> f (g x) = true ->
  find f (Query.updateOne f g l) = Some (g x).
Proof.
  induction l as [|y l IH]; simpl; [discriminate|].
  destruct (f y) eqn:E.
  - intros [= ->] H. simpl. now rewrite H.
  - intros H1 H2. simpl. rewrite E. now apply IH.
Qed.

(** ** What [save()] leaves alone *)

Ltac split_ifs :=
  repeat match goal with
         | |- context [if ?b then _ else _] => destruct b
         end.

Lemma post_pre_save_frame (now : Z) (d : document Post.t) :
  let d' := Post.pre_save now d in
  isNew d' = isNew d
  /\ modifiedPaths d' = modifiedPaths d
  /\ Post._id (fields d') = Post._id (fields d)
  /\ Post.title (fields d') = Post.title (fields d)
  /\ Post.content (fields d') = Post.content (fields d)
  /\ Post.author (fields d') = Post.author (fields d)
  /\ Post.category (fields d') = Post.category (fields d)
  /\ Post.status (fields d') = Post.status (fields d)
  /\ Post.views (fields d') = Post.views (fields d)
  /\ Post.likes (fields d') = Post.likes (fields d)
  /\ Post.isFeatured (fields d') = Post.isFeatured (fields d)
  /\ Post.allowComments (fields d') = Post.allowComments (fields d)
  /\ Post.createdAt (fields d') = Post.createdAt (fields d).
Proof.
  unfold Post.pre_save, Post.pre_save_readTime, Post.pre_save_publishedAt,
    Post.pre_save_excerpt, Post.pre_save_slug.
  split_ifs; simpl; repeat split; reflexivity.
Qed.

Lemma post_save_inv (now : Z) (d d' : document Post.t)
  (coll coll' : list Post.t) :
  Post.save now d coll = Resolved d' coll' ->
  Post.validate d = true
  /\ d' = loaded (saved_post now d)
  /\ coll' = Post.persist (isNew d) (saved_post now d) coll.
Proof.
  unfold Post.save, saved_post.
  destruct (post_pre_save_frame now d) as (-> & _).
  destruct (Post.validate d); [|discriminate].
  cbv zeta. destruct (Post.duplicate_slug _ _ _); [discriminate|].
  intros [= <- <-]. auto.
Qed.

(** A rejected [save()] has written nothing. *)
Lemma post_save_rejected (now : Z) (d : document Post.t)
  (coll c : list Post.t) (code : option Z) (msg : string) :
  Post.save now d coll = Rejected c code msg -> c = coll.
Proof.
  unfold Post.save. destruct (Post.validate d); [|now intros [=]].
  cbv zeta. destruct (Post.duplicate_slug _ _ _); [now intros [=]|discriminate].
Qed.

(** The document a successful [save()] resolves with is the one stored: the
    last of the collection when it is new, else the one found under its
    [_id], if one was. *)
Lemma post_save_stored (now : Z) (d d' : document Post.t)
  (coll coll' : list Post.t) :
  Post.save now d coll = Resolved d' coll' ->
  (isNew d = true -> coll' = coll ++ [fields d'])
  /\ (isNew d = false ->
      forall x, Post.findById (Post._id (fields d)) coll = Some x ->
                Post.findById (Post._id (fields d)) coll' = Some (fields d')).
Proof.
  intros Hs. apply post_save_inv in Hs as (_ & -> & ->). split.
  - intros ->. reflexivity.
  - intros Hn x Hx. rewrite Hn.
    assert (I : Post._id (saved_post now d) = Post._id (fields d)).
    { unfold saved_post. rewrite Hn.
      now destruct (post_pre_save_frame now d) as (_ & _ & -> & _). }
    unfold Post.persist, Post.findById, Query.findOne in *.
    cbn [fields loaded]. rewrite I.
    apply (find_updateOne
             (fun y => str_eqb (Post._id y) (Post._id (fields d)))
             (fun _ => saved_post now d) _ x Hx).
    rewrite I. apply str_eqb_refl.
Qed.

(** ** Slugs (C2) *)

(** The slug the code computes from a text, before the timestamp. *)
Lemma slug_of_name_chars (t : jsstring) :
  Forall (fun c => Spec.slug_char c = true) (Category.slug_of_name t).
Proof.
  unfold Category.slug_of_name, trim.
  apply trim_with_Forall, hyphenate_from_chars, stripped_chars.
Qed.

Lemma slug_of_title_chars (t : jsstring) (now : Z) :
  Forall (fun c => Spec.slug_char c = true) (Post.slug_of_title t now).
Proof.
  unfold Post.slug_of_title.
  apply Forall_app. split; [apply (slug_of_name_chars t)|].
  apply Forall_app. split; [repeat constructor | apply number_toString_chars].
Qed.

(** The final [trim()] finds no whitespace to remove. *)
Lemma trim_after_hyphenate (t : jsstring) :
  Category.slug_of_name t = hyphenate (strip_non_alnum (toLowerCase t)).
Proof.
  unfold Category.slug_of_name, trim.
  assert (H : Forall (fun c => is_space c = false)
                     (hyphenate (strip_non_alnum (toLowerCase t)))).
  { eapply Forall_impl; [|apply hyphenate_from_chars, stripped_chars].
    apply slug_char_not_space. }
  apply trim_with_keeps; apply starts_with_Forall; [|apply Forall_rev]; exact H.
Qed.

(** On a text whose stripped form has whitespace at neither end, the code
    and the specification's wording agree. *)
Lemma slug_of_name_spec (t : jsstring) :
  edge_free (strip_non_alnum (toLowerCase t)) = true ->
  Category.slug_of_name t = Spec.slug t.
Proof.
  intros H. apply andb_true_iff in H as [Hh Hl].
  apply negb_true_iff in Hh, Hl.
  rewrite trim_after_hyphenate. unfold Spec.slug. symmetry.
  assert (K : Forall (fun c => keep_char c = true)
                     (strip_non_alnum (toLowerCase t))).
  { eapply Forall_impl; [|apply stripped_chars]. now intros c [Hc _]. }
  apply trim_with_keeps; [now apply hyphenate_head | now apply hyphenate_last].
Qed.

Lemma post_slug_after_hook (now : Z) (d : document Post.t) :
  (isModified "title" d || isNew d)%bool = true ->
  Post.slug (fields (Post.pre_save now d))
  = Post.slug_of_title (Post.title (fields d)) now.
Proof.
  intros H. unfold Post.pre_save, Post.pre_save_slug. rewrite H.
  set (d1 := with_fields d _).
  assert (E : Post.slug (fields d1)
              = Post.slug_of_title (Post.title (fields d)) now).
  { subst d1. simpl. apply toLowerCase_slug_chars, slug_of_title_chars. }
  rewrite <- E. clearbody d1.
  unfold Post.pre_save_readTime, Post.pre_save_publishedAt,
    Post.pre_save_excerpt.
  repeat match goal with
         | |- context [if ?b then _ else _] => destruct b
         end; reflexivity.
Qed.

Lemma category_slug_after_hook (d : document Category.t) :
  (isModified "name" d || isNew d)%bool = true ->
  Category.slug (fields (Category.pre_save d))
  = Category.slug_of_name (Category.name (fields d)).
Proof.
  intros H. unfold Category.pre_save. rewrite H. simpl.
  apply toLowerCase_slug_chars, slug_of_name_chars.
Qed.

(** What a successful [save()] tells about the index on [slug]. *)
Lemma post_save_unique (now : Z) (d d' : document Post.t)
  (coll coll' : list Post.t) :
  Post.save now d coll = Resolved d' coll' ->
  Post.duplicate_slug (Post.pre_save now d) (saved_post now d) coll = false.
Proof.
  unfold Post.save, saved_post.
  destruct (post_pre_save_frame now d) as (-> & _).
  destruct (Post.validate d); [|discriminate].
  cbv zeta. destruct (Post.duplicate_slug _ _ _); [discriminate | reflexivity].
Qed.

Lemma category_save_inv (d d' : document Category.t)
  (coll coll' : list Category.t) :
  Category.save d coll = Resolved d' coll' ->
  d' = loaded (fields (Category.pre_save d))
  /\ coll' = Category.persist (isNew d) (fields (Category.pre_save d)) coll.
Proof.
  unfold Category.save.
  assert (N : isNew (Category.pre_save d) = isNew d).
  { unfold Category.pre_save. now destruct (_ || _)%bool. }
  rewrite N. destruct (Category.validate d); [|discriminate].
  cbv zeta. destruct (Category.duplicate_key _ _ _); [discriminate|].
  intros [= <- <-]. auto.
Qed.

(** C2, as stated, fails.  The category named [C ++] gets the slug [c-], hyphen
    at the end, where the stated rule gives [c].  For two posts of one title
    saved in the same millisecond the hook computes the same slug, suffix
    included, and the second post is not given another: its save is refused
    by the unique index.  And a title that changes through [updatePost] is
    stored with the slug of the old title: no slug is computed before that
    write. *)
Lemma slug_rule_counterexample :
  Category.slug (fields (Category.pre_save (unsaved_category (str "C ++"))))
  = str "c-"
  /\ Spec.slug (str "C ++") = str "c"
  /\ Post.slug (fields (Post.pre_save 1700000000000
                          (unsaved_post (str "p1") (str "Hello World"))))
     = Post.slug (fields (Post.pre_save 1700000000000
                            (unsaved_post (str "p2") (str "Hello World"))))
  /\ (exists d1 coll1,
        Post.save 1700000000000 (unsaved_post (str "p1") (str "Hello World")) []
        = Resolved d1 coll1
        /\ Post.save 1700000000000
             (unsaved_post (str "p2") (str "Hello World")) coll1
           = Rejected coll1 None "E11000 duplicate key error")
  /\ (exists p,
        PostController.updatePost true the_author (str "p1") retitle draft_db
        = (PostController.Json 200 true (Some "Post updated successfully"%string)
                               (Some (Some p)) None,
           PostController.mkDb [p] (PostController.categories draft_db) [])
        /\ Post.title the_draft = str "Hello World"
        /\ Post.title p = str "A brand new title"
        /\ Post.slug p = Post.slug the_draft
        /\ forall now, Post.slug p <> Spec.post_slug (Post.title p) now).
Proof.
  split; [vm_compute; reflexivity|].
  split; [vm_compute; reflexivity|].
  split; [vm_compute; reflexivity|].
  split.
  - do 2 eexists. split; vm_compute; reflexivity.
  - eexists. split; [vm_compute; reflexivity|].
    split; [reflexivity|]. split; [reflexivity|]. split; [reflexivity|].
    intros now E. unfold Spec.post_slug in E.
    let v := eval vm_compute in (Spec.slug (str "A brand new title")) in
    change (Spec.slug _) with v in E.
    discriminate E.
Qed.

(** C2, amended.  When [save()] runs on a new document or on one whose
    defining field was set: (1) for a name or title whose lowercased, stripped
    form has whitespace at neither end, the slug the hook computes is the
    text lowercased, stripped of the characters outside [a-zA-Z0-9\s], with
    each whitespace run collapsed to one hyphen and no hyphen left to trim at
    either end; the slug of a post has a hyphen and the decimal timestamp of
    the save appended, the slug of a category has not; (2) every slug of a
    post is made of characters of [a-z0-9-] only; (3) the slugs computed for
    two posts of one title differ when the timestamps of their saves differ;
    (4) the slug computed is the slug of the document a successful [save()]
    resolves with, which is the document stored: the one added to the
    collection when it is new, else the one found under its [_id], if one
    was; (5) two new posts saved one after the other, both with success,
    have distinct slugs, whatever the timestamps: the unique index refuses
    the second otherwise. *)
Theorem slug_generation
  (c : document Category.t) (p q : document Post.t) (now now' : Z) :
  (isModified "name" c || isNew c)%bool = true ->
  (isModified "title" p || isNew p)%bool = true ->
  (isModified "title" q || isNew q)%bool = true ->
  Post.title (fields q) = Post.title (fields p) ->
  (edge_free (strip_non_alnum (toLowerCase (Category.name (fields c)))) = true ->
   Category.slug (fields (Category.pre_save c))
   = Spec.slug (Category.name (fields c)))
  /\ (edge_free (strip_non_alnum (toLowerCase (Post.title (fields p)))) = true ->
      Post.slug (fields (Post.pre_save now p))
      = Spec.post_slug (Post.title (fields p)) now)
  /\ Forall (fun ch => Spec.slug_char ch = true)
            (Post.slug (fields (Post.pre_save now p)))
  /\ (now <> now' ->
      Post.slug (fields (Post.pre_save now p))
      <> Post.slug (fields (Post.pre_save now' q)))
  /\ (forall coll d' coll',
        Post.save now p coll = Resolved d' coll' ->
        Post.slug (fields d') = Post.slug (fields (Post.pre_save now p))
        /\ (isNew p = true -> coll' = coll ++ [fields d'])
        /\ (isNew p = false ->
            forall x, Post.findById (Post._id (fields p)) coll = Some x ->
                      Post.findById (Post._id (fields p)) coll'
                      = Some (fields d')))
  /\ (forall coll d' coll',
        Category.save c coll = Resolved d' coll' ->
        Category.slug (fields d') = Category.slug (fields (Category.pre_save c))
        /\ (isNew c = true -> coll' = coll ++ [fields d'])
        /\ (isNew c = false ->
            forall x, Category.findById (Category._id (fields c)) coll = Some x ->
                      Category.findById (Category._id (fields c)) coll'
                      = Some (fields d')))
  /\ (forall coll d1 coll1 d2 coll2,
        isNew p = true -> isNew q = true ->
        Post.save now p coll = Resolved d1 coll1 ->
        Post.save now' q coll1 = Resolved d2 coll2 ->
        Post.slug (fields d1) <> Post.slug (fields d2)).
Proof.
  intros Hc Hp Hq Ht.
  split; [|split; [|split; [|split; [|split; [|split]]]]].
  - rewrite (category_slug_after_hook c Hc). apply slug_of_name_spec.
  - rewrite (post_slug_after_hook now p Hp).
    intros He. unfold Post.slug_of_title, Spec.post_slug.
    f_equal. now apply (slug_of_name_spec (Post.title (fields p))).
  - rewrite (post_slug_after_hook now p Hp). apply slug_of_title_chars.
  - rewrite (post_slug_after_hook now p Hp), (post_slug_after_hook now' q Hq).
    rewrite Ht. intros Hn E. unfold Post.slug_of_title in E.
    apply app_inv_head in E. apply app_inv_head in E.
    now apply number_toString_inj in E.
  - intros coll d' coll' Hs.
    destruct (post_save_stored _ _ _ _ _ Hs) as [Hnew Hold].
    split; [|split; assumption].
    apply post_save_inv in Hs as (_ & -> & _).
    unfold saved_post. destruct (isNew p); reflexivity.
  - intros coll d' coll' Hs. apply category_save_inv in Hs as (-> & ->).
    split; [reflexivity|]. split; [intros ->; reflexivity|].
    intros Hn x Hx. rewrite Hn.
    assert (I : Category._id (fields (Category.pre_save c))
                = Category._id (fields c)).
    { unfold Category.pre_save. now destruct (_ || _)%bool. }
    unfold Category.persist, Category.findById, Query.findOne in *.
    cbn [fields loaded]. rewrite I.
    apply (find_updateOne
             (fun y => str_eqb (Category._id y) (Category._id (fields c)))
             (fun _ => fields (Category.pre_save c)) _ x Hx).
    rewrite I. apply str_eqb_refl.
  - intros coll d1 coll1 d2 coll2 Np Nq S1 S2 E.
    pose proof (post_save_unique _ _ _ _ _ S2) as U.
    apply post_save_inv in S1 as (_ & -> & ->).
    apply post_save_inv in S2 as (_ & -> & _).
    unfold Post.duplicate_slug in U.
    destruct (post_pre_save_frame now' q) as (Nq' & _).
    cbv zeta in Nq'. rewrite Nq', Nq, Np in U.
    cbn [Post.persist fields loaded] in U, E.
    rewrite existsb_app in U. apply orb_false_iff in U as [_ U].
    simpl in U. rewrite orb_false_r in U.
    apply str_eqb_neq in U. now apply U.
Qed.

Lemma slug_generation_witness :
  Category.slug (fields (Category.pre_save (unsaved_category (str "Web Development"))))
  = Spec.slug (str "Web Development")
  /\ Post.slug (fields (Post.pre_save 1700000000000
                          (unsaved_post (str "p1") (str "Hello, World!"))))
     = Spec.post_slug (str "Hello, World!") 1700000000000
  /\ Forall (fun ch => Spec.slug_char ch = true)
            (Post.slug (fields (Post.pre_save 1700000000000
                                  (unsaved_post (str "p1") (str "Hello, World!")))))
  /\ Post.slug (fields (Post.pre_save 1700000000000
                          (unsaved_post (str "p1") (str "Hello, World!"))))
     <> Post.slug (fields (Post.pre_save 1700000000001
                             (unsaved_post (str "p2") (str "Hello, World!"))))
  /\ exists d' coll',
       Post.save 1700000000000 (unsaved_post (str "p1") (str "Hello, World!"))
                 [] = Resolved d' coll'
       /\ Post.slug (fields d') = Spec.post_slug (str "Hello, World!")
                                                 1700000000000
       /\ coll' = [fields d'].
Proof.
  destruct (slug_generation (unsaved_category (str "Web Development"))
              (unsaved_post (str "p1") (str "Hello, World!"))
              (unsaved_post (str "p2") (str "Hello, World!"))
              1700000000000 1700000000001
              eq_refl eq_refl eq_refl eq_refl) as (A & B & C & D & E & _).
  split; [exact (A eq_refl)|].
  split; [exact (B eq_refl)|].
  split; [exact C|].
  split; [apply D; lia|].
  destruct (Post.save 1700000000000
              (unsaved_post (str "p1") (str "Hello, World!")) [])
    as [d' coll'|] eqn:S; [|vm_compute in S; discriminate].
  exists d', coll'. split; [reflexivity|].
  destruct (E [] d' coll' S) as (E1 & E2 & _).
  split; [rewrite E1; exact (B eq_refl) | exact (E2 eq_refl)].
Defined.

(** ** Read time (C7) *)


(** The pieces of [split(/\s+/)] against the words, from inside a word and
    from inside a whitespace run. *)
Lemma split_from_length (s : jsstring) :
  (forall cur, length (split_from false cur s)
               = (Spec.words_from true s + 1 + bit (trailing false s))%nat)
  /\ (forall cur, length (split_from true cur s)
                  = (Spec.words_from false s + bit (trailing true s))%nat).
Proof.
  induction s as [|c s [IHw IHr]]; simpl; [split; reflexivity|].
  destruct (is_space c) eqn:E; split; intros cur; simpl.
  - rewrite IHr. lia.
  - apply IHr.
  - apply IHw.
  - rewrite IHw. lia.
Qed.

(** [split(/\s+/).length] counts the words, plus one for whitespace (or
    nothing at all) at the start, plus one for whitespace at the end. *)
Lemma wordCount_words (s : jsstring) :
  Post.wordCount s
  = Spec.words s
    + Z.of_nat (bit (match s with [] => true | c :: _ => is_space c end))
    + Z.of_nat (bit (trailing false s)).
Proof.
  unfold Post.wordCount, Spec.words, split_ws.
  destruct s as [|c s]; [reflexivity|].
  simpl. destruct (is_space c) eqn:E; simpl length.
  - rewrite (proj2 (split_from_length s)). unfold bit. lia.
  - rewrite (proj1 (split_from_length s)). unfold bit. lia.
Qed.

Lemma trailing_snoc (d : bool) (s : jsstring) (c : ascii) :
  trailing d (s ++ [c]) = is_space c.
Proof. revert d; induction s as [|x s IH]; intros d; simpl; auto. Qed.

Lemma trailing_rev (s : jsstring) :
  trailing false s = starts_with is_space (rev s).
Proof.
  destruct (rev s) as [|c r] eqn:E;
    apply (f_equal (@rev ascii)) in E; rewrite rev_involutive in E; subst s.
  - reflexivity.
  - simpl. apply trailing_snoc.
Qed.

(** On a text that is not empty and has whitespace at neither end, the
    count is the number of words. *)
Lemma wordCount_edge_free (s : jsstring) :
  s <> [] -> edge_free s = true -> Post.wordCount s = Spec.words s.
Proof.
  intros Hs H. apply andb_true_iff in H as [Hh Hl].
  apply negb_true_iff in Hh, Hl.
  rewrite wordCount_words, trailing_rev, Hl.
  destruct s as [|c s]; [congruence|]. simpl in Hh. rewrite Hh. simpl. lia.
Qed.

(** [Math.ceil(a / b)] is the least integer [n] with [a <= n * b]. *)
Lemma Math_ceil_div_spec (a b : Z) :
  0 < b ->
  (Math_ceil_div a b - 1) * b < a <= Math_ceil_div a b * b.
Proof.
  intros Hb. unfold Math_ceil_div.
  destruct b as [|pb|pb]; try lia.
  pose proof (Qle_ceiling (inject_Z a / inject_Z (Z.pos pb))%Q) as Hle.
  pose proof (Qceiling_lt (inject_Z a / inject_Z (Z.pos pb))%Q) as Hlt.
  set (n := Qceiling (inject_Z a / inject_Z (Z.pos pb))%Q) in *.
  unfold Qle, Qlt, Qdiv, Qmult, Qinv, inject_Z in Hle, Hlt.
  simpl in Hle, Hlt. lia.
Qed.

Lemma Math_ceil_div_unique (a b n : Z) :
  0 < b -> (n - 1) * b < a <= n * b -> Math_ceil_div a b = n.
Proof.
  intros Hb Hn. pose proof (Math_ceil_div_spec a b Hb). nia.
Qed.

(** On the save path a content that is not empty and has whitespace at
    neither end gets the read time of its words. *)
Lemma readTime_edge_free (now : Z) (d : document Post.t) :
  isModified "content" d = true ->
  Post.content (fields d) <> [] ->
  edge_free (Post.content (fields d)) = true ->
  Post.readTime (fields (Post.pre_save now d))
  = Math_ceil_div (Spec.words (Post.content (fields d))) 200.
Proof.
  intros Hm Hne He.
  rewrite <- (wordCount_edge_free _ Hne He).
  unfold Post.pre_save, Post.pre_save_readTime.
  set (d3 := Post.pre_save_publishedAt now _).
  assert (E : isModified "content" d3 = true
              /\ Post.content (fields d3) = Post.content (fields d)).
  { subst d3. unfold Post.pre_save_publishedAt, Post.pre_save_excerpt,
      Post.pre_save_slug.
    repeat match goal with
           | |- context [if ?b then _ else _] => destruct b
           end; simpl; auto. }
  destruct E as [-> ->]. reflexivity.
Qed.

Example readTime_200_words :
  created_readTime (n_words 200 (str "word") (str " ")) = Some 1.
Proof. vm_compute. reflexivity. Qed.

Example readTime_401_words :
  created_readTime (n_words 401 (str "word") (str " ")) = Some 3.
Proof. vm_compute. reflexivity. Qed.

(** C7, at the input where the code departs from it.  A content of 200
    words that ends with a line feed is counted as 201 pieces, and the post
    is created with a read time of 2 where [ceil(200 / 200)] is 1. *)
Theorem readTime_trailing_newline :
  Spec.words two_hundred_words_and_newline = 200
  /\ Math_ceil_div 200 200 = 1
  /\ Post.wordCount two_hundred_words_and_newline = 201
  /\ created_readTime two_hundred_words_and_newline = Some 2.
Proof. repeat split; vm_compute; reflexivity. Qed.

(** ** Pagination (C6) *)



Example list_page_two :
  option_map (map Post.createdAt)
    (PostController.data
       (PostController.getAllPosts (fun _ _ => true) page_two published_25))
  = Some [15; 14; 13; 12; 11; 10; 9; 8; 7; 6]
  /\ PostController.pagination
       (PostController.getAllPosts (fun _ _ => true) page_two published_25)
     = Some (PostController.mkPagination 2 3 25 true true).
Proof. split; vm_compute; reflexivity. Qed.

(** ** The query stages *)

Section SortFacts.
Context {A : Type} (leb : A -> A -> bool).

Lemma insert_by_perm (x : A) (l : list A) :
  Permutation (Query.insert_by leb x l) (x :: l).
Proof.
  induction l as [|y l IH]; simpl; [reflexivity|].
  destruct (leb x y); [reflexivity|].
  rewrite IH. apply perm_swap.
Qed.

Lemma sort_by_perm (l : list A) : Permutation (Query.sort_by leb l) l.
Proof.
  induction l as [|x l IH]; simpl; [reflexivity|].
  rewrite insert_by_perm. now constructor.
Qed.

Lemma sort_by_In (x : A) (l : list A) : In x (Query.sort_by leb l) <-> In x l.
Proof.
  split; apply Permutation_in;
    [apply sort_by_perm | apply Permutation_sym, sort_by_perm].
Qed.

Hypothesis leb_total : forall x y, leb x y = false -> leb y x = true.

Let le (x y : A) : Prop := leb x y = true.

Lemma insert_by_hd (x y : A) (l : list A) :
  le y x -> HdRel le y l -> HdRel le y (Query.insert_by leb x l).
Proof.
  intros Hyx Hl. destruct l as [|z l]; simpl.
  - now constructor.
  - destruct (leb x z); constructor; [assumption | now inversion Hl].
Qed.

Lemma insert_by_sorted (x : A) (l : list A) :
  Sorted le l -> Sorted le (Query.insert_by leb x l).
Proof.
  induction 1 as [|y l Hl IH Hy]; simpl.
  - repeat constructor.
  - destruct (leb x y) eqn:E.
    + constructor; [now constructor | now constructor].
    + constructor; [assumption|]. apply insert_by_hd; [|assumption].
      now apply leb_total.
Qed.

Lemma sort_by_sorted (l : list A) :
  Sorted (fun x y => leb x y = true) (Query.sort_by leb l).
Proof.
  induction l as [|x l IH]; simpl; [constructor|].
  now apply insert_by_sorted.
Qed.

End SortFacts.

Lemma limit_In {A} (n : Z) (x : A) (l : list A) :
  In x (Query.limit n l) -> In x l.
Proof.
  unfold Query.limit. destruct (n =? 0); [auto|]. intros H.
  rewrite <- (firstn_skipn (Z.to_nat (Z.abs n)) l).
  apply in_or_app. now left.
Qed.

Lemma skip_In {A} (n : Z) (x : A) (l : list A) :
  In x (Query.skip n l) -> In x l.
Proof.
  unfold Query.skip. intros H.
  rewrite <- (firstn_skipn (Z.to_nat n) l).
  apply in_or_app. now right.
Qed.

Lemma str_leb_total (a b : jsstring) :
  Query.str_leb a b = false -> Query.str_leb b a = true.
Proof.
  revert b; induction a as [|x a IH]; intros [|y b]; simpl; try congruence.
  destruct (N.ltb_spec (code x) (code y)); [discriminate|].
  destruct (N.ltb_spec (code y) (code x)); [reflexivity|].
  apply IH.
Qed.

(** ** Listing comments (C8) *)

Lemma findByPost_matches (postId : ObjectId) (o : Comment.options)
  (coll : list Comment.t) (c : Comment.t) :
  In c (Comment.findByPost postId o coll) ->
  In c coll
  /\ Comment.post c = postId
  /\ Comment.isApproved c = true
  /\ (Comment.or_default (Comment.includeReplies o) false = false ->
      Comment.parentComment c = None).
Proof.
  unfold Comment.findByPost. intros H.
  apply limit_In, skip_In, sort_by_In, filter_In in H as [Hin Hm].
  unfold Comment.matches in Hm. simpl in Hm.
  apply andb_true_iff in Hm as [Hm Hpar].
  apply andb_true_iff in Hm as [Hpost Happ].
  apply str_eqb_eq in Hpost. apply Bool.eqb_prop in Happ.
  repeat split; try assumption.
  intros E. rewrite E in Hpar. simpl in Hpar.
  destruct (Comment.parentComment c); [discriminate | reflexivity].
Qed.


Lemma replies_filter (commentId : ObjectId) (c : Comment.t) :
  Comment.matches (Comment.Filter None (Some true) (Some (Some commentId))) c
  = is_reply_to commentId c.
Proof.
  unfold Comment.matches, is_reply_to. simpl.
  destruct (Comment.parentComment c) as [p|]; simpl.
  - destruct (Comment.isApproved c); simpl;
      [now rewrite andb_true_r | now rewrite andb_false_r].
  - apply andb_false_r.
Qed.

Lemma Sorted_weaken {A} (R R' : A -> A -> Prop) (l : list A) :
  (forall x y, R x y -> R' x y) -> Sorted R l -> Sorted R' l.
Proof.
  intros HR. induction 1 as [|x l Hl IH Hx]; constructor; [assumption|].
  destruct Hx; constructor; auto.
Qed.

Lemma by_createdAt (x y : Comment.t) :
  Comment.by_field "createdAt" x y = true
  <-> Comment.createdAt x <= Comment.createdAt y.
Proof.
  unfold Comment.by_field, Comment.sort_key. simpl. apply Z.leb_le.
Qed.

Lemma findReplies_sorted (commentId : ObjectId) (coll : list Comment.t) :
  StronglySorted (fun a b => Comment.createdAt a <= Comment.createdAt b)
                 (Comment.findReplies commentId coll).
Proof.
  apply Sorted_StronglySorted; [intros x y z; apply Z.le_trans|].
  unfold Comment.findReplies.
  eapply Sorted_weaken; [|apply sort_by_sorted].
  - intros x y H. now apply by_createdAt.
  - intros x y H. apply by_createdAt. unfold Query.directed in H. simpl in H.
    assert (N : ~ Comment.createdAt x <= Comment.createdAt y).
    { intros K. apply by_createdAt in K. congruence. }
    lia.
Qed.

(** C8.  [findByPost] without replies returns only approved comments of the
    post that have no parent; [findReplies] returns exactly the approved
    comments whose parent is the given comment, oldest first; neither
    returns a comment that is not approved, whatever the options. *)
Theorem comment_listing
  (postId commentId : ObjectId) (o : Comment.options) (coll : list Comment.t) :
  (Comment.or_default (Comment.includeReplies o) false = false ->
   forall c, In c (Comment.findByPost postId o coll) ->
             In c coll /\ Comment.post c = postId
             /\ Comment.isApproved c = true
             /\ Comment.parentComment c = None)
  /\ (forall c, In c (Comment.findByPost postId o coll) ->
                Comment.isApproved c = true)
  /\ Permutation (Comment.findReplies commentId coll)
                 (filter (is_reply_to commentId) coll)
  /\ (forall c, In c (Comment.findReplies commentId coll) <->
                In c coll /\ Comment.isApproved c = true
                /\ Comment.parentComment c = Some commentId)
  /\ StronglySorted (fun a b => Comment.createdAt a <= Comment.createdAt b)
                    (Comment.findReplies commentId coll).
Proof.
  assert (P : Permutation (Comment.findReplies commentId coll)
                          (filter (is_reply_to commentId) coll)).
  { unfold Comment.findReplies. rewrite sort_by_perm.
    rewrite (filter_ext _ _ (replies_filter commentId)). reflexivity. }
  split; [|split; [|split; [exact P|split]]].
  - intros Ho c Hc.
    destruct (findByPost_matches postId o coll c Hc) as (H1 & H2 & H3 & H4).
    auto.
  - intros c Hc. now destruct (findByPost_matches postId o coll c Hc) as (_ & _ & H & _).
  - intros c. split.
    + intros Hc. apply (Permutation_in _ P), filter_In in Hc as [Hin Hr].
      unfold is_reply_to in Hr.
      destruct (Comment.parentComment c) as [q|]; [|discriminate].
      apply andb_true_iff in Hr as [Hq Ha]. apply str_eqb_eq in Hq.
      subst q. auto.
    + intros (Hin & Ha & Hp).
      apply (Permutation_in _ (Permutation_sym P)), filter_In.
      split; [assumption|]. unfold is_reply_to.
      now rewrite Hp, Ha, str_eqb_refl.
  - apply findReplies_sorted.
Qed.

Lemma comment_listing_witness :
  (forall c, In c (Comment.findByPost (str "p1") top_level_only thread) ->
             In c thread /\ Comment.post c = str "p1"
             /\ Comment.isApproved c = true
             /\ Comment.parentComment c = None)
  /\ Comment.findByPost (str "p1") top_level_only thread
     = [a_comment "top" None true 10]
  /\ Comment.findReplies (str "top") thread
     = [a_comment "r1" (Some "top"%string) true 20;
        a_comment "r2" (Some "top"%string) true 30].
Proof.
  split; [|split; reflexivity].
  apply (comment_listing (str "p1") (str "top") top_level_only thread).
  reflexivity.
Defined.

(** ** Categories with their post counts (C9) *)

Lemma count_stage_first {A} (l : list A) :
  match nth_error (Category.count_stage l) 0 with
  | Some n => n
  | None => 0
  end = Z.of_nat (length l).
Proof. destruct l; reflexivity. Qed.

Lemma counted_stages (all_posts : list Post.t) (c : Category.t) :
  Category.project_stage
    (Category.addFields_stage (Category.lookup_stage all_posts c))
  = Category.Counted c []
      (Z.of_nat (length (filter (published_in c) all_posts))).
Proof.
  unfold Category.project_stage, Category.addFields_stage,
    Category.lookup_stage.
  cbn [Category.category Category.posts Category.postCount]. f_equal.
  rewrite count_stage_first. f_equal. f_equal.
  induction all_posts as [|p l IH]; simpl; [reflexivity|].
  unfold published_in at 1.
  destruct (str_eqb (Post.category p) (Category._id c)); simpl;
    [destruct (Post.status_eqb (Post.status p) Post.published); simpl|];
    now rewrite IH.
Qed.

Lemma by_sortOrder_name_total (x y : Category.t) :
  Category.by_sortOrder_name x y = false ->
  Category.by_sortOrder_name y x = true.
Proof.
  unfold Category.by_sortOrder_name.
  destruct (Z.ltb_spec (Category.sortOrder x) (Category.sortOrder y));
    [discriminate|].
  destruct (Z.ltb_spec (Category.sortOrder y) (Category.sortOrder x));
    [reflexivity|].
  apply str_leb_total.
Qed.

Lemma by_sortOrder_name_spec (x y : Category.t) :
  Category.by_sortOrder_name x y = true -> sortOrder_then_name x y.
Proof.
  unfold Category.by_sortOrder_name, sortOrder_then_name.
  destruct (Z.ltb_spec (Category.sortOrder x) (Category.sortOrder y));
    [now left|].
  destruct (Z.ltb_spec (Category.sortOrder y) (Category.sortOrder x));
    [discriminate|].
  intros E. right. split; [lia | assumption].
Qed.

(** C9.  [withPostCounts] returns the active categories, each once, each with
    the number of posts that reference it and are published (so 0 when there
    is none, and drafts and archived posts do not count), ordered by
    [sortOrder], then [name]. *)
Theorem withPostCounts_counts_published
  (coll : list Category.t) (all_posts : list Post.t) :
  Permutation (map Category.category (Category.withPostCounts coll all_posts))
              (filter Category.isActive coll)
  /\ Forall (fun d =>
               Category.postCount d
               = Z.of_nat (length (filter (published_in (Category.category d))
                                          all_posts)))
            (Category.withPostCounts coll all_posts)
  /\ Sorted (fun x y =>
               sortOrder_then_name (Category.category x) (Category.category y))
            (Category.withPostCounts coll all_posts).
Proof.
  unfold Category.withPostCounts.
  rewrite !map_map.
  rewrite (map_ext _ _ (counted_stages all_posts)).
  set (cs := filter Category.isActive coll).
  set (leb := fun x y => Category.by_sortOrder_name (Category.category x)
                                                   (Category.category y)).
  split; [|split].
  - rewrite (sort_by_perm leb), map_map. simpl. now rewrite map_id.
  - apply Forall_forall. intros d Hd. apply sort_by_In, in_map_iff in Hd.
    destruct Hd as (c & <- & _). reflexivity.
  - eapply Sorted_weaken; [|apply (sort_by_sorted leb)].
    + intros x y. apply by_sortOrder_name_spec.
    + intros x y. apply by_sortOrder_name_total.
Qed.

Example withPostCounts_example :
  map (fun d => (Category.name (Category.category d), Category.postCount d))
      (Category.withPostCounts some_categories some_posts)
  = [(str "Art", 0); (str "Tech", 2)].
Proof. vm_compute. reflexivity. Qed.

(** ** Deleting a category (C5) *)

Lemma countDocuments_pos {A} (f : A -> bool) (l : list A) :
  (Query.countDocuments f l >? 0) = existsb f l.
Proof.
  unfold Query.countDocuments.
  induction l as [|x l IH]; simpl; [reflexivity|].
  destruct (f x); simpl; [|exact IH].
  apply Z.gtb_lt. lia.
Qed.

(** C5.  Deleting a category is rejected, with status 400 and the message of
    the hook, exactly when some post that references the category has a
    status other than [archived]; the rejected deletion leaves the categories
    and the posts as they were.  Otherwise it succeeds: the category is
    gone, the other categories and all the posts are as they were. *)
Theorem category_remove_guard
  (c : Category.t) (coll : list Category.t) (all_posts : list Post.t) :
  ((exists p, In p all_posts /\ Post.category p = Category._id c
              /\ Post.status p <> Post.archived)
   <-> Category.remove c coll all_posts
       = Rejected (coll, all_posts) (Some 400) Category.remove_message)
  /\ ((forall p, In p all_posts -> Post.category p = Category._id c ->
                 Post.status p = Post.archived)
      <-> exists coll',
            Category.remove c coll all_posts = Resolved tt (coll', all_posts)
            /\ forall x, In x coll' <->
                         In x coll /\ Category._id x <> Category._id c).
Proof.
  unfold Category.remove. rewrite countDocuments_pos.
  set (f := fun p : Post.t =>
              (str_eqb (Post.category p) (Category._id c)
               && negb (Post.status_eqb (Post.status p) Post.archived))%bool).
  assert (F : forall p, f p = true <->
                        Post.category p = Category._id c
                        /\ Post.status p <> Post.archived).
  { intros p. subst f. cbv beta. rewrite andb_true_iff, str_eqb_eq.
    destruct (Post.status p); simpl; intuition congruence. }
  destruct (existsb f all_posts) eqn:E.
  - apply existsb_exists in E as (p & Hin & Hp). apply F in Hp as [Hc Hs].
    split; split.
    + reflexivity.
    + intros _. exists p. auto.
    + intros H. now specialize (H p Hin Hc).
    + intros (coll' & [=] & _).
  - assert (N : forall p, In p all_posts -> f p = false).
    { intros p Hin. destruct (f p) eqn:K; [|reflexivity].
      assert (X : existsb f all_posts = true)
        by (apply existsb_exists; eauto).
      congruence. }
    split; split.
    + intros (p & Hin & Hc & Hs). specialize (N p Hin).
      assert (f p = true) by (apply F; auto). congruence.
    + discriminate.
    + intros _. eexists. split; [reflexivity|].
      intros x. unfold Query.deleteMany. rewrite filter_In, negb_true_iff.
      now rewrite str_eqb_neq.
    + intros _ p Hin Hc. specialize (N p Hin).
      destruct (Post.status p) eqn:S; try reflexivity;
        exfalso; assert (f p = true) by (apply F; split; congruence);
        congruence.
Qed.

Example category_with_published_post :
  Category.remove (a_category "c1" "Tech" true 1) some_categories some_posts
  = Rejected (some_categories, some_posts) (Some 400) Category.remove_message.
Proof. vm_compute. reflexivity. Qed.

Example category_with_archived_posts_only :
  Category.remove (a_category "c2" "Art" true 0) some_categories some_posts
  = Resolved tt ([a_category "c1" "Tech" true 1; a_category "c3" "Old" false 0],
                 some_posts).
Proof. vm_compute. reflexivity. Qed.

(** ** Cascades on delete (C4) *)

Lemma opt_id_eqb_eq (a b : option ObjectId) :
  Comment.opt_id_eqb a b = true <-> a = b.
Proof.
  destruct a as [x|], b as [y|]; simpl; try (split; congruence).
  rewrite str_eqb_eq. split; congruence.
Qed.

(** C4.  Removing a post removes the post and every comment whose [post] is
    the post, and nothing else.  Removing a comment removes the comment and
    the comments whose [parentComment] is the comment, and nothing else: a
    reply to one of those replies stays. *)
Theorem remove_cascades
  (p : Post.t) (posts : list Post.t) (c : Comment.t) (comments : list Comment.t) :
  (exists posts' comments',
     Post.remove p posts comments = Resolved tt (posts', comments')
     /\ (forall x, In x comments' <->
                   In x comments /\ Comment.post x <> Post._id p)
     /\ (forall y, In y posts' <-> In y posts /\ Post._id y <> Post._id p))
  /\ (exists comments',
        Comment.remove c comments = Resolved tt comments'
        /\ (forall x, In x comments' <->
                      In x comments /\ Comment._id x <> Comment._id c
                      /\ Comment.parentComment x <> Some (Comment._id c))
        /\ (forall r g,
              In g comments ->
              Comment.parentComment r = Some (Comment._id c) ->
              Comment.parentComment g = Some (Comment._id r) ->
              Comment._id r <> Comment._id c ->
              Comment._id g <> Comment._id c ->
              In g comments')).
Proof.
  split.
  - eexists. eexists. split; [reflexivity|]. split.
    + intros x. unfold Query.deleteMany, Comment.matches. simpl.
      rewrite filter_In, negb_true_iff, !andb_true_r.
      now rewrite str_eqb_neq.
    + intros y. unfold Query.deleteMany.
      rewrite filter_In, negb_true_iff. now rewrite str_eqb_neq.
  - assert (K : forall x,
               In x (Query.deleteMany
                       (fun x => str_eqb (Comment._id x) (Comment._id c))
                       (Query.deleteMany
                          (Comment.matches
                             (Comment.Filter None None
                                (Some (Some (Comment._id c))))) comments))
               <-> In x comments /\ Comment._id x <> Comment._id c
                   /\ Comment.parentComment x <> Some (Comment._id c)).
    { intros x. unfold Query.deleteMany, Comment.matches. simpl.
      rewrite !filter_In, !negb_true_iff, str_eqb_neq.
      destruct (Comment.opt_id_eqb (Comment.parentComment x)
                                   (Some (Comment._id c))) eqn:E.
      - apply opt_id_eqb_eq in E. intuition congruence.
      - assert (Comment.parentComment x <> Some (Comment._id c)).
        { intros H. apply opt_id_eqb_eq in H. congruence. }
        intuition. }
    eexists. split; [reflexivity|]. split; [exact K|].
    intros r g Hg Hr Hgr Hrc Hgc. apply K. repeat split; try assumption.
    rewrite Hgr. congruence.
Qed.

Lemma remove_cascades_witness :
  exists comments',
    Comment.remove (a_comment "top" None true 10) thread
    = Resolved tt comments'
    /\ In (a_comment "g1" (Some "r1"%string) true 40) comments'.
Proof.
  destruct (remove_cascades (post_in "c1" Post.published 1) some_posts
              (a_comment "top" None true 10) thread)
    as [_ (comments' & E & _ & G)].
  exists comments'. split; [exact E|].
  apply (G (a_comment "r1" (Some "top"%string) true 20)).
  - vm_compute. tauto.
  - reflexivity.
  - reflexivity.
  - vm_compute. discriminate.
  - vm_compute. discriminate.
Defined.

Example remove_comment_example :
  Comment.remove (a_comment "top" None true 10) thread
  = Resolved tt [a_comment "g1" (Some "r1"%string) true 40].
Proof. vm_compute. reflexivity. Qed.

Example remove_post_example :
  Post.remove (fields (unsaved_post (str "p1") (str "Hello World")))
              [fields (unsaved_post (str "p1") (str "Hello World"));
               fields (unsaved_post (str "p2") (str "Hello World"))]
              (elsewhere :: thread)
  = Resolved tt ([fields (unsaved_post (str "p2") (str "Hello World"))],
                 [elsewhere]).
Proof. vm_compute. reflexivity. Qed.

(** ** Toggling a like (C3) *)

Section ToggleFacts.
Variable u : ObjectId.

Let mine (like : Likes.entry) : bool := str_eqb (Likes.user like) u.

Lemma find_some_iff (l : list Likes.entry) :
  (exists e, find mine l = Some e) <-> Likes.some u l = true.
Proof.
  unfold Likes.some. fold mine.
  induction l as [|x l IH]; simpl.
  - split; [intros [e [=]] | discriminate].
  - destruct (mine x); simpl; [|exact IH]. split; eauto.
Qed.

Lemma toggle_absent (now : Z) (l : list Likes.entry) :
  Likes.some u l = false -> Likes.toggle u now l = l ++ [Likes.mk u now].
Proof.
  intros H. unfold Likes.toggle. fold mine.
  destruct (find mine l) as [e|] eqn:E; [|reflexivity].
  assert (Likes.some u l = true) by (apply find_some_iff; eauto).
  congruence.
Qed.

Lemma toggle_present (now : Z) (l : list Likes.entry) :
  Likes.some u l = true ->
  Likes.toggle u now l = filter (fun like => negb (mine like)) l.
Proof.
  intros H. unfold Likes.toggle. fold mine.
  apply find_some_iff in H as [e ->]. reflexivity.
Qed.






(** No user is listed twice: kept by a toggle. *)
Lemma toggle_NoDup (now : Z) (l : list Likes.entry) :
  NoDup (map Likes.user l) -> NoDup (map Likes.user (Likes.toggle u now l)).
Proof.
  intros N. destruct (Likes.some u l) eqn:E.
  - rewrite (toggle_present now l E).
    induction l as [|x l IH]; simpl; [constructor|].
    inversion N as [|? ? Hx Hl]; subst.
    assert (S : forall y, In y (map Likes.user
                                  (filter (fun like => negb (mine like)) l)) ->
                          In y (map Likes.user l)).
    { intros y Hy. apply in_map_iff in Hy as (e & <- & He).
      apply filter_In in He as [He _]. now apply in_map. }
    assert (IH' : NoDup (map Likes.user
                           (filter (fun like => negb (mine like)) l))).
    { clear - Hl. induction l as [|z l IHl]; simpl; [constructor|].
      inversion Hl as [|? ? Hz Hl']; subst.
      destruct (negb (mine z)); simpl; [|auto].
      constructor; [|auto]. intros Hy. apply Hz.
      apply in_map_iff in Hy as (e & <- & He).
      apply filter_In in He as [He _]. now apply in_map. }
    destruct (negb (mine x)); simpl; [|exact IH'].
    constructor; [|exact IH']. intros Hy. apply Hx, S, Hy.
  - rewrite (toggle_absent now l E), map_app. simpl.
    apply NoDup_app; [assumption | repeat constructor; auto |].
    intros y Hy [<-|[]].
    apply in_map_iff in Hy as (e & He & Hin).
    assert (Likes.some u l = true).
    { apply existsb_exists. exists e. split; [assumption|].
      rewrite He. apply str_eqb_refl. }
    congruence.
Qed.

End ToggleFacts.

Lemma post_toggleLike_loaded (u : ObjectId) (now : Z) (p : Post.t)
  (coll : list Post.t) :
  Post.toggleLike u now (loaded p) coll
  = Resolved
      (loaded (Post.set_likes (Likes.toggle u now (Post.likes p)) p))
      (Post.persist false
         (Post.set_likes (Likes.toggle u now (Post.likes p)) p) coll).
Proof. reflexivity. Qed.

Lemma comment_toggleLike_loaded (u : ObjectId) (now : Z) (c : Comment.t)
  (coll : list Comment.t) :
  Comment.toggleLike u now (loaded c) coll
  = Resolved
      (loaded (Comment.set_likes (Likes.toggle u now (Comment.likes c)) c))
      (Comment.persist false
         (Comment.set_likes (Likes.toggle u now (Comment.likes c)) c) coll).
Proof. reflexivity. Qed.








(** A likes array that lists a user twice is out of reach of the toggles by
    users given as ObjectIds: it starts empty and every such toggle keeps
    the users distinct. *)
Lemma pre_save_likes (now : Z) (d : document Post.t) :
  Post.likes (fields (Post.pre_save now d)) = Post.likes (fields d).
Proof.
  unfold Post.pre_save, Post.pre_save_readTime, Post.pre_save_publishedAt,
    Post.pre_save_excerpt, Post.pre_save_slug.
  repeat match goal with
         | |- context [if ?b then _ else _] => destruct b
         end; reflexivity.
Qed.

Lemma created_post_has_no_likes
  (newId : ObjectId) (now : Z) (n : Post.new_post) (coll : list Post.t)
  (d : document Post.t) (coll' : list Post.t) :
  Post.create newId now n coll = Resolved d coll' ->
  Post.likes (fields d) = [].
Proof.
  unfold Post.create. destruct (Post.status_of_string _); [|discriminate].
  unfold Post.save. set (d0 := Document _ _ _).
  destruct (Post.validate d0); [|discriminate].
  cbv zeta. destruct (Post.duplicate_slug _ _ _); [discriminate|].
  intros [= <- _]. cbn [fields loaded].
  assert (L : Post.likes (fields (Post.pre_save now d0)) = [])
    by (rewrite pre_save_likes; reflexivity).
  destruct (isNew (Post.pre_save now d0)); exact L.
Qed.

Example toggle_twice_by_the_same_user :
  map Likes.user
      (Likes.toggle (str "u1") 400 (Likes.toggle (str "u1") 300 two_likes))
  = [str "u2"; str "u1"].
Proof. vm_compute. reflexivity. Qed.

(** ** The publication date (C1) *)

Lemma before_publishedAt_hook (now : Z) (d : document Post.t) :
  let d2 := Post.pre_save_excerpt (Post.pre_save_slug now d) in
  modifiedPaths d2 = modifiedPaths d
  /\ Post.status (fields d2) = Post.status (fields d)
  /\ Post.publishedAt (fields d2) = Post.publishedAt (fields d).
Proof.
  unfold Post.pre_save_excerpt, Post.pre_save_slug.
  repeat match goal with
         | |- context [if ?b then _ else _] => destruct b
         end; simpl; auto.
Qed.

(** On the save path the date is set when the status was set to
    [published] and there is no date yet, and is left alone otherwise. *)
Lemma save_path_publishedAt (now : Z) (d : document Post.t) :
  Post.publishedAt (fields (Post.pre_save now d))
  = if (isModified "status" d
        && Post.status_eqb (Post.status (fields d)) Post.published)%bool
    then match Post.publishedAt (fields d) with
         | Some t => Some t
         | None => Some now
         end
    else Post.publishedAt (fields d).
Proof.
  destruct (before_publishedAt_hook now d) as (Hm & Hs & Hp).
  unfold Post.pre_save.
  set (d2 := Post.pre_save_excerpt (Post.pre_save_slug now d)) in *.
  unfold Post.pre_save_readTime, Post.pre_save_publishedAt, isModified.
  rewrite Hm, Hs, Hp. fold (isModified "status" d).
  destruct (isModified "status" d), (Post.status_eqb _ _),
    (Post.publishedAt (fields d)) as [t|]; simpl;
    destruct (existsb _ _); simpl; auto.
Qed.

Lemma updateOne_publishedAt (f : Post.t -> bool) (g : Post.t -> Post.t)
  (coll : list Post.t) :
  (forall x, Post.publishedAt (g x) = Post.publishedAt x) ->
  map Post.publishedAt (Query.updateOne f g coll)
  = map Post.publishedAt coll.
Proof.
  intros Hg. induction coll as [|x l IH]; simpl; [reflexivity|].
  destruct (f x); simpl; [now rewrite Hg | now rewrite IH].
Qed.

(** No update through [updatePost] writes a publication date. *)
Lemma updatePost_leaves_publishedAt
  (valid : bool) (user : PostController.User) (postId : ObjectId)
  (body : PostController.Body) (db : PostController.Db) :
  map Post.publishedAt
      (PostController.posts
         (snd (PostController.updatePost valid user postId body db)))
  = map Post.publishedAt (PostController.posts db).
Proof.
  unfold PostController.updatePost.
  destruct (negb valid); [reflexivity|].
  destruct (Post.findById postId _) as [post|]; [|reflexivity].
  destruct (negb _); [reflexivity|].
  match goal with |- context [if ?b then _ else _] => destruct b end;
    [reflexivity|].
  unfold Post.findByIdAndUpdate.
  destruct (Post.update_valid _); [|reflexivity].
  simpl. now apply updateOne_publishedAt.
Qed.

(** C1, at the input where the code departs from it.  A post created as
    [published] goes through [save()] and gets its publication date; a draft
    that its author publishes through [updatePost] becomes [published] and
    keeps [publishedAt = null]. *)
Theorem updatePost_publishes_without_date :
  (exists p,
     PostController.data
       (fst (PostController.createPost true the_author published_from_the_start
               (str "p1") 1700000000000 empty_db)) = Some p
     /\ Post.status p = Post.published
     /\ Post.publishedAt p = Some 1700000000000)
  /\ (exists p,
        PostController.updatePost true the_author (str "p1") publish draft_db
        = (PostController.Json 200 true (Some "Post updated successfully"%string)
                               (Some (Some p)) None,
           PostController.mkDb [p] (PostController.categories draft_db) [])
        /\ Post.status the_draft = Post.draft
        /\ Post.status p = Post.published
        /\ Post.publishedAt p = None).
Proof.
  split; eexists; vm_compute; repeat split; reflexivity.
Qed.

(** ** Looking a post up by identifier (C10) *)

Section GetPost.
Variable ObjectId_isValid : jsstring -> bool.
Variable castObjectId : jsstring -> ObjectId.

Lemma getPost_found (identifier : jsstring) (db : PostController.Db)
  (p : Post.t) :
  PostController.data
    (fst (PostController.getPost ObjectId_isValid castObjectId identifier db))
  = Some p ->
  In p (PostController.posts db)
  /\ PostController.lookup_matches castObjectId
       (PostController.lookup_of ObjectId_isValid identifier) p = true.
Proof.
  unfold PostController.getPost, Query.findOne.
  destruct (find _ _) as [q|] eqn:E; simpl; [|discriminate].
  intros [= ->]. now apply find_some in E.
Qed.

Lemma getPost_not_found (identifier : jsstring) (db : PostController.Db) :
  (forall p, In p (PostController.posts db) ->
             PostController.lookup_matches castObjectId
               (PostController.lookup_of ObjectId_isValid identifier) p
             = false) ->
  PostController.getPost ObjectId_isValid castObjectId identifier db
  = (PostController.failure 404 "Post not found", db).
Proof.
  intros H. unfold PostController.getPost, Query.findOne.
  destruct (find _ _) as [q|] eqn:E; [|reflexivity].
  apply find_some in E as [Hin Hm]. rewrite (H q Hin) in Hm. discriminate.
Qed.

(** A post that matches is found: some matching post is answered with. *)
Lemma getPost_finds (identifier : jsstring) (db : PostController.Db)
  (p : Post.t) :
  In p (PostController.posts db) ->
  PostController.lookup_matches castObjectId
    (PostController.lookup_of ObjectId_isValid identifier) p = true ->
  exists q,
    fst (PostController.getPost ObjectId_isValid castObjectId identifier db)
    = PostController.Json 200 true None (Some q) None.
Proof.
  intros Hin Hm. unfold PostController.getPost, Query.findOne.
  destruct (find _ _) as [q|] eqn:E; [now exists q|].
  apply (find_none _ _ E) in Hin. congruence.
Qed.

(** The post itself, when no other post matches. *)
Lemma getPost_finds_the_one (identifier : jsstring) (db : PostController.Db)
  (p : Post.t) :
  In p (PostController.posts db) ->
  PostController.lookup_matches castObjectId
    (PostController.lookup_of ObjectId_isValid identifier) p = true ->
  (forall q, In q (PostController.posts db) ->
             PostController.lookup_matches castObjectId
               (PostController.lookup_of ObjectId_isValid identifier) q = true ->
             q = p) ->
  fst (PostController.getPost ObjectId_isValid castObjectId identifier db)
  = PostController.Json 200 true None (Some p) None.
Proof.
  intros Hin Hm Hu.
  destruct (getPost_finds identifier db p Hin Hm) as [q Hq].
  assert (D : PostController.data
                (fst (PostController.getPost ObjectId_isValid castObjectId
                        identifier db)) = Some q) by now rewrite Hq.
  apply getPost_found in D as [Hqin Hqm].
  rewrite Hq. now rewrite (Hu q Hqin Hqm).
Qed.

End GetPost.

(** C10.  [getPost] looks the post up by [_id] exactly when the identifier
    passes [ObjectId.isValid], and by slug otherwise.  In either case a post
    with that key is found when there is one -- the post itself when it is
    the only one --, the post returned has the key, and the answer is 404
    when no post has it; the key is the ObjectId the identifier casts to,
    respectively the identifier in lower case, which is what the slug of a
    post is stored in.  So a post whose slug passes the validation is not
    looked up by its slug: the request for that slug returns a post only if
    the [_id] of that post is the slug, and is answered 404 when no post has
    such an [_id]. *)
Theorem getPost_lookup
  (ObjectId_isValid : jsstring -> bool) (castObjectId : jsstring -> ObjectId)
  (identifier : jsstring) (db : PostController.Db) :
  let r := PostController.getPost ObjectId_isValid castObjectId identifier db in
  (PostController.lookup_of ObjectId_isValid identifier
   = PostController.by_id identifier
   <-> ObjectId_isValid identifier = true)
  /\ (PostController.lookup_of ObjectId_isValid identifier
      = PostController.by_slug identifier
      <-> ObjectId_isValid identifier = false)
  /\ (ObjectId_isValid identifier = true ->
      (forall p, PostController.data (fst r) = Some p ->
                 In p (PostController.posts db)
                 /\ Post._id p = castObjectId identifier)
      /\ ((exists p, In p (PostController.posts db)
                     /\ Post._id p = castObjectId identifier) ->
          exists q, fst r = PostController.Json 200 true None (Some q) None)
      /\ (forall p, In p (PostController.posts db) ->
                    Post._id p = castObjectId identifier ->
                    (forall q, In q (PostController.posts db) ->
                               Post._id q = Post._id p -> q = p) ->
                    fst r = PostController.Json 200 true None (Some p) None)
      /\ ((forall p, In p (PostController.posts db) ->
                     Post._id p <> castObjectId identifier) ->
          r = (PostController.failure 404 "Post not found", db)))
  /\ (ObjectId_isValid identifier = false ->
      (forall p, PostController.data (fst r) = Some p ->
                 In p (PostController.posts db)
                 /\ Post.slug p = toLowerCase identifier)
      /\ ((exists p, In p (PostController.posts db)
                     /\ Post.slug p = toLowerCase identifier) ->
          exists q, fst r = PostController.Json 200 true None (Some q) None)
      /\ (forall p, In p (PostController.posts db) ->
                    Post.slug p = toLowerCase identifier ->
                    (forall q, In q (PostController.posts db) ->
                               Post.slug q = Post.slug p -> q = p) ->
                    fst r = PostController.Json 200 true None (Some p) None)
      /\ ((forall p, In p (PostController.posts db) ->
                     Post.slug p <> toLowerCase identifier) ->
          r = (PostController.failure 404 "Post not found", db)))
  /\ (forall p, In p (PostController.posts db) ->
                ObjectId_isValid (Post.slug p) = true ->
                let r' := PostController.getPost ObjectId_isValid castObjectId
                            (Post.slug p) db in
                (forall q, PostController.data (fst r') = Some q ->
                           Post._id q = castObjectId (Post.slug p))
                /\ ((forall q, In q (PostController.posts db) ->
                               Post._id q <> castObjectId (Post.slug p)) ->
                    r' = (PostController.failure 404 "Post not found", db))).
Proof.
  cbv zeta.
  split; [|split; [|split; [|split]]].
  - unfold PostController.lookup_of.
    destruct (ObjectId_isValid identifier); split; congruence.
  - unfold PostController.lookup_of.
    destruct (ObjectId_isValid identifier); split; congruence.
  - intros Hv.
    assert (K : forall p,
               PostController.lookup_matches castObjectId
                 (PostController.lookup_of ObjectId_isValid identifier) p
               = str_eqb (Post._id p) (castObjectId identifier)).
    { intros p. unfold PostController.lookup_of. now rewrite Hv. }
    split; [|split; [|split]].
    + intros p Hp. apply getPost_found in Hp as [Hin Hm].
      rewrite K in Hm. split; [exact Hin | now apply str_eqb_eq].
    + intros (p & Hin & Hk). apply (getPost_finds _ _ _ _ p Hin).
      rewrite K. now apply str_eqb_eq.
    + intros p Hin Hk Hu. apply getPost_finds_the_one; [exact Hin | |].
      * rewrite K. now apply str_eqb_eq.
      * intros q Hq Hm. rewrite K in Hm. apply str_eqb_eq in Hm.
        apply Hu; [exact Hq | congruence].
    + intros Hn. apply getPost_not_found. intros p Hin.
      rewrite K. apply str_eqb_neq. now apply Hn.
  - intros Hv.
    assert (K : forall p,
               PostController.lookup_matches castObjectId
                 (PostController.lookup_of ObjectId_isValid identifier) p
               = str_eqb (Post.slug p) (toLowerCase identifier)).
    { intros p. unfold PostController.lookup_of. now rewrite Hv. }
    split; [|split; [|split]].
    + intros p Hp. apply getPost_found in Hp as [Hin Hm].
      rewrite K in Hm. split; [exact Hin | now apply str_eqb_eq].
    + intros (p & Hin & Hk). apply (getPost_finds _ _ _ _ p Hin).
      rewrite K. now apply str_eqb_eq.
    + intros p Hin Hk Hu. apply getPost_finds_the_one; [exact Hin | |].
      * rewrite K. now apply str_eqb_eq.
      * intros q Hq Hm. rewrite K in Hm. apply str_eqb_eq in Hm.
        apply Hu; [exact Hq | congruence].
    + intros Hn. apply getPost_not_found. intros p Hin.
      rewrite K. apply str_eqb_neq. now apply Hn.
  - intros p Hin Hv.
    assert (K : forall q,
               PostController.lookup_matches castObjectId
                 (PostController.lookup_of ObjectId_isValid (Post.slug p)) q
               = str_eqb (Post._id q) (castObjectId (Post.slug p))).
    { intros q. unfold PostController.lookup_of. now rewrite Hv. }
    split.
    + intros q Hq. apply getPost_found in Hq as [_ Hm].
      rewrite K in Hm. now apply str_eqb_eq.
    + intros Hn. apply getPost_not_found. intros q Hq.
      rewrite K. apply str_eqb_neq. now apply Hn.
Qed.

Lemma getPost_lookup_witness :
  In twelve (PostController.posts twelve_db)
  /\ Post.slug twelve = str "hello-world1"
  /\ PostController.getPost bson_isValid bson_cast (str "hello-world1")
       twelve_db
     = (PostController.failure 404 "Post not found", twelve_db)
  /\ fst (PostController.getPost bson_isValid bson_cast
            (str "65A1B2C3D4E5F60718293A4B") twelve_db)
     = PostController.Json 200 true None (Some twelve) None
  /\ fst (PostController.getPost bson_isValid bson_cast
            (str "Hello-World-1700000000000") draft_db)
     = PostController.Json 200 true None (Some the_draft) None.
Proof.
  destruct (getPost_lookup bson_isValid bson_cast (str "hello-world1")
              twelve_db) as (_ & _ & _ & _ & H).
  destruct (H twelve (or_introl eq_refl) eq_refl) as [_ H404].
  destruct (getPost_lookup bson_isValid bson_cast
              (str "65A1B2C3D4E5F60718293A4B") twelve_db)
    as (_ & _ & Hid & _).
  destruct (Hid eq_refl) as (_ & _ & Hone & _).
  destruct (getPost_lookup bson_isValid bson_cast
              (str "Hello-World-1700000000000") draft_db)
    as (_ & _ & _ & Hslug & _).
  destruct (Hslug eq_refl) as (_ & _ & Hthe & _).
  split; [now left|]. split; [reflexivity|].
  split; [|split].
  - apply H404. intros q [<-|[]]. vm_compute. discriminate.
  - apply (Hone twelve); [now left | reflexivity |].
    intros q [<-|[]] _. reflexivity.
  - apply (Hthe the_draft); [now left | reflexivity |].
    intros q [<-|[]] _. reflexivity.
Defined.

Example getPost_by_id :
  PostController.data
    (fst (PostController.getPost bson_isValid bson_cast
            (str "65A1B2C3D4E5F60718293A4B") twelve_db)) = Some twelve.
Proof. vm_compute. reflexivity. Qed.

(* ------------------------------------------------------------------------- *)
(** * Further properties of the models and of the controller                 *)
(* ------------------------------------------------------------------------- *)

(** ** The excerpt *)

Lemma strip_tags_from_tagless (s : jsstring) (b : bool) :
  tagless (Post.strip_tags_from b s) = true.
Proof.
  revert b. induction s as [|c s IH]; intros b; simpl; [reflexivity|].
  destruct b.
  - destruct (Post.is_gt c); apply IH.
  - destruct (Post.is_lt c) eqn:E.
    + destruct (existsb Post.is_gt s) eqn:G; [apply IH|].
      simpl. now rewrite E, G.
    + simpl. rewrite E. apply IH.
Qed.

Lemma strip_tags_tagless (s : jsstring) :
  tagless s = true -> Post.strip_tags s = s.
Proof.
  unfold Post.strip_tags.
  induction s as [|c s IH]; simpl; [reflexivity|].
  destruct (Post.is_lt c).
  - intros H. apply negb_true_iff in H. now rewrite H.
  - intros H. now rewrite IH.
Qed.

Lemma strip_tags_from_length (s : jsstring) (b : bool) :
  (length (Post.strip_tags_from b s) <= length s)%nat.
Proof.
  revert b. induction s as [|c s IH]; intros b; simpl; [lia|].
  pose proof (IH true). pose proof (IH false).
  destruct b.
  - destruct (Post.is_gt c); lia.
  - destruct (Post.is_lt c); [destruct (existsb Post.is_gt s)|]; simpl; lia.
Qed.

(** X1.  Stripping the tags leaves no tag behind (no [<] that a [>]
    follows), so stripping twice is stripping once, and the result is never
    longer than the text. *)
Theorem strip_tags_idempotent (s : jsstring) :
  tagless (Post.strip_tags s) = true
  /\ Post.strip_tags (Post.strip_tags s) = Post.strip_tags s
  /\ (length (Post.strip_tags s) <= length s)%nat.
Proof.
  split; [apply strip_tags_from_tagless|].
  split; [apply strip_tags_tagless, strip_tags_from_tagless|].
  apply strip_tags_from_length.
Qed.

Lemma pre_save_excerpt_field (now : Z) (d : document Post.t) :
  Post.excerpt (fields (Post.pre_save now d))
  = Post.excerpt (fields (Post.pre_save_excerpt d)).
Proof.
  unfold Post.pre_save, Post.pre_save_readTime, Post.pre_save_publishedAt,
    Post.pre_save_excerpt, Post.pre_save_slug.
  destruct (isModified "title" d || isNew d)%bool; simpl;
    unfold isModified; simpl; split_ifs; reflexivity.
Qed.

(** X2.  On [save()]: an excerpt that is given (not empty) is kept, and so
    is any excerpt when the content was not set; otherwise the excerpt
    becomes the first 150 characters of the content without its tags,
    followed by three dots -- also when nothing was cut -- and so has at
    most 153 characters, within the 300 the schema allows. *)
Theorem excerpt_on_save (now : Z) (d : document Post.t) :
  ((isModified "content" d = false \/ truthy (Post.excerpt (fields d)) = true) ->
   Post.excerpt (fields (Post.pre_save now d)) = Post.excerpt (fields d))
  /\ (isModified "content" d = true ->
      truthy (Post.excerpt (fields d)) = false ->
      exists e,
        Post.excerpt (fields (Post.pre_save now d)) = Some e
        /\ e = firstn 150 (Post.strip_tags (Post.content (fields d)))
               ++ str "..."
        /\ length e
           = (Nat.min 150 (length (Post.strip_tags (Post.content (fields d))))
              + 3)%nat
        /\ Post.excerpt_ok (Some e) = true).
Proof.
  rewrite pre_save_excerpt_field. unfold Post.pre_save_excerpt. split.
  - intros [H|H]; rewrite H; simpl; [reflexivity|].
    now rewrite andb_false_r.
  - intros Hm Hf. rewrite Hm, Hf.
    exists (firstn 150 (Post.strip_tags (Post.content (fields d)))
            ++ str "...").
    assert (L : length (firstn 150
                          (Post.strip_tags (Post.content (fields d)))
                        ++ str "...")
                = (Nat.min 150
                     (length (Post.strip_tags (Post.content (fields d))))
                   + 3)%nat).
    { rewrite length_app, length_firstn. reflexivity. }
    split; [reflexivity|]. split; [reflexivity|]. split; [exact L|].
    unfold Post.excerpt_ok. apply Nat.leb_le. rewrite L. lia.
Qed.

Lemma excerpt_on_save_witness :
  Post.excerpt (fields (Post.pre_save 5 (edited_draft (Some (str "Mine")))))
  = Some (str "Mine")
  /\ exists e,
       Post.excerpt (fields (Post.pre_save 5 (edited_draft None))) = Some e
       /\ e = firstn 150 (Post.strip_tags markup) ++ str "..."
       /\ length e = (Nat.min 150 (length (Post.strip_tags markup)) + 3)%nat
       /\ Post.excerpt_ok (Some e) = true.
Proof.
  split.
  - apply (proj1 (excerpt_on_save 5 (edited_draft (Some (str "Mine"))))).
    right. reflexivity.
  - apply (proj2 (excerpt_on_save 5 (edited_draft None))); reflexivity.
Defined.

Example excerpt_of_markup :
  firstn 20 (Post.strip_tags markup) = str "Hello worldword word".
Proof. vm_compute. reflexivity. Qed.

(** ** The read time *)

Lemma wordCount_positive (s : jsstring) : 1 <= Post.wordCount s.
Proof.
  unfold Post.wordCount, split_ws.
  rewrite (proj1 (split_from_length s)). lia.
Qed.

Lemma wordCount_bound (s : jsstring) :
  Post.wordCount s <= Z.of_nat (length s) + 1.
Proof.
  unfold Post.wordCount, split_ws.
  assert (G : forall s b cur,
             (length (split_from b cur s) <= length s + 1)%nat).
  { clear s. induction s as [|c s IH]; intros b cur; simpl; [lia|].
    destruct (is_space c); [destruct b|]; simpl;
      try (specialize (IH true []); lia).
    specialize (IH false (c :: cur)). lia. }
  specialize (G s false []). lia.
Qed.

Lemma before_readTime_hook (now : Z) (d : document Post.t) :
  let d3 := Post.pre_save_publishedAt now
              (Post.pre_save_excerpt (Post.pre_save_slug now d)) in
  modifiedPaths d3 = modifiedPaths d
  /\ Post.content (fields d3) = Post.content (fields d)
  /\ Post.readTime (fields d3) = Post.readTime (fields d).
Proof.
  unfold Post.pre_save_publishedAt, Post.pre_save_excerpt, Post.pre_save_slug.
  split_ifs; repeat split; reflexivity.
Qed.

Lemma pre_save_readTime_field (now : Z) (d : document Post.t) :
  Post.readTime (fields (Post.pre_save now d))
  = if isModified "content" d
    then Math_ceil_div (Post.wordCount (Post.content (fields d))) 200
    else Post.readTime (fields d).
Proof.
  destruct (before_readTime_hook now d) as (Hm & Hc & Hr).
  unfold Post.pre_save, Post.pre_save_readTime, isModified.
  rewrite Hm. destruct (existsb _ (modifiedPaths d)); [|exact Hr].
  cbn [fields with_fields Post.readTime Post.set_readTime]. now rewrite Hc.
Qed.

(** X3.  On [save()] the read time changes only when the content was set;
    it is then at least 1, at most the number of characters of the content
    plus one over 200, rounded up, and it is the value the virtual
    [estimatedReadTime] computes for the saved post. *)
Theorem readTime_on_save (now : Z) (d : document Post.t) :
  (isModified "content" d = false ->
   Post.readTime (fields (Post.pre_save now d)) = Post.readTime (fields d))
  /\ (isModified "content" d = true ->
      1 <= Post.readTime (fields (Post.pre_save now d))
      /\ (Post.readTime (fields (Post.pre_save now d)) - 1) * 200
         <= Z.of_nat (length (Post.content (fields d)))
      /\ (Post.content (fields d) <> [] ->
          Post.estimatedReadTime (fields (Post.pre_save now d))
          = Post.readTime (fields (Post.pre_save now d)))).
Proof.
  rewrite pre_save_readTime_field. split; intros Hm; rewrite Hm; [reflexivity|].
  pose proof (wordCount_positive (Post.content (fields d))) as Hp.
  pose proof (wordCount_bound (Post.content (fields d))) as Hb.
  pose proof (Math_ceil_div_spec (Post.wordCount (Post.content (fields d))) 200
                ltac:(lia)) as Hc.
  split; [lia|]. split; [lia|].
  intros Hne. unfold Post.estimatedReadTime.
  destruct (post_pre_save_frame now d) as (_ & _ & _ & _ & -> & _).
  destruct (Post.content (fields d)); [congruence | reflexivity].
Qed.

Lemma readTime_on_save_witness :
  1 <= Post.readTime (fields (Post.pre_save 5 (edited_draft None)))
  /\ (Post.readTime (fields (Post.pre_save 5 (edited_draft None))) - 1) * 200
     <= Z.of_nat (length markup)
  /\ Post.estimatedReadTime (fields (Post.pre_save 5 (edited_draft None)))
     = Post.readTime (fields (Post.pre_save 5 (edited_draft None))).
Proof.
  destruct (proj2 (readTime_on_save 5 (edited_draft None)) eq_refl)
    as (A & B & C).
  split; [exact A|]. split; [exact B|].
  apply C. discriminate.
Defined.

(** X4.  When [save()] succeeds on a document whose content was set to a
    text that is not empty and has whitespace at neither end, the document
    it resolves with has the read time of its words, the least [n] with
    [words <= 200 * n], and is what is stored: the last document of the
    collection when it is new, else the document found under its [_id],
    if one was. *)
Theorem save_readTime_of_words
  (now : Z) (d d' : document Post.t) (coll coll' : list Post.t) :
  Post.save now d coll = Resolved d' coll' ->
  isModified "content" d = true ->
  Post.content (fields d) <> [] ->
  edge_free (Post.content (fields d)) = true ->
  (Post.readTime (fields d') - 1) * 200
  < Spec.words (Post.content (fields d))
  <= Post.readTime (fields d') * 200
  /\ (isNew d = true -> coll' = coll ++ [fields d'])
  /\ (isNew d = false ->
      forall p, Post.findById (Post._id (fields d)) coll = Some p ->
                Post.findById (Post._id (fields d)) coll' = Some (fields d')).
Proof.
  intros Hs Hm Hne He.
  destruct (post_save_stored _ _ _ _ _ Hs) as [Hnew Hold].
  split; [|split; assumption].
  apply post_save_inv in Hs as (_ & -> & _).
  assert (E : Post.readTime (fields (loaded (saved_post now d)))
              = Post.readTime (fields (Post.pre_save now d))).
  { unfold saved_post. destruct (isNew d); reflexivity. }
  rewrite E, pre_save_readTime_field, Hm.
  rewrite (wordCount_edge_free _ Hne He).
  apply Math_ceil_div_spec. lia.
Qed.

Lemma save_readTime_of_words_witness :
  exists d' coll',
    Post.save 5 (edited_draft None) [fields (edited_draft None)]
    = Resolved d' coll'
    /\ (Post.readTime (fields d') - 1) * 200 < Spec.words markup
       <= Post.readTime (fields d') * 200
    /\ Post.findById (str "p1") coll' = Some (fields d').
Proof.
  destruct (Post.save 5 (edited_draft None) [fields (edited_draft None)])
    as [d' coll'|] eqn:E; [|vm_compute in E; discriminate].
  exists d', coll'. split; [reflexivity|].
  assert (Hne : Post.content (fields (edited_draft None)) <> [])
    by discriminate.
  destruct (save_readTime_of_words 5 (edited_draft None) d' _ coll' E
              eq_refl Hne eq_refl) as (A & _ & B).
  split; [exact A|].
  apply (B eq_refl (fields (edited_draft None))). reflexivity.
Defined.

(** ** The publication date on the save path *)

(** X5.  A successful [save()] writes the publication date in one case
    only: the status was set, it is [published], and no date is there yet;
    the date is then the time of the save.  A date that is there is kept by
    every save, and a save that does not publish leaves [null]. *)
Theorem save_publishedAt
  (now : Z) (d d' : document Post.t) (coll coll' : list Post.t) :
  Post.save now d coll = Resolved d' coll' ->
  (forall t, Post.publishedAt (fields d) = Some t ->
             Post.publishedAt (fields d') = Some t)
  /\ (Post.publishedAt (fields d) = None ->
      (isModified "status" d = true /\ Post.status (fields d) = Post.published
       -> Post.publishedAt (fields d') = Some now)
      /\ (isModified "status" d = false \/ Post.status (fields d) <> Post.published
          -> Post.publishedAt (fields d') = None)).
Proof.
  intros H. apply post_save_inv in H as (_ & -> & _).
  assert (E : Post.publishedAt (fields (loaded (saved_post now d)))
              = Post.publishedAt (fields (Post.pre_save now d))).
  { unfold saved_post. destruct (isNew d); reflexivity. }
  rewrite E, save_path_publishedAt.
  split.
  - intros t ->. destruct (_ && _)%bool; reflexivity.
  - intros ->. split.
    + intros [-> ->]. reflexivity.
    + intros [-> | Hs]; [reflexivity|].
      destruct (Post.status (fields d)); try reflexivity;
        [now rewrite andb_false_r | congruence | now rewrite andb_false_r].
Qed.

Lemma save_publishedAt_witness :
  exists d' coll',
    Post.save 1700000005000 (publishing None) [fields (publishing None)]
    = Resolved d' coll'
    /\ Post.publishedAt (fields d') = Some 1700000005000
    /\ exists d'' coll'',
         Post.save 1700000009000 (markModified "status" d') coll'
         = Resolved d'' coll''
         /\ Post.publishedAt (fields d'') = Some 1700000005000.
Proof.
  destruct (Post.save 1700000005000 (publishing None)
              [fields (publishing None)]) as [d' coll'|] eqn:E;
    [|vm_compute in E; discriminate].
  exists d', coll'. split; [reflexivity|].
  destruct (save_publishedAt _ _ _ _ _ E) as [_ H].
  destruct (H eq_refl) as [Hset _].
  pose proof (Hset (conj eq_refl eq_refl)) as P.
  split; [exact P|].
  destruct (Post.save 1700000009000 (markModified "status" d') coll')
    as [d'' coll''|] eqn:E2.
  - exists d'', coll''. split; [reflexivity|].
    destruct (save_publishedAt _ _ _ _ _ E2) as [K _]. now apply K.
  - exfalso. apply post_save_inv in E as (_ & -> & _).
    vm_compute in E2. discriminate.
Defined.

(** ** The controller: what a request may write *)

Lemma db_eta (db : PostController.Db) :
  PostController.mkDb (PostController.posts db) (PostController.categories db)
                      (PostController.comments db) = db.
Proof. now destruct db. Qed.

Lemma post_findById_some (id : ObjectId) (coll : list Post.t) (p : Post.t) :
  Post.findById id coll = Some p -> In p coll /\ Post._id p = id.
Proof.
  unfold Post.findById, Query.findOne. intros H.
  apply find_some in H as [Hin Hid]. now apply str_eqb_eq in Hid.
Qed.

Lemma post_create_rejected
  (newId : ObjectId) (now : Z) (n : Post.new_post) (coll c : list Post.t)
  (code : option Z) (msg : string) :
  Post.create newId now n coll = Rejected c code msg -> c = coll.
Proof.
  unfold Post.create.
  destruct (Post.status_of_string _); [apply post_save_rejected|].
  now intros [=].
Qed.

(** X6.  A request that is not answered with success writes nothing: the
    collections after [createPost], [updatePost], [deletePost], [toggleLike]
    and [getPost] are the collections before, whenever the status is not
    201, respectively 200. *)
Theorem failed_requests_write_nothing
  (ObjectId_isValid : jsstring -> bool) (castObjectId : jsstring -> ObjectId)
  (valid : bool) (user : PostController.User) (body : PostController.Body)
  (id : ObjectId) (now : Z) (db : PostController.Db) :
  (PostController.statusCode
     (fst (PostController.createPost valid user body id now db)) <> 201 ->
   snd (PostController.createPost valid user body id now db) = db)
  /\ (PostController.statusCode
        (fst (PostController.updatePost valid user id body db)) <> 200 ->
      snd (PostController.updatePost valid user id body db) = db)
  /\ (PostController.statusCode
        (fst (PostController.deletePost user id db)) <> 200 ->
      snd (PostController.deletePost user id db) = db)
  /\ (PostController.statusCode
        (fst (PostController.toggleLike user id now db)) <> 200 ->
      snd (PostController.toggleLike user id now db) = db)
  /\ (PostController.statusCode
        (fst (PostController.getPost ObjectId_isValid castObjectId id db))
      <> 200 ->
      snd (PostController.getPost ObjectId_isValid castObjectId id db) = db).
Proof.
  split; [|split; [|split; [|split]]].
  - unfold PostController.createPost.
    destruct (negb valid); [reflexivity|].
    destruct (Category.findById _ _); [|reflexivity].
    destruct (Post.create _ _ _ _) as [d c|c code msg] eqn:E; simpl.
    + congruence.
    + intros _. apply post_create_rejected in E. subst c. apply db_eta.
  - unfold PostController.updatePost.
    destruct (negb valid); [reflexivity|].
    destruct (Post.findById _ _); [|reflexivity].
    destruct (negb _); [reflexivity|].
    match goal with |- context [if ?b then _ else _] => destruct b end;
      [reflexivity|].
    unfold Post.findByIdAndUpdate.
    destruct (Post.update_valid _); simpl; [congruence|].
    intros _. apply db_eta.
  - unfold PostController.deletePost.
    destruct (Post.findById _ _); [|reflexivity].
    destruct (negb _); [reflexivity|]. simpl. congruence.
  - unfold PostController.toggleLike.
    destruct (Post.findById _ _); [|reflexivity].
    rewrite post_toggleLike_loaded. simpl. congruence.
  - unfold PostController.getPost.
    destruct (Query.findOne _ _); simpl; [congruence | reflexivity].
Qed.

Lemma failed_requests_write_nothing_witness :
  snd (PostController.createPost true the_author publish (str "p2") 5 draft_db)
  = draft_db
  /\ snd (PostController.updatePost true a_stranger (str "p1") publish draft_db)
     = draft_db
  /\ snd (PostController.deletePost a_stranger (str "p1") draft_db) = draft_db
  /\ snd (PostController.toggleLike the_author (str "p7") 5 draft_db) = draft_db
  /\ snd (PostController.getPost bson_isValid bson_cast (str "no-such-slug")
            draft_db) = draft_db.
Proof.
  destruct (failed_requests_write_nothing bson_isValid bson_cast true the_author
              publish (str "p2") 5 draft_db) as (A & _).
  destruct (failed_requests_write_nothing bson_isValid bson_cast true a_stranger
              publish (str "p1") 5 draft_db) as (_ & B & C & _).
  destruct (failed_requests_write_nothing bson_isValid bson_cast true the_author
              publish (str "p7") 5 draft_db) as (_ & _ & _ & D & _).
  destruct (failed_requests_write_nothing bson_isValid bson_cast true the_author
              publish (str "no-such-slug") 5 draft_db) as (_ & _ & _ & _ & E).
  split; [apply A; vm_compute; discriminate|].
  split; [apply B; vm_compute; discriminate|].
  split; [apply C; vm_compute; discriminate|].
  split; [apply D; vm_compute; discriminate|].
  apply E; vm_compute; discriminate.
Defined.

(** X7.  A user who is neither the author of a post nor an admin can
    neither update nor delete it: both requests are answered 403 and leave
    the collections as they were, whatever the body; the author and any
    admin are never answered 403. *)
Theorem only_author_or_admin_writes
  (user : PostController.User) (postId : ObjectId) (body : PostController.Body)
  (db : PostController.Db) (post : Post.t) :
  Post.findById postId (PostController.posts db) = Some post ->
  (Post.author post <> PostController.id user ->
   PostController.role user <> str "admin" ->
   PostController.updatePost true user postId body db
   = (PostController.failure 403 "Not authorized to update this post", db)
   /\ PostController.deletePost user postId db
      = (PostController.failure 403 "Not authorized to delete this post", db))
  /\ (Post.author post = PostController.id user
      \/ PostController.role user = str "admin" ->
      PostController.statusCode
        (fst (PostController.updatePost true user postId body db)) <> 403
      /\ PostController.statusCode
           (fst (PostController.deletePost user postId db)) = 200).
Proof.
  intros Hf. unfold PostController.updatePost, PostController.deletePost.
  rewrite Hf. simpl negb. cbv iota. unfold PostController.may_write. split.
  - intros Ha Hr. apply str_eqb_neq in Ha, Hr. rewrite Ha, Hr. simpl. auto.
  - intros H.
    assert (E : (str_eqb (Post.author post) (PostController.id user)
                 || str_eqb (PostController.role user) (str "admin"))%bool
                = true).
    { apply orb_true_iff. destruct H as [H|H]; [left|right];
        now apply str_eqb_eq. }
    rewrite E. simpl negb. cbv iota. split; [|reflexivity].
    match goal with |- context [if ?b then _ else _] => destruct b end;
      [simpl; discriminate|].
    unfold Post.findByIdAndUpdate.
    destruct (Post.update_valid _); simpl; discriminate.
Qed.

Lemma only_author_or_admin_writes_witness :
  (PostController.updatePost true a_stranger (str "p1") publish draft_db
   = (PostController.failure 403 "Not authorized to update this post", draft_db)
   /\ PostController.deletePost a_stranger (str "p1") draft_db
      = (PostController.failure 403 "Not authorized to delete this post",
         draft_db))
  /\ PostController.statusCode
       (fst (PostController.updatePost true an_admin (str "p1") publish draft_db))
     <> 403
  /\ PostController.statusCode
       (fst (PostController.deletePost an_admin (str "p1") draft_db)) = 200.
Proof.
  destruct (only_author_or_admin_writes a_stranger (str "p1") publish draft_db
              the_draft eq_refl) as [A _].
  destruct (only_author_or_admin_writes an_admin (str "p1") publish draft_db
              the_draft eq_refl) as [_ B].
  split.
  - apply A; vm_compute; discriminate.
  - apply B. right. reflexivity.
Defined.

Lemma apply_update_frozen (u : Post.update) (p : Post.t) :
  frozen (Post.apply_update u p) = frozen p.
Proof. reflexivity. Qed.

(** X8.  [updatePost] writes the keys of the body and nothing else: of no
    post does it change [_id], [slug], [author], [publishedAt], [readTime],
    [views], [likes], [isFeatured] or [createdAt] -- so a new title leaves
    the slug and a new content leaves the read time --; it adds and removes
    no post, and leaves the categories and the comments alone. *)
Theorem updatePost_frame
  (valid : bool) (user : PostController.User) (postId : ObjectId)
  (body : PostController.Body) (db : PostController.Db) :
  let db' := snd (PostController.updatePost valid user postId body db) in
  map frozen (PostController.posts db') = map frozen (PostController.posts db)
  /\ PostController.categories db' = PostController.categories db
  /\ PostController.comments db' = PostController.comments db.
Proof.
  unfold PostController.updatePost.
  destruct (negb valid); [simpl; auto|].
  destruct (Post.findById postId _) as [post|]; [|simpl; auto].
  destruct (negb _); [simpl; auto|].
  match goal with |- context [if ?b then _ else _] => destruct b end;
    [simpl; auto|].
  unfold Post.findByIdAndUpdate.
  destruct (Post.update_valid _); simpl; [|auto].
  split; [|auto]. apply updateOne_map, apply_update_frozen.
Qed.

Example updatePost_keeps_slug_and_readTime :
  option_map
    (option_map (fun p => (Post.title p, Post.slug p, Post.readTime p)))
    (PostController.data
       (fst (PostController.updatePost true the_author (str "p1") retitle
               draft_db)))
  = Some (Some (str "A brand new title", str "hello-world-1700000000000", 1)).
Proof. vm_compute. reflexivity. Qed.

Lemma find_deleteMany_none {A} (f : A -> bool) (l : list A) :
  find f (Query.deleteMany f l) = None.
Proof.
  unfold Query.deleteMany.
  induction l as [|x l IH]; simpl; [reflexivity|].
  destruct (f x) eqn:E; simpl; [exact IH | now rewrite E].
Qed.

(** X9.  When the author or an admin deletes a post that exists, the
    answer is 200; what is left is every post with another [_id] and every
    comment on another post, and the categories as they were; and the same
    request once more is answered 404 and changes nothing. *)
Theorem deletePost_then_again
  (user : PostController.User) (postId : ObjectId) (db : PostController.Db)
  (post : Post.t) :
  Post.findById postId (PostController.posts db) = Some post ->
  PostController.may_write user post = true ->
  let db' := snd (PostController.deletePost user postId db) in
  PostController.statusCode (fst (PostController.deletePost user postId db))
  = 200
  /\ (forall x, In x (PostController.posts db') <->
                In x (PostController.posts db) /\ Post._id x <> postId)
  /\ (forall c, In c (PostController.comments db') <->
                In c (PostController.comments db) /\ Comment.post c <> postId)
  /\ PostController.categories db' = PostController.categories db
  /\ PostController.deletePost user postId db'
     = (PostController.failure 404 "Post not found", db').
Proof.
  intros Hf Hw.
  destruct (post_findById_some _ _ _ Hf) as [_ Hid].
  assert (E : PostController.deletePost user postId db
              = (PostController.Json 200 true
                   (Some "Post deleted successfully"%string) None None,
                 PostController.mkDb
                   (Query.deleteMany (fun x => str_eqb (Post._id x) postId)
                      (PostController.posts db))
                   (PostController.categories db)
                   (Query.deleteMany
                      (Comment.matches
                         (Comment.Filter (Some postId) None None))
                      (PostController.comments db)))).
  { unfold PostController.deletePost. rewrite Hf, Hw. simpl. now rewrite Hid. }
  rewrite E. simpl.
  split; [reflexivity|]. split; [|split; [|split; [reflexivity|]]].
  - intros x. unfold Query.deleteMany.
    rewrite filter_In, negb_true_iff. now rewrite str_eqb_neq.
  - intros c. unfold Query.deleteMany, Comment.matches. simpl.
    rewrite filter_In, negb_true_iff, !andb_true_r. now rewrite str_eqb_neq.
  - unfold PostController.deletePost. simpl.
    unfold Post.findById, Query.findOne.
    now rewrite (find_deleteMany_none (fun x => str_eqb (Post._id x) postId)).
Qed.

Lemma deletePost_then_again_witness :
  let db' := snd (PostController.deletePost the_author (str "p1") draft_db) in
  PostController.statusCode
    (fst (PostController.deletePost the_author (str "p1") draft_db)) = 200
  /\ PostController.posts db' = []
  /\ PostController.deletePost the_author (str "p1") db'
     = (PostController.failure 404 "Post not found", db').
Proof.
  destruct (deletePost_then_again the_author (str "p1") draft_db the_draft
              eq_refl eq_refl) as (A & _ & _ & _ & B).
  split; [exact A|]. split; [reflexivity | exact B].
Defined.

(** ** Creating a post *)

Lemma validate_new (p : Post.t) (paths : list string) :
  Post.validate (Document p true paths) = within_schema p.
Proof. reflexivity. Qed.

Lemma pre_save_excerpt_ok (now : Z) (d : document Post.t) :
  Post.excerpt_ok (Post.excerpt (fields d)) = true ->
  Post.excerpt_ok (Post.excerpt (fields (Post.pre_save now d))) = true.
Proof.
  intros H. rewrite pre_save_excerpt_field. unfold Post.pre_save_excerpt.
  destruct (_ && _)%bool; [|exact H].
  cbn [fields with_fields Post.excerpt Post.set_excerpt Post.excerpt_ok].
  apply Nat.leb_le. unfold substring0.
  rewrite length_app, length_firstn. simpl length. lia.
Qed.

Lemma pre_save_within_schema (now : Z) (d : document Post.t) :
  within_schema (fields d) = true ->
  within_schema (fields (Post.pre_save now d)) = true.
Proof.
  unfold within_schema. intros H.
  apply andb_true_iff in H as [H He]. apply andb_true_iff in H as [Ht Hc].
  destruct (post_pre_save_frame now d) as (_ & _ & _ & -> & -> & _).
  rewrite Ht, Hc. simpl. now apply pre_save_excerpt_ok.
Qed.

(** What [createPost] hands to [Post.create], and the document [save()] is
    called on. *)
Lemma createPost_inv
  (valid : bool) (user : PostController.User) (body : PostController.Body)
  (newId : ObjectId) (now : Z) (db : PostController.Db) (p : Post.t) :
  PostController.data
    (fst (PostController.createPost valid user body newId now db)) = Some p ->
  exists st c d0,
    Category.findById (Post.or_else (PostController.b_category body) [])
                      (PostController.categories db) = Some c
    /\ Post.status_of_string
         (Post.or_else
            (PostController.when_truthy (PostController.b_status body))
            (str "draft")) = Some st
    /\ isNew d0 = true
    /\ isModified "status" d0 = true
    /\ isModified "content" d0 = true
    /\ fields d0
       = Post.mk newId (trim (Post.or_else (PostController.b_title body) []))
                 [] (Post.or_else (PostController.b_content body) [])
                 (PostController.b_excerpt body) (PostController.id user)
                 (Post.or_else (PostController.b_category body) []) st None
                 0 0 [] false
                 (Post.or_else (PostController.b_allowComments body) true) now
    /\ Post.validate d0 = true
    /\ p = saved_post now d0
    /\ PostController.createPost valid user body newId now db
       = (PostController.Json 201 true
            (Some "Post created successfully"%string) (Some p) None,
          PostController.mkDb (PostController.posts db ++ [p])
                              (PostController.categories db)
                              (PostController.comments db)).
Proof.
  unfold PostController.createPost.
  destruct (negb valid); [discriminate|].
  destruct (Category.findById _ _) as [c|]; [|discriminate].
  unfold Post.create. cbn [Post.n_status Post.n_title Post.n_content
    Post.n_excerpt Post.n_author Post.n_category Post.n_allowComments].
  destruct (Post.status_of_string _) as [st|]; [|discriminate].
  match goal with |- context [Post.save now ?d _] => set (d0 := d) end.
  destruct (Post.save now d0 (PostController.posts db)) as [d ps|] eqn:E;
    [|discriminate].
  apply post_save_inv in E as (Hv & -> & ->).
  simpl. intros [= <-].
  exists st, c, d0. repeat split; try reflexivity; assumption.
Qed.

(** X10.  A post that [createPost] answers with was stored as the last post
    of the collection, with the [_id] it was given, the requester as author
    (the body has no say), no view, no like, not featured, in a category
    that exists, as a draft when the body names no status, published at the
    time of the request exactly when its status is [published], within the
    bounds of the schema, with a read time of at least 1 and a slug of
    characters of [a-z0-9-]. *)
Theorem createPost_created
  (valid : bool) (user : PostController.User) (body : PostController.Body)
  (newId : ObjectId) (now : Z) (db : PostController.Db) (p : Post.t) :
  PostController.data
    (fst (PostController.createPost valid user body newId now db)) = Some p ->
  let db' := snd (PostController.createPost valid user body newId now db) in
  PostController.posts db' = PostController.posts db ++ [p]
  /\ PostController.categories db' = PostController.categories db
  /\ PostController.comments db' = PostController.comments db
  /\ Post._id p = newId
  /\ Post.author p = PostController.id user
  /\ Post.views p = 0
  /\ Post.likes p = []
  /\ Post.isFeatured p = false
  /\ (exists c, Category.findById (Post.category p)
                                  (PostController.categories db) = Some c)
  /\ (truthy (PostController.b_status body) = false ->
      Post.status p = Post.draft)
  /\ Post.publishedAt p
     = (if Post.status_eqb (Post.status p) Post.published then Some now
        else None)
  /\ within_schema p = true
  /\ 1 <= Post.readTime p
  /\ Forall (fun ch => Spec.slug_char ch = true) (Post.slug p).
Proof.
  intros H.
  destruct (createPost_inv _ _ _ _ _ _ _ H)
    as (st & c & d0 & Hc & Hst & Hn & Hms & Hmc & Hf & Hv & -> & ->).
  unfold saved_post. rewrite Hn.
  destruct (post_pre_save_frame now d0)
    as (_ & _ & Hid & Hti & Hco & Hau & Hca & Hs & Hvi & Hli & Hfe & _).
  cbn [snd PostController.posts PostController.categories
       PostController.comments Post._id Post.author Post.views Post.likes
       Post.isFeatured Post.category Post.status Post.publishedAt
       Post.readTime Post.slug Post.set_createdAt].
  rewrite Hid, Hau, Hvi, Hli, Hfe, Hca, Hs, Hf.
  cbn [Post._id Post.author Post.views Post.likes Post.isFeatured
       Post.category Post.status].
  repeat (split; [reflexivity|]).
  split; [eauto|].
  split.
  { intros Ht. unfold PostController.when_truthy in Hst. rewrite Ht in Hst.
    vm_compute in Hst. congruence. }
  split.
  { rewrite save_path_publishedAt, Hms, Hf. reflexivity. }
  split.
  { assert (W : within_schema (fields (Post.pre_save now d0)) = true).
    { apply pre_save_within_schema.
      destruct d0 as [f n m]. simpl in Hn. subst n. exact Hv. }
    exact W. }
  split.
  { rewrite pre_save_readTime_field, Hmc.
    pose proof (wordCount_positive (Post.content (fields d0))).
    pose proof (Math_ceil_div_spec (Post.wordCount (Post.content (fields d0)))
                  200 ltac:(lia)).
    lia. }
  rewrite post_slug_after_hook; [apply slug_of_title_chars|].
  rewrite Hn. apply orb_true_r.
Qed.

Lemma createPost_created_witness :
  exists p,
    PostController.data
      (fst (PostController.createPost true the_author published_from_the_start
              (str "p1") 1700000000000 empty_db)) = Some p
    /\ Post.author p = str "u1"
    /\ Post.views p = 0
    /\ Post.publishedAt p = Some 1700000000000
    /\ within_schema p = true.
Proof.
  destruct (PostController.data
              (fst (PostController.createPost true the_author
                      published_from_the_start (str "p1") 1700000000000
                      empty_db))) as [p|] eqn:E; [|vm_compute in E; discriminate].
  exists p. split; [reflexivity|].
  destruct (createPost_created _ _ _ _ _ _ _ E)
    as (_ & _ & _ & _ & A & B & _ & _ & _ & _ & C & D & _).
  split; [exact A|]. split; [exact B|]. split; [|exact D].
  rewrite C. vm_compute in E. injection E as <-. reflexivity.
Defined.

(** X11.  Once the request validators have passed and the category exists,
    [createPost] answers 201 or 500, never 400; a body that fails the
    validators of the schema -- a title of fewer than 5 characters once
    trimmed, a content of fewer than 50, an excerpt of more than 300, a
    status that is not of the enum -- is answered 500, and nothing is
    stored. *)
Theorem createPost_schema_violation
  (user : PostController.User) (body : PostController.Body)
  (newId : ObjectId) (now : Z) (db : PostController.Db) (c : Category.t) :
  Category.findById (Post.or_else (PostController.b_category body) [])
                    (PostController.categories db) = Some c ->
  (PostController.statusCode
     (fst (PostController.createPost true user body newId now db)) = 201
   \/ PostController.createPost true user body newId now db
      = (PostController.failure 500 "Server error while creating post", db))
  /\ (acceptable body = false ->
      PostController.createPost true user body newId now db
      = (PostController.failure 500 "Server error while creating post", db)).
Proof.
  intros Hc. unfold PostController.createPost, acceptable. simpl negb.
  cbv iota. rewrite Hc.
  destruct (Post.create _ _ _ _) as [d ps|ps code msg] eqn:E.
  - split; [now left|]. intros Ha. exfalso. revert E.
    unfold Post.create.
    cbn [Post.n_status Post.n_title Post.n_content Post.n_excerpt
         Post.n_author Post.n_category Post.n_allowComments].
    destruct (Post.status_of_string _) as [st|]; [|discriminate].
    rewrite andb_true_r in Ha. intros E.
    apply post_save_inv in E as (Hv & _). rewrite validate_new in Hv.
    unfold within_schema in Hv.
    cbn [Post.title Post.content Post.excerpt] in Hv. congruence.
  - apply post_create_rejected in E. subst ps.
    cbn [fst snd]. rewrite db_eta. split; [now right | reflexivity].
Qed.

Lemma createPost_schema_violation_witness :
  PostController.createPost true the_author short_title (str "p1") 5 empty_db
  = (PostController.failure 500 "Server error while creating post", empty_db).
Proof.
  apply (proj2 (createPost_schema_violation the_author short_title
                  (str "p1") 5 empty_db (a_category "c1" "Tech" true 1)
                  eq_refl)).
  vm_compute. reflexivity.
Defined.

Lemma find_last {A} (f : A -> bool) (l : list A) (x : A) :
  (forall y, In y l -> f y = false) -> f x = true ->
  find f (l ++ [x]) = Some x.
Proof.
  intros Hl Hx. induction l as [|y l IH]; simpl; [now rewrite Hx|].
  rewrite (Hl y (or_introl eq_refl)). apply IH.
  intros z Hz. apply Hl. now right.
Qed.

(** X12.  A post that [createPost] has answered with is what [getPost]
    answers afterwards: for its [_id], when the identifier passes
    [ObjectId.isValid], casts to itself and no older post has it; and for
    its slug, when the slug does not pass [ObjectId.isValid] and no older
    post has it. *)
Theorem createPost_then_getPost
  (ObjectId_isValid : jsstring -> bool) (castObjectId : jsstring -> ObjectId)
  (valid : bool) (user : PostController.User) (body : PostController.Body)
  (newId : ObjectId) (now : Z) (db : PostController.Db) (p : Post.t) :
  PostController.data
    (fst (PostController.createPost valid user body newId now db)) = Some p ->
  let db' := snd (PostController.createPost valid user body newId now db) in
  (ObjectId_isValid newId = true -> castObjectId newId = newId ->
   (forall q, In q (PostController.posts db) -> Post._id q <> newId) ->
   fst (PostController.getPost ObjectId_isValid castObjectId newId db')
   = PostController.Json 200 true None (Some p) None)
  /\ (ObjectId_isValid (Post.slug p) = false ->
      (forall q, In q (PostController.posts db) -> Post.slug q <> Post.slug p) ->
      fst (PostController.getPost ObjectId_isValid castObjectId (Post.slug p)
             db')
      = PostController.Json 200 true None (Some p) None).
Proof.
  intros H.
  destruct (createPost_inv _ _ _ _ _ _ _ H)
    as (st & c & d0 & _ & _ & Hn & _ & _ & Hf & _ & Hp & ->).
  assert (Hid : Post._id p = newId).
  { subst p. unfold saved_post. rewrite Hn.
    destruct (post_pre_save_frame now d0) as (_ & _ & Hid & _).
    cbn [Post._id Post.set_createdAt]. now rewrite Hid, Hf. }
  cbn [snd]. unfold PostController.getPost, PostController.lookup_of,
    Query.findOne. cbn [PostController.posts]. split.
  - intros Hv Hc Hfresh. rewrite Hv.
    rewrite (find_last _ _ p); [reflexivity| |].
    + intros q Hq. simpl. rewrite Hc. apply str_eqb_neq. now apply Hfresh.
    + simpl. rewrite Hc, Hid. apply str_eqb_refl.
  - intros Hv Hfresh. rewrite Hv.
    assert (Hlow : toLowerCase (Post.slug p) = Post.slug p).
    { apply toLowerCase_slug_chars. subst p. unfold saved_post. rewrite Hn.
      cbn [Post.slug Post.set_createdAt].
      rewrite post_slug_after_hook; [apply slug_of_title_chars|].
      rewrite Hn. apply orb_true_r. }
    rewrite (find_last _ _ p); [reflexivity| |].
    + intros q Hq. simpl. rewrite Hlow. apply str_eqb_neq. now apply Hfresh.
    + simpl. rewrite Hlow. apply str_eqb_refl.
Qed.

Lemma createPost_then_getPost_witness :
  exists p,
    PostController.data
      (fst (PostController.createPost true the_author published_from_the_start
              (str "65a1b2c3d4e5f60718293a4b") 1700000000000 empty_db))
    = Some p
    /\ fst (PostController.getPost bson_isValid bson_cast
              (str "65a1b2c3d4e5f60718293a4b")
              (snd (PostController.createPost true the_author
                      published_from_the_start
                      (str "65a1b2c3d4e5f60718293a4b") 1700000000000 empty_db)))
       = PostController.Json 200 true None (Some p) None
    /\ fst (PostController.getPost bson_isValid bson_cast (Post.slug p)
              (snd (PostController.createPost true the_author
                      published_from_the_start
                      (str "65a1b2c3d4e5f60718293a4b") 1700000000000 empty_db)))
       = PostController.Json 200 true None (Some p) None.
Proof.
  destruct (PostController.data
              (fst (PostController.createPost true the_author
                      published_from_the_start
                      (str "65a1b2c3d4e5f60718293a4b") 1700000000000
                      empty_db))) as [p|] eqn:E; [|vm_compute in E; discriminate].
  exists p. split; [reflexivity|].
  destruct (createPost_then_getPost bson_isValid bson_cast _ _ _ _ _ _ _ E)
    as [A B].
  split.
  - apply A; [reflexivity | reflexivity | intros q []].
  - apply B; [|intros q []].
    vm_compute in E. injection E as <-. reflexivity.
Defined.

(** ** Reading a post counts one view *)



Example getPost_twice :
  let db1 := snd (PostController.getPost bson_isValid bson_cast
                    (str "hello-world-1700000000000") draft_db) in
  let r2 := PostController.getPost bson_isValid bson_cast
              (str "hello-world-1700000000000") db1 in
  option_map Post.views (PostController.data (fst r2)) = Some 1
  /\ map Post.views (PostController.posts (snd r2)) = [2].
Proof. split; vm_compute; reflexivity. Qed.

(** ** Liking a post *)





(** ** Invariants of the stored posts *)

Lemma apply_update_sound (u : Post.update) (p : Post.t) :
  Post.update_valid u = true -> sound p -> sound (Post.apply_update u p).
Proof.
  unfold Post.update_valid, sound, within_schema. intros Hu [Hw Hl].
  apply andb_true_iff in Hu as [Hu _]. apply andb_true_iff in Hu as [Hu He].
  apply andb_true_iff in Hu as [Ht Hc].
  apply andb_true_iff in Hw as [Hw He']. apply andb_true_iff in Hw as [Ht' Hc'].
  split; [|exact Hl].
  cbn [Post.apply_update Post.title Post.content Post.excerpt].
  destruct (Post.u_title u), (Post.u_content u), (Post.u_excerpt u);
    cbn [Post.or_else]; unfold Post.excerpt_ok in *;
    rewrite ?Ht, ?Hc, ?Ht', ?Hc', ?He, ?He'; reflexivity.
Qed.

Lemma createPost_posts
  (valid : bool) (user : PostController.User) (body : PostController.Body)
  (newId : ObjectId) (now : Z) (db : PostController.Db) :
  let r := PostController.createPost valid user body newId now db in
  PostController.posts (snd r) = PostController.posts db
  \/ exists p, PostController.data (fst r) = Some p
               /\ PostController.posts (snd r) = PostController.posts db ++ [p].
Proof.
  cbv zeta.
  destruct (PostController.data
              (fst (PostController.createPost valid user body newId now db)))
    as [p|] eqn:E.
  - right. exists p. split; [reflexivity|].
    destruct (createPost_inv _ _ _ _ _ _ _ E)
      as (_ & _ & _ & _ & _ & _ & _ & _ & _ & _ & _ & ->).
    reflexivity.
  - left. revert E. unfold PostController.createPost.
    destruct (negb valid); [reflexivity|].
    destruct (Category.findById _ _); [|reflexivity].
    destruct (Post.create _ _ _ _) as [d c|c code msg] eqn:K; simpl;
      [discriminate|].
    intros _. now apply post_create_rejected in K.
Qed.

(** X15.  Every request of the controller keeps the stored posts sound:
    if, before, each post is within the bounds of the schema (title of 5 to
    200 characters, content of 50 at least, excerpt of 300 at most) and
    lists no user twice in its likes, so it is after [createPost],
    [updatePost], [deletePost], [toggleLike] and [getPost], whatever the
    request and its answer. *)
Theorem controller_keeps_posts_sound
  (ObjectId_isValid : jsstring -> bool) (castObjectId : jsstring -> ObjectId)
  (valid : bool) (user : PostController.User) (body : PostController.Body)
  (id : ObjectId) (now : Z) (db : PostController.Db) :
  Forall sound (PostController.posts db) ->
  Forall sound
    (PostController.posts
       (snd (PostController.createPost valid user body id now db)))
  /\ Forall sound
       (PostController.posts
          (snd (PostController.updatePost valid user id body db)))
  /\ Forall sound
       (PostController.posts (snd (PostController.deletePost user id db)))
  /\ Forall sound
       (PostController.posts (snd (PostController.toggleLike user id now db)))
  /\ Forall sound
       (PostController.posts
          (snd (PostController.getPost ObjectId_isValid castObjectId id db))).
Proof.
  intros H. split; [|split; [|split; [|split]]].
  - destruct (createPost_posts valid user body id now db) as [->|(p & E & ->)];
      [exact H|].
    apply Forall_app. split; [exact H|]. constructor; [|constructor].
    destruct (createPost_inv _ _ _ _ _ _ _ E)
      as (st & c & d0 & _ & _ & Hn & _ & _ & Hf & Hv & -> & _).
    unfold saved_post. rewrite Hn. split.
    + change (within_schema (fields (Post.pre_save now d0)) = true).
      apply pre_save_within_schema.
      destruct d0 as [f n m]. simpl in Hn. subst n. exact Hv.
    + cbn [Post.likes Post.set_createdAt]. rewrite pre_save_likes, Hf.
      constructor.
  - unfold PostController.updatePost.
    destruct (negb valid); [exact H|].
    destruct (Post.findById id _); [|exact H].
    destruct (negb _); [exact H|].
    match goal with |- context [if ?b then _ else _] => destruct b end;
      [exact H|].
    unfold Post.findByIdAndUpdate.
    destruct (Post.update_valid _) eqn:U; simpl; [|exact H].
    apply updateOne_Forall; [|exact H].
    intros x. now apply apply_update_sound.
  - unfold PostController.deletePost.
    destruct (Post.findById id _); [|exact H].
    destruct (negb _); [exact H|]. simpl.
    unfold Query.deleteMany. apply Forall_forall. intros x Hx.
    apply filter_In in Hx as [Hx _].
    now apply (proj1 (Forall_forall _ _) H).
  - unfold PostController.toggleLike.
    destruct (Post.findById id _) as [post|] eqn:F; [|exact H].
    rewrite post_toggleLike_loaded. simpl.
    apply updateOne_Forall; [|exact H]. intros _ _.
    apply post_findById_some in F as [Hin _].
    destruct (proj1 (Forall_forall _ _) H post Hin) as [Hw Hl].
    split; [exact Hw|]. cbn [Post.likes Post.set_likes].
    now apply toggle_NoDup.
  - unfold PostController.getPost.
    destruct (Query.findOne _ _); [|exact H]. simpl.
    apply updateOne_Forall; [|exact H]. intros x Hx. exact Hx.
Qed.

Lemma controller_keeps_posts_sound_witness :
  Forall sound
    (PostController.posts
       (snd (PostController.toggleLike the_author (str "p1") 5
               (snd (PostController.updatePost true the_author (str "p1")
                       retitle draft_db))))).
Proof.
  assert (S0 : Forall sound (PostController.posts draft_db)).
  { repeat constructor. }
  destruct (controller_keeps_posts_sound bson_isValid bson_cast true the_author
              retitle (str "p1") 5 draft_db S0) as (_ & S1 & _).
  destruct (controller_keeps_posts_sound bson_isValid bson_cast true the_author
              retitle (str "p1") 5 _ S1) as (_ & _ & _ & S2 & _).
  exact S2.
Defined.

(** ** Listing posts *)

Lemma value_leb_total (a b : Query.value) :
  Query.value_leb a b = false -> Query.value_leb b a = true.
Proof.
  destruct a, b; simpl; try discriminate; try reflexivity;
    try (intros H; apply Z.leb_gt in H; apply Z.leb_le; lia);
    try apply str_leb_total.
  destruct b0, b; simpl; congruence.
Qed.

Lemma directed_total {A} (leb : A -> A -> bool) (order : Z) :
  (forall x y, leb x y = false -> leb y x = true) ->
  forall x y, Query.directed leb order x y = false ->
              Query.directed leb order y x = true.
Proof. intros H x y. unfold Query.directed. destruct (order <? 0); apply H. Qed.

Lemma Sorted_skipn {A} (R : A -> A -> Prop) (n : nat) (l : list A) :
  Sorted R l -> Sorted R (skipn n l).
Proof.
  revert l. induction n as [|n IH]; intros l H; [exact H|].
  destruct l as [|x l]; [constructor|]. simpl. apply IH. now inversion H.
Qed.

Lemma Sorted_firstn {A} (R : A -> A -> Prop) (n : nat) (l : list A) :
  Sorted R l -> Sorted R (firstn n l).
Proof.
  revert l. induction n as [|n IH]; intros l H; [constructor|].
  destruct l as [|x l]; [constructor|]. simpl.
  inversion H as [|? ? Hl Hx]; subst. constructor; [now apply IH|].
  destruct n; [constructor|]. destruct Hx; simpl; constructor; assumption.
Qed.

Lemma Sorted_limit {A} (R : A -> A -> Prop) (n : Z) (l : list A) :
  Sorted R l -> Sorted R (Query.limit n l).
Proof.
  unfold Query.limit. destruct (n =? 0); [auto | apply Sorted_firstn].
Qed.

Lemma limit_length {A} (n : Z) (l : list A) :
  n <> 0 -> (length (Query.limit n l) <= Z.abs_nat n)%nat.
Proof.
  intros H. unfold Query.limit. apply Z.eqb_neq in H. rewrite H.
  rewrite length_firstn, Zabs2Nat.abs_nat_spec. lia.
Qed.




Lemma firstn_plus {A} (a b : nat) (l : list A) :
  firstn (a + b) l = firstn a l ++ firstn b (skipn a l).
Proof.
  revert l. induction a as [|a IH]; intros l; [reflexivity|].
  destruct l as [|x l]; simpl; [now rewrite firstn_nil|]. now rewrite IH.
Qed.

Lemma pages_concat {A} (l n : nat) (L : list A) :
  concat (map (fun i => firstn l (skipn (i * l) L)) (seq 0 n))
  = firstn (n * l) L.
Proof.
  induction n as [|n IH]; [reflexivity|].
  rewrite seq_S, map_app, concat_app, IH. simpl.
  rewrite List.app_nil_r, (Nat.add_comm l (n * l)). symmetry. apply firstn_plus.
Qed.

Lemma str_leb_trans (a b c : jsstring) :
  Query.str_leb a b = true -> Query.str_leb b c = true ->
  Query.str_leb a c = true.
Proof.
  revert b c. induction a as [|x a IH]; intros [|y b] [|z c]; simpl;
    try reflexivity; try discriminate.
  destruct (N.ltb_spec (code x) (code y)), (N.ltb_spec (code y) (code x)),
    (N.ltb_spec (code y) (code z)), (N.ltb_spec (code z) (code y)),
    (N.ltb_spec (code x) (code z)), (N.ltb_spec (code z) (code x));
    try reflexivity; try discriminate; try lia.
  apply IH.
Qed.

Lemma value_leb_trans (a b c : Query.value) :
  Query.value_leb a b = true -> Query.value_leb b c = true ->
  Query.value_leb a c = true.
Proof.
  destruct a, b, c; simpl; try reflexivity; try discriminate;
    try apply str_leb_trans;
    try (intros H1 H2; apply Z.leb_le in H1, H2; apply Z.leb_le; lia).
  destruct b0, b, b1; simpl; congruence.
Qed.

Lemma requested_order_trans (q : PostController.ListQuery) (x y z : Post.t) :
  requested_order q x y = true -> requested_order q y z = true ->
  requested_order q x z = true.
Proof.
  unfold requested_order, Query.directed, Post.by_field.
  destruct (_ <? 0); intros H1 H2; eapply value_leb_trans; eassumption.
Qed.

(** Where the order is antisymmetric on the elements, a list has one sorted
    arrangement. *)
Lemma sorted_arrangement_unique {A} (R : A -> A -> Prop) (l1 l2 : list A) :
  (forall x y, In x l1 -> In y l1 -> R x y -> R y x -> x = y) ->
  StronglySorted R l1 -> StronglySorted R l2 -> Permutation l1 l2 ->
  l1 = l2.
Proof.
  revert l2. induction l1 as [|a l1 IH]; intros l2 Ha S1 S2 P.
  - apply Permutation_nil in P. now subst.
  - destruct l2 as [|b l2];
      [apply Permutation_sym, Permutation_nil in P; discriminate|].
    apply StronglySorted_inv in S1 as [S1 F1].
    apply StronglySorted_inv in S2 as [S2 F2].
    assert (E : a = b).
    { assert (Ia : In a (b :: l2))
        by (apply (Permutation_in _ P); now left).
      assert (Ib : In b (a :: l1))
        by (apply (Permutation_in _ (Permutation_sym P)); now left).
      destruct Ia as [->|Ia]; [reflexivity|].
      destruct Ib as [->|Ib]; [reflexivity|].
      apply Ha; [now left | now right | |].
      - apply (proj1 (Forall_forall _ _) F1 b Ib).
      - apply (proj1 (Forall_forall _ _) F2 a Ia). }
    subst b. f_equal. apply IH; [| assumption | assumption |].
    + intros x y Hx Hy. apply Ha; now right.
    + now apply Permutation_cons_inv in P.
Qed.

(** X17.  Where no two matching posts are equal in the order asked for, the
    pages of a list request cover what matches, once: for a limit of 1 at
    least, the pages 1 to [totalPages], one after the other, are the
    matching posts in the order asked for -- each matching post is on
    exactly one page -- and this is their only arrangement in that order,
    so that no page depends on how posts equal in the order are arranged. *)
Theorem getAllPosts_pages_cover
  (regex_test : jsstring -> jsstring -> bool)
  (q : PostController.ListQuery) (db : PostController.Db) (l : Z)
  (m : PostController.Pagination) :
  PostController.q_limit q = Some l ->
  1 <= l ->
  PostController.pagination (PostController.getAllPosts regex_test q db)
  = Some m ->
  (forall x y,
     In x (PostController.posts db) -> In y (PostController.posts db) ->
     PostController.list_filter regex_test q x = true ->
     PostController.list_filter regex_test q y = true ->
     requested_order q x y = true -> requested_order q y x = true ->
     x = y) ->
  concat (map (fun k => page_of regex_test (with_page (Z.of_nat k) q) db)
              (seq 1 (Z.to_nat (PostController.totalPages m))))
  = Query.sort_by (requested_order q)
      (filter (PostController.list_filter regex_test q)
              (PostController.posts db))
  /\ Permutation
       (concat (map (fun k => page_of regex_test (with_page (Z.of_nat k) q) db)
                    (seq 1 (Z.to_nat (PostController.totalPages m)))))
       (filter (PostController.list_filter regex_test q)
               (PostController.posts db))
  /\ (forall L,
        Permutation L (filter (PostController.list_filter regex_test q)
                              (PostController.posts db)) ->
        StronglySorted (fun x y => requested_order q x y = true) L ->
        concat (map (fun k => page_of regex_test (with_page (Z.of_nat k) q) db)
                    (seq 1 (Z.to_nat (PostController.totalPages m))))
        = L).
Proof.
  intros Hl Hl1 Hm Hanti.
  set (S := Query.sort_by (requested_order q)
              (filter (PostController.list_filter regex_test q)
                      (PostController.posts db))).
  assert (Hpage : forall i,
             page_of regex_test (with_page (Z.of_nat (Datatypes.S i)) q) db
             = firstn (Z.to_nat l) (skipn (i * Z.to_nat l) S)).
  { intros i. unfold page_of, PostController.getAllPosts, with_page.
    cbn [PostController.data PostController.q_page PostController.q_limit
         PostController.q_sortBy PostController.q_sortOrder Post.or_else].
    rewrite Hl. cbn [Post.or_else].
    unfold Query.limit, Query.skip.
    assert (Z0 : (l * 1 =? 0) = false) by (apply Z.eqb_neq; lia).
    rewrite Z0.
    replace (Z.to_nat (Z.abs (l * 1))) with (Z.to_nat l) by lia.
    replace (Z.to_nat ((Z.of_nat (Datatypes.S i) - 1) * l))
      with (i * Z.to_nat l)%nat by nia.
    reflexivity. }
  assert (E : concat (map (fun k => page_of regex_test
                                      (with_page (Z.of_nat k) q) db)
                          (seq 1 (Z.to_nat (PostController.totalPages m))))
              = S).
  { rewrite <- seq_shift, map_map.
    rewrite (map_ext _ _ Hpage), pages_concat.
    apply firstn_all2.
    unfold PostController.getAllPosts in Hm. rewrite Hl in Hm.
    cbn [PostController.pagination Post.or_else] in Hm.
    injection Hm as <-. cbn [PostController.totalPages PostController.paginate].
    unfold Query.countDocuments.
    set (t := Z.of_nat (length (filter _ _))).
    pose proof (Math_ceil_div_spec t l ltac:(lia)) as Hc.
    assert (Ht : length S
                 = length (filter (PostController.list_filter regex_test q)
                                  (PostController.posts db))).
    { subst S. apply Permutation_length, sort_by_perm. }
    rewrite Ht. subst t. nia. }
  split; [exact E|]. rewrite E.
  split; [subst S; apply sort_by_perm|].
  intros L HP HS.
  assert (SS : StronglySorted (fun x y => requested_order q x y = true) S).
  { apply Sorted_StronglySorted.
    - intros x y z. apply requested_order_trans.
    - subst S. apply (sort_by_sorted (requested_order q)).
      apply directed_total. intros x y. apply value_leb_total. }
  apply (sorted_arrangement_unique
           (fun x y => requested_order q x y = true) S L);
    [| exact SS | exact HS |].
  - intros x y Hx Hy. subst S.
    apply sort_by_In, filter_In in Hx as [Hx Fx].
    apply sort_by_In, filter_In in Hy as [Hy Fy].
    now apply Hanti.
  - subst S. eapply Permutation_trans; [apply sort_by_perm|].
    now apply Permutation_sym.
Qed.

Lemma getAllPosts_pages_cover_witness :
  concat (map (fun k => page_of (fun _ _ => true)
                          (with_page (Z.of_nat k) pages_of_three) ten_posts)
              (seq 1 3))
  = Query.sort_by (requested_order pages_of_three)
      (filter (PostController.list_filter (fun _ _ => true) pages_of_three)
              (PostController.posts ten_posts)).
Proof.
  refine (proj1 (getAllPosts_pages_cover (fun _ _ => true) pages_of_three
                   ten_posts 3 (PostController.mkPagination 1 3 7 true false)
                   eq_refl _ eq_refl _)); [lia|].
  intros x y Hx Hy Fx Fy Rxy Ryx.
  assert (K : forall z, In z (PostController.posts ten_posts) ->
                        PostController.list_filter (fun _ _ => true)
                          pages_of_three z = true ->
                        exists n, z = a_post Post.published n
                                  /\ Post.publishedAt z = Some (Z.of_nat n)).
  { intros z Hz Fz. unfold ten_posts in Hz. cbn [PostController.posts] in Hz.
    apply in_app_or in Hz as [Hz|Hz]; apply in_map_iff in Hz as (n & <- & _).
    - exists n. split; reflexivity.
    - vm_compute in Fz. discriminate. }
  destruct (K x Hx Fx) as (n & -> & Hn).
  destruct (K y Hy Fy) as (k & -> & Hk).
  change (requested_order pages_of_three)
    with (fun x y : Post.t =>
            Query.value_leb (Post.sort_key "publishedAt" y)
                            (Post.sort_key "publishedAt" x)) in Rxy, Ryx.
  change (Post.sort_key "publishedAt" (a_post Post.published n))
    with (Query.VDate (Z.of_nat n)) in Rxy, Ryx.
  change (Post.sort_key "publishedAt" (a_post Post.published k))
    with (Query.VDate (Z.of_nat k)) in Rxy, Ryx.
  simpl in Rxy, Ryx. apply Z.leb_le in Rxy, Ryx. f_equal. lia.
Defined.

Example pages_of_ten_posts :
  map (fun k => map Post.createdAt
                  (page_of (fun _ _ => true)
                     (with_page (Z.of_nat k) pages_of_three) ten_posts))
      (seq 1 3)
  = [[7; 6; 5]; [4; 3; 2]; [1]].
Proof. vm_compute. reflexivity. Qed.

(** ** Active categories *)

(** X18.  [findActive] returns the active categories, each as often as it
    is stored, and no other, ordered by [sortOrder], then by [name]. *)
Theorem findActive_sorted (coll : list Category.t) :
  Permutation (Category.findActive coll) (filter Category.isActive coll)
  /\ (forall c, In c (Category.findActive coll) <->
                In c coll /\ Category.isActive c = true)
  /\ Sorted sortOrder_then_name (Category.findActive coll).
Proof.
  unfold Category.findActive.
  split; [apply sort_by_perm|]. split.
  - intros c. now rewrite sort_by_In, filter_In.
  - eapply Sorted_weaken; [|apply (sort_by_sorted Category.by_sortOrder_name)].
    + apply by_sortOrder_name_spec.
    + apply by_sortOrder_name_total.
Qed.

Example findActive_example :
  map Category.name (Category.findActive some_categories)
  = [str "Art"; str "Tech"].
Proof. vm_compute. reflexivity. Qed.

(** ** Slugs at the edges *)

Lemma no_alnum_lower (c : ascii) :
  keep_char c = false -> keep_char (lower_char c) = false.
Proof. each_char c. Qed.

Lemma no_alnum_stripped (t : jsstring) :
  no_alnum t = true -> strip_non_alnum (toLowerCase t) = [].
Proof.
  unfold no_alnum, strip_non_alnum, toLowerCase.
  induction t as [|c t IH]; simpl; [reflexivity|].
  intros H. apply andb_true_iff in H as [Hc Ht].
  apply negb_true_iff in Hc. now rewrite (no_alnum_lower c Hc), IH.
Qed.

Lemma hyphenate_from_length (b : bool) (s : jsstring) :
  (length (hyphenate_from b s) <= length s)%nat.
Proof.
  revert b. induction s as [|c s IH]; intros b; simpl; [lia|].
  pose proof (IH true). pose proof (IH false).
  destruct (is_space c); [destruct b|]; simpl; lia.
Qed.

Lemma slug_of_name_length (t : jsstring) :
  (length (Category.slug_of_name t) <= length t)%nat.
Proof.
  rewrite trim_after_hyphenate.
  pose proof (hyphenate_from_length false (strip_non_alnum (toLowerCase t))).
  pose proof (filter_length_le keep_char (toLowerCase t)).
  unfold hyphenate, strip_non_alnum, toLowerCase in *.
  rewrite length_map in *. lia.
Qed.

(** X19.  The slug of a category that is new or renamed is made of
    characters of [a-z0-9-] and is no longer than the name.  A name or a
    title without any letter of [a-zA-Z], digit or whitespace leaves
    nothing to make a slug of: the category gets the empty slug, the post
    the hyphen and the timestamp alone. *)
Theorem slug_edges (now : Z) (c : document Category.t) (p : document Post.t) :
  (isModified "name" c || isNew c)%bool = true ->
  (isModified "title" p || isNew p)%bool = true ->
  Forall (fun ch => Spec.slug_char ch = true)
         (Category.slug (fields (Category.pre_save c)))
  /\ (length (Category.slug (fields (Category.pre_save c)))
      <= length (Category.name (fields c)))%nat
  /\ (no_alnum (Category.name (fields c)) = true ->
      Category.slug (fields (Category.pre_save c)) = [])
  /\ (no_alnum (Post.title (fields p)) = true ->
      Post.slug (fields (Post.pre_save now p))
      = str "-" ++ number_toString now).
Proof.
  intros Hc Hp.
  rewrite (category_slug_after_hook c Hc), (post_slug_after_hook now p Hp).
  split; [apply slug_of_name_chars|]. split; [apply slug_of_name_length|].
  split.
  - intros H. rewrite trim_after_hyphenate. now rewrite no_alnum_stripped.
  - intros H. unfold Post.slug_of_title.
    change (trim (hyphenate (strip_non_alnum (toLowerCase (Post.title (fields p))))))
      with (Category.slug_of_name (Post.title (fields p))).
    rewrite trim_after_hyphenate. now rewrite no_alnum_stripped.
Qed.

Lemma slug_edges_witness :
  Category.slug (fields (Category.pre_save (unsaved_category (str "?!")))) = []
  /\ Post.slug (fields (Post.pre_save 1700000000000
                          (unsaved_post (str "p1") (str "?!?!?!"))))
     = str "-1700000000000".
Proof.
  destruct (slug_edges 1700000000000 (unsaved_category (str "?!"))
              (unsaved_post (str "p1") (str "?!?!?!")) eq_refl eq_refl)
    as (_ & _ & A & B).
  split; [exact (A eq_refl) | exact (B eq_refl)].
Defined.

(** ** Published and featured posts *)

Lemma publishedAt_desc (x y : Post.t) :
  Query.directed (Post.by_field "publishedAt") (-1) x y = true
  <-> published_later x y.
Proof.
  unfold Query.directed, Post.by_field, Post.sort_key, published_later.
  simpl. destruct (Post.publishedAt x), (Post.publishedAt y); simpl;
    try (split; auto; discriminate).
  apply Z.leb_le.
Qed.

Lemma publishedAt_desc_total (x y : Post.t) :
  Query.directed (Post.by_field "publishedAt") (-1) x y = false ->
  Query.directed (Post.by_field "publishedAt") (-1) y x = true.
Proof. apply directed_total. intros a b. apply value_leb_total. Qed.

Lemma sorted_by_publishedAt (l : list Post.t) :
  Sorted published_later
    (Query.sort_by (Query.directed (Post.by_field "publishedAt") (-1)) l).
Proof.
  eapply Sorted_weaken; [|apply sort_by_sorted, publishedAt_desc_total].
  intros x y. apply publishedAt_desc.
Qed.

(** X20.  [findPublished] returns the published posts, each as often as it
    is stored; [findFeatured] those of them that are featured and
    [findByCategory] those of them in the category; all three list the later
    publication date first, and a post without date after the dated ones. *)
Theorem published_finders (categoryId : ObjectId) (coll : list Post.t) :
  Permutation (Post.findPublished coll)
              (filter (fun p => Post.status_eqb (Post.status p) Post.published)
                      coll)
  /\ (forall p, In p (Post.findPublished coll) <->
                In p coll /\ Post.status p = Post.published)
  /\ (forall p, In p (Post.findFeatured coll) <->
                In p (Post.findPublished coll) /\ Post.isFeatured p = true)
  /\ (forall p, In p (Post.findByCategory categoryId coll) <->
                In p (Post.findPublished coll) /\ Post.category p = categoryId)
  /\ Sorted published_later (Post.findPublished coll)
  /\ Sorted published_later (Post.findFeatured coll)
  /\ Sorted published_later (Post.findByCategory categoryId coll).
Proof.
  assert (P : forall p, Post.status_eqb (Post.status p) Post.published = true
                        <-> Post.status p = Post.published).
  { intros p. destruct (Post.status p); simpl; split; congruence. }
  unfold Post.findPublished, Post.findFeatured, Post.findByCategory.
  split; [apply sort_by_perm|].
  split; [intros p; now rewrite sort_by_In, filter_In, P|].
  split.
  { intros p. rewrite !sort_by_In, !filter_In, andb_true_iff. tauto. }
  split.
  { intros p. rewrite !sort_by_In, !filter_In, andb_true_iff, str_eqb_eq.
    tauto. }
  repeat split; apply sorted_by_publishedAt.
Qed.

Example findFeatured_example :
  map Post._id (Post.findFeatured (PostController.posts featured_db))
  = map str ["i"; "h"; "g"; "f"; "c"; "a"; "b"]%string.
Proof. vm_compute. reflexivity. Qed.

(** X21.  [getFeaturedPosts] answers with the first posts of
    [Post.findFeatured]: five of them when the limit is missing, not a
    number or 0, and as many as the absolute value of the limit
    otherwise; never more. *)
Theorem getFeaturedPosts_limit (limit : option Z) (db : PostController.Db) :
  let k := match limit with
           | Some n => if n =? 0 then 5%nat else Z.abs_nat n
           | None => 5%nat
           end in
  PostController.getFeaturedPosts limit db
  = PostController.Json 200 true None
      (Some (firstn k (Post.findFeatured (PostController.posts db)))) None
  /\ (length (firstn k (Post.findFeatured (PostController.posts db))) <= k)%nat.
Proof.
  cbv zeta. split; [|apply firstn_le_length].
  unfold PostController.getFeaturedPosts, Post.findFeatured, Query.limit.
  destruct limit as [n|]; [|reflexivity].
  destruct (n =? 0) eqn:E; [reflexivity|]. rewrite E.
  now rewrite Zabs2Nat.abs_nat_spec.
Qed.

Example getFeaturedPosts_example :
  option_map (map Post._id)
    (PostController.data (PostController.getFeaturedPosts (Some 0) featured_db))
  = Some (map str ["i"; "h"; "g"; "f"; "c"]%string)
  /\ option_map (map Post._id)
       (PostController.data
          (PostController.getFeaturedPosts (Some (-2)) featured_db))
     = Some (map str ["i"; "h"]%string).
Proof. split; vm_compute; reflexivity. Qed.

(** ** Counting a view through the document *)



(** ** Comments: edits, moderation, statistics *)

Lemma comment_save_inv (now : Z) (d d' : document Comment.t)
  (coll coll' : list Comment.t) :
  Comment.save now d coll = Resolved d' coll' ->
  Comment.validate d = true
  /\ fields d'
     = (if isNew d then Comment.set_createdAt now
                         (fields (Comment.pre_save now d))
        else fields (Comment.pre_save now d))
  /\ isNew d' = false /\ modifiedPaths d' = [].
Proof.
  unfold Comment.save.
  assert (N : isNew (Comment.pre_save now d) = isNew d).
  { unfold Comment.pre_save. now destruct (_ && _)%bool. }
  rewrite N. destruct (Comment.validate d); [|discriminate].
  intros [= <- _]. auto.
Qed.

(** X23.  A comment is marked edited by [save()] in one case only: it was
    saved before and its content was set; [isEdited] is then true and
    [editedAt] the time of the save.  The first save of a comment never
    marks it, and neither does a save that leaves the content alone. *)
Theorem comment_edit_tracking
  (now : Z) (d d' : document Comment.t) (coll coll' : list Comment.t) :
  Comment.save now d coll = Resolved d' coll' ->
  (isNew d = false -> isModified "content" d = true ->
   Comment.isEdited (fields d') = true
   /\ Comment.editedAt (fields d') = Some now)
  /\ (isNew d = true \/ isModified "content" d = false ->
      Comment.isEdited (fields d') = Comment.isEdited (fields d)
      /\ Comment.editedAt (fields d') = Comment.editedAt (fields d)).
Proof.
  intros H. apply comment_save_inv in H as (_ & -> & _).
  unfold Comment.pre_save. split.
  - intros -> ->. simpl. auto.
  - intros [-> | ->]; simpl.
    + rewrite andb_false_r. simpl. auto.
    + destruct (isNew d); simpl; auto.
Qed.

Lemma comment_edit_tracking_witness :
  (exists d' coll',
     Comment.save 99 edited_comment thread = Resolved d' coll'
     /\ Comment.isEdited (fields d') = true
     /\ Comment.editedAt (fields d') = Some 99)
  /\ (exists d' coll',
        Comment.save 99 unsaved_comment thread = Resolved d' coll'
        /\ Comment.isEdited (fields d') = false
        /\ Comment.editedAt (fields d') = None).
Proof.
  split.
  - destruct (Comment.save 99 edited_comment thread) as [d' coll'|] eqn:E;
      [|vm_compute in E; discriminate].
    exists d', coll'. split; [reflexivity|].
    exact (proj1 (comment_edit_tracking _ _ _ _ _ E) eq_refl eq_refl).
  - destruct (Comment.save 99 unsaved_comment thread) as [d' coll'|] eqn:E;
      [|vm_compute in E; discriminate].
    exists d', coll'. split; [reflexivity|].
    exact (proj2 (comment_edit_tracking _ _ _ _ _ E) (or_introl eq_refl)).
Defined.

Lemma comment_method_saved (now : Z) (c' : Comment.t) (paths : list string)
  (coll : list Comment.t) :
  existsb (String.eqb "content") paths = false ->
  Comment.save now (Document c' false paths) coll
  = Resolved (loaded c') (Comment.persist false c' coll).
Proof.
  intros H. unfold Comment.save, Comment.validate, validated, Comment.pre_save,
    isModified.
  cbn [isNew modifiedPaths fields]. now rewrite H.
Qed.

(** X24.  On a comment as it is stored, liking, reporting, approving and
    rejecting always succeed, never mark the comment edited and never touch
    its content; a report adds one to [reportCount], sets [isReported] and
    leaves the approval as it is; approving and rejecting set the approval
    and leave the reports and the likes as they are. *)
Theorem comment_methods_frame
  (u : ObjectId) (now : Z) (c : Comment.t) (coll : list Comment.t) :
  (exists c' coll',
     Comment.toggleLike u now (loaded c) coll = Resolved (loaded c') coll'
     /\ unedited c c'
     /\ Comment.isApproved c' = Comment.isApproved c
     /\ Comment.reportCount c' = Comment.reportCount c)
  /\ (exists c' coll',
        Comment.report now (loaded c) coll = Resolved (loaded c') coll'
        /\ unedited c c'
        /\ Comment.reportCount c' = Comment.reportCount c + 1
        /\ Comment.isReported c' = true
        /\ Comment.isApproved c' = Comment.isApproved c
        /\ Comment.likes c' = Comment.likes c)
  /\ (exists c' coll',
        Comment.approve now (loaded c) coll = Resolved (loaded c') coll'
        /\ unedited c c'
        /\ Comment.isApproved c' = true
        /\ Comment.reportCount c' = Comment.reportCount c
        /\ Comment.likes c' = Comment.likes c)
  /\ (exists c' coll',
        Comment.reject now (loaded c) coll = Resolved (loaded c') coll'
        /\ unedited c c'
        /\ Comment.isApproved c' = false
        /\ Comment.reportCount c' = Comment.reportCount c
        /\ Comment.likes c' = Comment.likes c).
Proof.
  unfold unedited. split; [|split; [|split]].
  - do 2 eexists. split; [apply comment_toggleLike_loaded|].
    simpl. auto.
  - do 2 eexists. split.
    + unfold Comment.report, Comment.assigned, markModified, with_fields, loaded.
      cbn [fields isNew modifiedPaths].
      destruct (negb (Comment.isReported c));
        apply comment_method_saved; reflexivity.
    + simpl. repeat split; reflexivity.
  - do 2 eexists. split.
    + unfold Comment.approve, Comment.assigned, markModified, with_fields,
        loaded.
      cbn [fields isNew modifiedPaths].
      destruct (negb (Comment.isApproved c));
        apply comment_method_saved; reflexivity.
    + simpl. repeat split; reflexivity.
  - do 2 eexists. split.
    + unfold Comment.reject, Comment.assigned, markModified, with_fields,
        loaded.
      cbn [fields isNew modifiedPaths].
      destruct (Comment.isApproved c);
        apply comment_method_saved; reflexivity.
    + simpl. repeat split; reflexivity.
Qed.

Lemma findReplies_In (parent : ObjectId) (coll : list Comment.t)
  (x : Comment.t) :
  In x (Comment.findReplies parent coll)
  <-> In x coll /\ Comment.isApproved x = true
      /\ Comment.parentComment x = Some parent.
Proof.
  unfold Comment.findReplies.
  rewrite sort_by_In, filter_In, replies_filter. unfold is_reply_to.
  destruct (Comment.parentComment x) as [q|].
  - rewrite andb_true_iff, str_eqb_eq. split.
    + intros (H & -> & Ha). auto.
    + intros (H & Ha & [= ->]). auto.
  - split; [intros [_ [=]] | intros (_ & _ & [=])].
Qed.

Lemma updateOne_In_unique (c y : Comment.t) (coll : list Comment.t) :
  NoDup (map Comment._id coll) -> In c coll ->
  forall x,
    In x (Query.updateOne (fun z => str_eqb (Comment._id z) (Comment._id c))
                          (fun _ => y) coll)
    <-> x = y \/ (In x coll /\ Comment._id x <> Comment._id c).
Proof.
  induction coll as [|h l IH]; intros N Hc x; [contradiction|].
  inversion N as [|? ? Hh Hl]; subst. simpl.
  destruct (str_eqb (Comment._id h) (Comment._id c)) eqn:K.
  - apply str_eqb_eq in K. simpl. split.
    + intros [<-|H]; [now left|]. right. split; [now right|].
      intros E. apply Hh. rewrite K, <- E. now apply in_map.
    + intros [->|[[<-|H] Hne]]; [now left | congruence | now right].
  - apply str_eqb_neq in K.
    assert (Hc' : In c l) by (destruct Hc as [<-|H]; [congruence | exact H]).
    simpl. rewrite (IH Hl Hc' x). split.
    + intros [<-|[->|[H Hne]]]; [right; split; [now left | exact K]
                                | now left | right; split; [now right | exact Hne]].
    + intros [->|[[<-|H] Hne]]; [right; now left | now left
                                | right; right; now split].
Qed.

Lemma reject_loaded (now : Z) (c : Comment.t) (coll : list Comment.t) :
  Comment.reject now (loaded c) coll
  = Resolved (loaded (Comment.set_isApproved false c))
             (Comment.persist false (Comment.set_isApproved false c) coll).
Proof.
  unfold Comment.reject, Comment.assigned, markModified, with_fields, loaded.
  cbn [fields isNew modifiedPaths].
  destruct (Comment.isApproved c); apply comment_method_saved; reflexivity.
Qed.

Lemma approve_loaded (now : Z) (c : Comment.t) (coll : list Comment.t) :
  Comment.approve now (loaded c) coll
  = Resolved (loaded (Comment.set_isApproved true c))
             (Comment.persist false (Comment.set_isApproved true c) coll).
Proof.
  unfold Comment.approve, Comment.assigned, markModified, with_fields, loaded.
  cbn [fields isNew modifiedPaths].
  destruct (negb (Comment.isApproved c)); apply comment_method_saved;
    reflexivity.
Qed.

(** X25.  In a collection where no two comments share an [_id], rejecting a
    reply takes it out of the replies listed for its parent and approving
    it puts it in; the other replies listed are the same before and
    after. *)
Theorem moderation_and_replies
  (now : Z) (c : Comment.t) (coll : list Comment.t) (parent : ObjectId) :
  NoDup (map Comment._id coll) ->
  In c coll ->
  Comment.parentComment c = Some parent ->
  (exists coll',
     Comment.reject now (loaded c) coll
     = Resolved (loaded (Comment.set_isApproved false c)) coll'
     /\ forall x, In x (Comment.findReplies parent coll') <->
                  In x (Comment.findReplies parent coll)
                  /\ Comment._id x <> Comment._id c)
  /\ (exists coll',
        Comment.approve now (loaded c) coll
        = Resolved (loaded (Comment.set_isApproved true c)) coll'
        /\ forall x, In x (Comment.findReplies parent coll') <->
                     x = Comment.set_isApproved true c
                     \/ (In x (Comment.findReplies parent coll)
                         /\ Comment._id x <> Comment._id c)).
Proof.
  intros N Hc Hp. split.
  - eexists. split; [apply reject_loaded|].
    intros x. rewrite !findReplies_In. unfold Comment.persist.
    cbn [Comment._id Comment.set_isApproved].
    rewrite (updateOne_In_unique c _ coll N Hc). split.
    + intros ([->|[Hin Hne]] & Ha & Hx); [discriminate Ha | auto].
    + intros ((Hin & Ha & Hx) & Hne). auto.
  - eexists. split; [apply approve_loaded|].
    intros x. rewrite !findReplies_In. unfold Comment.persist.
    cbn [Comment._id Comment.set_isApproved].
    rewrite (updateOne_In_unique c _ coll N Hc). split.
    + intros ([->|[Hin Hne]] & Ha & Hx); [now left | right; auto].
    + intros [->|((Hin & Ha & Hx) & Hne)].
      * split; [now left|]. split; [reflexivity | exact Hp].
      * auto.
Qed.

Lemma moderation_and_replies_witness :
  (exists coll',
     Comment.reject 99 (loaded (a_comment "r1" (Some "top"%string) true 20))
                    thread
     = Resolved (loaded (a_comment "r1" (Some "top"%string) false 20)) coll'
     /\ map Comment._id (Comment.findReplies (str "top") coll') = [str "r2"])
  /\ (exists coll',
        Comment.approve 99 (loaded (a_comment "r3" (Some "top"%string) false 25))
                        thread
        = Resolved (loaded (a_comment "r3" (Some "top"%string) true 25)) coll'
        /\ In (a_comment "r3" (Some "top"%string) true 25)
              (Comment.findReplies (str "top") coll')).
Proof.
  assert (N : NoDup (map Comment._id thread)).
  { vm_compute. repeat constructor; simpl; intuition discriminate. }
  split.
  - destruct (moderation_and_replies 99
                (a_comment "r1" (Some "top"%string) true 20) thread (str "top")
                N ltac:(vm_compute; tauto) eq_refl) as [(coll' & E & _) _].
    exists coll'. split; [exact E|].
    rewrite reject_loaded in E. injection E as <-. reflexivity.
  - destruct (moderation_and_replies 99
                (a_comment "r3" (Some "top"%string) false 25) thread (str "top")
                N ltac:(vm_compute; tauto) eq_refl) as [_ (coll' & E & H)].
    exists coll'. split; [exact E|]. apply H. now left.
Defined.

(** ** Statistics of the comments of a post *)

Lemma group_from_spec (acc : Comment.stats) (l : list Comment.t) :
  let s := Comment.group_from acc l in
  Comment.totalComments s = Comment.totalComments acc + Z.of_nat (length l)
  /\ Comment.totalLikes s = Comment.totalLikes acc + likes_total l
  /\ Comment.lastCommentDate acc <= Comment.lastCommentDate s
  /\ (forall c, In c l -> Comment.createdAt c <= Comment.lastCommentDate s)
  /\ (Comment.lastCommentDate s = Comment.lastCommentDate acc
      \/ exists c, In c l /\ Comment.createdAt c = Comment.lastCommentDate s).
Proof.
  revert acc. induction l as [|x l IH]; intros acc; cbn [Comment.group_from].
  - simpl. split; [lia|]. split; [lia|]. split; [lia|].
    split; [intros c []|]. now left.
  - specialize (IH (Comment.Stats
                      (Comment.totalComments acc + 1)
                      (Comment.totalLikes acc
                       + Z.of_nat (length (Comment.likes x)))
                      (Z.max (Comment.lastCommentDate acc)
                             (Comment.createdAt x)))).
    cbv zeta in *. cbn [Comment.totalComments Comment.totalLikes
                        Comment.lastCommentDate] in IH.
    destruct IH as (A & B & C & D & E).
    split; [rewrite A; simpl length; lia|].
    split; [rewrite B; unfold likes_total; simpl; lia|].
    split; [lia|]. split.
    + intros c [<-|H]; [lia | now apply D].
    + destruct E as [E|(c & Hc & E)]; [|right; exists c; split; [now right|exact E]].
      rewrite E.
      destruct (Z.max_spec (Comment.lastCommentDate acc) (Comment.createdAt x))
        as [[_ ->]|[_ ->]]; [right; exists x; split; [now left|reflexivity]
                            | now left].
Qed.

(** X26.  [getPostStats] yields no document when the post has no approved
    comment, and a single one otherwise: the number of the approved
    comments of the post, the sum of the sizes of their [likes], and the
    creation date of the latest of them. *)
Theorem getPostStats_spec (postId : ObjectId) (coll : list Comment.t) :
  match Comment.getPostStats postId coll with
  | [] => filter (approved_on postId) coll = []
  | [s] =>
      Comment.totalComments s
      = Z.of_nat (length (filter (approved_on postId) coll))
      /\ 1 <= Comment.totalComments s
      /\ Comment.totalLikes s = likes_total (filter (approved_on postId) coll)
      /\ (forall c, In c (filter (approved_on postId) coll) ->
                    Comment.createdAt c <= Comment.lastCommentDate s)
      /\ (exists c, In c (filter (approved_on postId) coll)
                    /\ Comment.createdAt c = Comment.lastCommentDate s)
  | _ :: _ :: _ => False
  end.
Proof.
  unfold Comment.getPostStats.
  assert (F : forall c,
             Comment.matches (Comment.Filter (Some postId) (Some true) None) c
             = approved_on postId c).
  { intros c. unfold Comment.matches, approved_on. simpl.
    rewrite andb_true_r. now destruct (Comment.isApproved c). }
  rewrite (filter_ext _ _ F).
  destruct (filter (approved_on postId) coll) as [|c l]; [reflexivity|].
  destruct (group_from_spec
              (Comment.Stats 1 (Z.of_nat (length (Comment.likes c)))
                             (Comment.createdAt c)) l)
    as (A & B & C & D & E).
  cbn [Comment.totalComments Comment.totalLikes Comment.lastCommentDate]
    in A, B, C, E.
  split; [rewrite A; simpl length; lia|].
  split; [rewrite A; lia|].
  split; [rewrite B; unfold likes_total; simpl; lia|].
  split.
  - intros x [<-|H]; [exact C | now apply D].
  - destruct E as [E|(x & Hx & E)].
    + exists c. split; [now left | now rewrite E].
    + exists x. split; [now right | exact E].
Qed.

Example getPostStats_example :
  Comment.getPostStats (str "p1") (liked_comment :: thread)
  = [Comment.Stats 5 2 40]
  /\ Comment.getPostStats (str "p2") thread = [].
Proof. split; vm_compute; reflexivity. Qed.

(** ** A page of comments *)

Lemma comment_by_field_total (field : string) (x y : Comment.t) :
  Comment.by_field field x y = false -> Comment.by_field field y x = true.
Proof. apply value_leb_total. Qed.

(** X27.  A page of [findByPost] holds no more comments than the limit (10
    when none is given) unless the limit is 0, in the order asked for; with
    no order asked for, the comment created last comes first. *)
Theorem findByPost_page
  (postId : ObjectId) (o : Comment.options) (coll : list Comment.t) :
  (Comment.or_default (Comment.limit o) 10 <> 0 ->
   (length (Comment.findByPost postId o coll)
    <= Z.abs_nat (Comment.or_default (Comment.limit o) 10%Z))%nat)
  /\ Sorted (fun x y =>
               Query.directed
                 (Comment.by_field
                    (Comment.or_default (Comment.sortBy o) "createdAt"%string))
                 (Comment.or_default (Comment.sortOrder o) (-1)) x y = true)
            (Comment.findByPost postId o coll)
  /\ (Comment.sortBy o = None -> Comment.sortOrder o = None ->
      Sorted (fun x y => Comment.createdAt y <= Comment.createdAt x)
             (Comment.findByPost postId o coll)).
Proof.
  assert (S : Sorted (fun x y =>
               Query.directed
                 (Comment.by_field
                    (Comment.or_default (Comment.sortBy o) "createdAt"%string))
                 (Comment.or_default (Comment.sortOrder o) (-1)) x y = true)
            (Comment.findByPost postId o coll)).
  { unfold Comment.findByPost. apply Sorted_limit, Sorted_skipn.
    apply sort_by_sorted, directed_total, comment_by_field_total. }
  split; [|split; [exact S|]].
  - intros H. unfold Comment.findByPost. rewrite Z.mul_1_r.
    now apply limit_length.
  - intros Hb Ho. rewrite Hb, Ho in S. cbn [Comment.or_default] in S.
    eapply Sorted_weaken; [|exact S].
    intros x y H. unfold Query.directed in H. simpl in H.
    now apply by_createdAt in H.
Qed.

Lemma findByPost_page_witness :
  (length (Comment.findByPost (str "p1") top_level_only thread) <= 10)%nat
  /\ Sorted (fun x y => Comment.createdAt y <= Comment.createdAt x)
            (Comment.findByPost (str "p1") top_level_only thread).
Proof.
  destruct (findByPost_page (str "p1") top_level_only thread) as (A & _ & B).
  split; [apply A; discriminate | apply B; reflexivity].
Defined.

(** ** What an update answers *)

(** X28.  When [updatePost] answers 200, the requester is the author or an
    admin, and the post of the answer is the post as it is stored
    afterwards: the title, content, category and status that the body
    gives (not empty) are set, the title trimmed; those the body leaves out
    or gives empty are kept; the excerpt and [allowComments] are set when
    the body has them, the excerpt also when empty. *)
Theorem updatePost_answer
  (valid : bool) (user : PostController.User) (postId : ObjectId)
  (body : PostController.Body) (db : PostController.Db) :
  let r := PostController.updatePost valid user postId body db in
  PostController.statusCode (fst r) = 200 ->
  exists post post',
    Post.findById postId (PostController.posts db) = Some post
    /\ PostController.may_write user post = true
    /\ PostController.data (fst r) = Some (Some post')
    /\ Post.findById postId (PostController.posts (snd r)) = Some post'
    /\ Post.title post'
       = match PostController.when_truthy (PostController.b_title body) with
         | Some t => trim t
         | None => Post.title post
         end
    /\ Post.content post'
       = Post.or_else
           (PostController.when_truthy (PostController.b_content body))
           (Post.content post)
    /\ Post.category post'
       = Post.or_else
           (PostController.when_truthy (PostController.b_category body))
           (Post.category post)
    /\ match PostController.when_truthy (PostController.b_status body) with
       | Some s => Post.status_of_string s = Some (Post.status post')
       | None => Post.status post' = Post.status post
       end
    /\ Post.excerpt post'
       = match PostController.b_excerpt body with
         | Some e => Some e
         | None => Post.excerpt post
         end
    /\ Post.allowComments post'
       = Post.or_else (PostController.b_allowComments body)
                      (Post.allowComments post).
Proof.
  cbv zeta. unfold PostController.updatePost.
  destruct (negb valid); [discriminate|].
  destruct (Post.findById postId (PostController.posts db)) as [post|] eqn:F;
    [|discriminate].
  destruct (negb (PostController.may_write user post)) eqn:W; [discriminate|].
  match goal with |- context [if ?b then _ else _] => destruct b end;
    [discriminate|].
  unfold Post.findByIdAndUpdate.
  destruct (Post.update_valid (PostController.update_of body)) eqn:U;
    [|discriminate].
  intros _. cbn [fst snd PostController.data PostController.posts].
  assert (G : Post.findById postId
                (Query.updateOne (fun x => str_eqb (Post._id x) postId)
                   (Post.apply_update (PostController.update_of body))
                   (PostController.posts db))
              = Some (Post.apply_update (PostController.update_of body) post)).
  { unfold Post.findById, Query.findOne in *.
    apply (find_updateOne _ _ _ _ F).
    apply find_some in F as [_ F]. exact F. }
  exists post, (Post.apply_update (PostController.update_of body) post).
  split; [reflexivity|]. split; [now apply negb_false_iff in W|].
  split; [now rewrite G|]. split; [exact G|].
  cbn [Post.apply_update PostController.update_of Post.title Post.content
       Post.category Post.status Post.excerpt Post.allowComments
       Post.u_title Post.u_content Post.u_category Post.u_status
       Post.u_excerpt Post.u_allowComments].
  repeat (split; [reflexivity|]). split; [|split; reflexivity].
  unfold Post.update_valid in U.
  cbn [PostController.update_of Post.u_status] in U.
  apply andb_true_iff in U as [_ U].
  destruct (PostController.when_truthy (PostController.b_status body)) as [s|];
    [|reflexivity].
  destruct (Post.status_of_string s); [reflexivity | discriminate].
Qed.

Lemma updatePost_answer_witness :
  exists post',
    PostController.data
      (fst (PostController.updatePost true the_author (str "p1") retitle
              draft_db)) = Some (Some post')
    /\ Post.findById (str "p1")
         (PostController.posts
            (snd (PostController.updatePost true the_author (str "p1") retitle
                    draft_db))) = Some post'
    /\ Post.title post' = str "A brand new title"
    /\ Post.status post' = Post.draft.
Proof.
  destruct (updatePost_answer true the_author (str "p1") retitle draft_db
              eq_refl)
    as (post & post' & F & _ & A & B & C & _ & _ & D & _).
  exists post'. split; [exact A|]. split; [exact B|].
  vm_compute in F. injection F as <-.
  split; [exact C | exact D].
Defined.
